(** * The availability / appointment-slot engine of health-first-server

    A shallow embedding of
      - [models/ProviderAvailability.py]        (the data model and its validators),
      - [models/provider_availability_store.py] (the in-memory store),
      - [services/providerAvailabilityService.py] (time conversion, slot
        generation, recurrence expansion, conflict checking, create, update,
        delete and search),
    followed by the properties of the engine.

    Conventions.
      - A timezone-aware [datetime] is the number of seconds since
        1970-01-01T00:00:00Z; a naive [datetime] is the same count read on the
        wall clock.  Sub-second precision is not modelled.  The datetimes
        that exist lie between [Datetime.MIN] and [Datetime.MAX]: the
        arithmetic of the code that would leave this range raises.
      - A [date] is its proleptic Gregorian ordinal ([date.toordinal()]).
      - A [str] is a [string], one character per ASCII character; a [float]
        price is the rational number it denotes.
      - A Python [dict] whose keys are fixed by the code is a record; a key
        that may be absent is an [option] field.
      - The module-level lists of the store, the uuid generator and the clock
        are the state threaded through the service ([World]). *)

From Stdlib Require Import ZArith List String Ascii Bool Lia QArith DecimalString Sorted
  Permutation.
Import ListNotations.
Close Scope Q_scope.
Local Open Scope string_scope.
Local Open Scope list_scope.
Local Open Scope Z_scope.

(* ================================================================= *)
(** ** Python strings and integers *)

Module Py.

(** The value of an ASCII decimal digit. *)
Definition digit_of (c : ascii) : option Z :=
  let n := Z.of_N (N_of_ascii c) in
  if (48 <=? n) && (n <=? 57) then Some (n - 48) else None.

Definition is_digit (c : ascii) : bool :=
  match digit_of c with Some _ => true | None => false end.

(** The ASCII blanks that [int] skips around a number: the space and the
    characters from tab to carriage return. *)
Definition is_space (c : ascii) : bool :=
  let n := Z.of_N (N_of_ascii c) in
  ((9 <=? n) && (n <=? 13)) || (n =? 32).

(** The string without the blanks at its start, and without those at its
    end. *)
Fixpoint skip_blanks (s : string) : string :=
  match s with
  | EmptyString => EmptyString
  | String c rest => if is_space c then skip_blanks rest else s
  end.

Fixpoint trim_blanks (s : string) : string :=
  match s with
  | EmptyString => EmptyString
  | String c rest =>
      match trim_blanks rest with
      | EmptyString => if is_space c then EmptyString else String c EmptyString
      | kept => String c kept
      end
  end.

(** Decimal digits, a single underscore allowed between two of them. *)
Fixpoint int_digits (acc : Z) (after_digit : bool) (s : string) : option Z :=
  match s with
  | EmptyString => if after_digit then Some acc else None
  | String c rest =>
      match digit_of c with
      | Some d => int_digits (10 * acc + d) true rest
      | None =>
          if Ascii.eqb c "_" && after_digit then int_digits acc false rest else None
      end
  end.

(** [int(s)] on an ASCII string: blanks around, an optional sign, then
    digits; [None] stands for ValueError.  (Python's [int] also reads the
    decimal digits of other scripts; strings are ASCII here.) *)
Definition int (s : string) : option Z :=
  match trim_blanks (skip_blanks s) with
  | String c rest =>
      if Ascii.eqb c "+" then int_digits 0 false rest
      else if Ascii.eqb c "-" then option_map Z.opp (int_digits 0 false rest)
      else int_digits 0 false (String c rest)
  | EmptyString => None
  end.

(** [s.split(sep)] for a one-character separator. *)
Fixpoint split (sep : ascii) (s : string) : list string :=
  match s with
  | EmptyString => [EmptyString]
  | String c rest =>
      if Ascii.eqb c sep then EmptyString :: split sep rest
      else match split sep rest with
           | [] => [String c EmptyString]
           | p :: ps => String c p :: ps
           end
  end.

Definition digit_char (d : Z) : ascii := ascii_of_N (Z.to_N (48 + d)).

(** ["%02d" % n], for [0 <= n < 100] (what [strftime] and [isoformat] need). *)
Definition pad2 (n : Z) : string :=
  String (digit_char (n / 10)) (String (digit_char (n mod 10)) EmptyString).

(** ["%04d" % n], for [0 <= n < 10000]. *)
Definition pad4 (n : Z) : string :=
  String (digit_char (n / 1000))
    (String (digit_char ((n / 100) mod 10)) (pad2 (n mod 100))).

(** [s[:n]] *)
Fixpoint take (n : nat) (s : string) : string :=
  match n, s with
  | S n', String c rest => String c (take n' rest)
  | _, _ => EmptyString
  end.

(** [needle in haystack] *)
Fixpoint contains (needle haystack : string) : bool :=
  if String.prefix needle haystack then true
  else match haystack with
       | EmptyString => false
       | String _ rest => contains needle rest
       end.

(** Truthiness of a string: the empty string is falsy. *)
Definition truthy (s : string) : bool :=
  match s with EmptyString => false | _ => true end.

(** Truthiness of an optional string ([None] and [""] are falsy). *)
Definition truthy_opt (o : option string) : bool :=
  match o with Some s => truthy s | None => false end.

(** [a or b] on optional values whose [Some] is always truthy. *)
Definition or_else {A} (a : option A) (b : A) : A :=
  match a with Some x => x | None => b end.

End Py.

(* ================================================================= *)
(** ** The calendar of [datetime]: dates as proleptic Gregorian ordinals *)

Module Calendar.

Definition date := Z.

Definition is_leap (y : Z) : bool :=
  (y mod 4 =? 0) && (negb (y mod 100 =? 0) || (y mod 400 =? 0)).

Definition days_before_year (y : Z) : Z :=
  let y1 := y - 1 in y1 * 365 + y1 / 4 - y1 / 100 + y1 / 400.

Definition days_in_month (y m : Z) : Z :=
  if m =? 2 then (if is_leap y then 29 else 28)
  else if (m =? 4) || (m =? 6) || (m =? 9) || (m =? 11) then 30
  else 31.

Definition days_before_month (y m : Z) : Z :=
  (match m with
   | 1 => 0 | 2 => 31 | 3 => 59 | 4 => 90 | 5 => 120 | 6 => 151
   | 7 => 181 | 8 => 212 | 9 => 243 | 10 => 273 | 11 => 304 | _ => 334
   end) + (if (2 <? m) && is_leap y then 1 else 0).

(** [date(y, m, d).toordinal()] *)
Definition ymd2ord (y m d : Z) : date :=
  days_before_year y + days_before_month y m + d.

(** The month and day of the [n]-th day (from 0) of year [y]: a scan over the
    twelve months. *)
Fixpoint month_scan (fuel : nat) (y m n : Z) : Z * Z :=
  match fuel with
  | O => (m, n + 1)
  | S fuel' =>
      if n <? days_in_month y m then (m, n + 1)
      else month_scan fuel' y (m + 1) (n - days_in_month y m)
  end.

(** [date.fromordinal(n)] as (year, month, day), by the 400/100/4/1-year
    cycle decomposition of [datetime]. *)
Definition ord2ymd (n : date) : Z * Z * Z :=
  let n0 := n - 1 in
  let n400 := n0 / 146097 in
  let r400 := n0 mod 146097 in
  let n100 := r400 / 36524 in
  let r100 := r400 mod 36524 in
  let n4 := r100 / 1461 in
  let r4 := r100 mod 1461 in
  let n1 := r4 / 365 in
  let r1 := r4 mod 365 in
  let y := n400 * 400 + 1 + n100 * 100 + n4 * 4 + n1 in
  if (n1 =? 4) || (n100 =? 4) then (y - 1, 12, 31)
  else let '(m, d) := month_scan 11 y 1 r1 in (y, m, d).

Definition year_of (d : date) : Z := fst (fst (ord2ymd d)).
Definition month_of (d : date) : Z := snd (fst (ord2ymd d)).
Definition day_of (d : date) : Z := snd (ord2ymd d).

(** [d.isoformat()] *)
Definition isoformat (d : date) : string :=
  let '(y, m, dd) := ord2ymd d in
  (Py.pad4 y ++ "-" ++ Py.pad2 m ++ "-" ++ Py.pad2 dd)%string.

(** Ordinal of 1970-01-01. *)
Definition epoch_ordinal : Z := 719163.

(** [datetime.combine(d, time(h, m))] as wall-clock seconds. *)
Definition combine (d : date) (hour minute : Z) : Z :=
  (d - epoch_ordinal) * 86400 + hour * 3600 + minute * 60.

(** [dt.date()] of an instant read on the UTC wall clock. *)
Definition date_of (t : Z) : date := epoch_ordinal + t / 86400.

(** [timedelta(minutes=n)] in seconds. *)
Definition minutes (n : Z) : Z := 60 * n.

End Calendar.

(* ================================================================= *)
(** ** The range of [datetime] *)

Module Datetime.

(** [datetime.min], 0001-01-01T00:00:00, and [datetime.max] to the second,
    9999-12-31T23:59:59, on the scale of the instants. *)
Definition MIN : Z := Calendar.combine 1 0 0.
Definition MAX : Z := Calendar.combine (Calendar.ymd2ord 9999 12 31) 23 59 + 59.

Definition representable (t : Z) : bool := (MIN <=? t) && (t <=? MAX).

(** [dt + timedelta(seconds=s)]; [None] stands for OverflowError ("date value
    out of range"; a [timedelta] too large to be built raises the same
    exception before the addition). *)
Definition add (dt s : Z) : option Z :=
  if representable (dt + s) then Some (dt + s) else None.

End Datetime.

(* ================================================================= *)
(** ** models/ProviderAvailability.py *)

Inductive RecurrencePattern := DAILY | WEEKLY | MONTHLY.

Inductive AvailabilityStatus := AVAILABLE | BOOKED | CANCELLED | BLOCKED | MAINTENANCE.

Inductive AppointmentType := CONSULTATION | FOLLOW_UP | EMERGENCY | TELEMEDICINE.

Inductive LocationType := CLINIC | HOSPITAL | LOC_TELEMEDICINE | HOME_VISIT.

Definition RecurrencePattern_value (p : RecurrencePattern) : string :=
  match p with DAILY => "daily" | WEEKLY => "weekly" | MONTHLY => "monthly" end.

Definition AvailabilityStatus_value (s : AvailabilityStatus) : string :=
  match s with
  | AVAILABLE => "available" | BOOKED => "booked" | CANCELLED => "cancelled"
  | BLOCKED => "blocked" | MAINTENANCE => "maintenance"
  end.

Definition AppointmentType_value (t : AppointmentType) : string :=
  match t with
  | CONSULTATION => "consultation" | FOLLOW_UP => "follow_up"
  | EMERGENCY => "emergency" | TELEMEDICINE => "telemedicine"
  end.

(** A status compared with a string literal, as in [slot["status"] == "booked"]
    (the enumeration derives from [str]). *)
Definition status_is (s : AvailabilityStatus) (lit : string) : bool :=
  String.eqb (AvailabilityStatus_value s) lit.

Module Location.
Record t := make {
  type : LocationType;
  address : option string;
  room_number : option string }.
End Location.

Module Pricing.
Record t := make {
  base_fee : Q;
  insurance_accepted : bool;
  currency : string }.
End Pricing.

Module ProviderAvailabilityCreate.
Record t := make {
  provider_id : string;
  date : Calendar.date;
  start_time : string;
  end_time : string;
  timezone : string;
  is_recurring : bool;
  recurrence_pattern : option RecurrencePattern;
  recurrence_end_date : option Calendar.date;
  slot_duration : Z;
  break_duration : Z;
  status : AvailabilityStatus;
  max_appointments_per_slot : Z;
  appointment_type : AppointmentType;
  location : Location.t;
  pricing : option Pricing.t;
  notes : option string;
  special_requirements : option (list string) }.
End ProviderAvailabilityCreate.

Module ProviderAvailabilityUpdate.
Record t := make {
  start_time : option string;
  end_time : option string;
  status : option AvailabilityStatus;
  notes : option string;
  pricing : option Pricing.t;
  special_requirements : option (list string) }.
End ProviderAvailabilityUpdate.

Module AppointmentSlot.
Record t := make {
  id : string;
  availability_id : string;
  provider_id : string;
  slot_start_time : Z;
  slot_end_time : Z;
  status : AvailabilityStatus;
  patient_id : option string;
  appointment_type : string;
  booking_reference : option string;
  created_at : Z;
  updated_at : Z }.
End AppointmentSlot.

Module ProviderAvailabilityDB.
Record t := make {
  id : string;
  provider_id : string;
  date : Calendar.date;
  start_time : string;
  end_time : string;
  timezone : string;
  is_recurring : bool;
  recurrence_pattern : option RecurrencePattern;
  recurrence_end_date : option Calendar.date;
  slot_duration : Z;
  break_duration : Z;
  status : AvailabilityStatus;
  max_appointments_per_slot : Z;
  current_appointments : Z;
  appointment_type : AppointmentType;
  location : Location.t;
  pricing : option Pricing.t;
  notes : option string;
  special_requirements : list string;
  created_at : Z;
  updated_at : Z }.
End ProviderAvailabilityDB.

Module AvailabilitySearchRequest.
Record t := make {
  date : option Calendar.date;
  start_date : option Calendar.date;
  end_date : option Calendar.date;
  specialization : option string;
  location : option string;
  appointment_type : option AppointmentType;
  insurance_accepted : option bool;
  max_price : option Q;
  timezone : option string;
  available_only : bool }.
End AvailabilitySearchRequest.

(** The field pattern [^([01]?[0-9]|2[0-3]):[0-5][0-9]$] of [start_time] and
    [end_time]. *)
Definition hour_pattern (h : string) : bool :=
  match h with
  | String a EmptyString => Py.is_digit a
  | String a (String b EmptyString) =>
      match Py.digit_of a, Py.digit_of b with
      | Some x, Some y => (x <=? 1) || ((x =? 2) && (y <=? 3))
      | _, _ => false
      end
  | _ => false
  end.

Definition minute_pattern (m : string) : bool :=
  match m with
  | String a (String b EmptyString) =>
      match Py.digit_of a, Py.digit_of b with
      | Some x, Some _ => x <=? 5
      | _, _ => false
      end
  | _ => false
  end.

Definition time_pattern (s : string) : bool :=
  match Py.split ":" s with
  | [h; m] => hour_pattern h && minute_pattern m
  | _ => false
  end.

(** [ProviderAvailabilityCreate.validate_end_time]: [true] when the validator
    raises ([v <= start_time] on strings). *)
Definition validate_end_time_raises (start_time v : string) : bool :=
  String.leb v start_time.

(* ================================================================= *)
(** ** Collaborators: the timezone library, the uuid generator, the clock *)

(** A [pytz] timezone, of one of the three classes of the library: [pytz.UTC]
    itself, a zone without transitions, which has one UTC offset (seconds),
    and a zone with transitions, which has two tables: the offset that
    [localize] attaches to a naive wall time, and the offset in force at a
    UTC instant.  Offsets are whole seconds, less than a day in size. *)
Inductive tzinfo :=
| UTC
| StaticTzInfo (offset : Z)
| DstTzInfo (localize_table utcoffset_table : Z -> Z).

(** The UTC offset that [z.localize(l)] attaches to the naive wall time
    [l]. *)
Definition localize_utcoffset (z : tzinfo) (l : Z) : Z :=
  match z with
  | UTC => 0
  | StaticTzInfo offset => offset
  | DstTzInfo localize_table _ => localize_table l
  end.

(** The UTC offset in force in [z] at the UTC instant [t] (what
    [astimezone(z)] uses). *)
Definition utcoffset (z : tzinfo) (t : Z) : Z :=
  match z with
  | UTC => 0
  | StaticTzInfo offset => offset
  | DstTzInfo _ utcoffset_table => utcoffset_table t
  end.

(** [z.localize(l)]: the offset attached to the wall time, [None] when the
    call raises OverflowError.  A zone with transitions looks them up one day
    before and one day after the wall time ([dt + timedelta(days=-1)],
    [dt + timedelta(days=1)]); the other classes attach themselves to it. *)
Definition localize (z : tzinfo) (l : Z) : option Z :=
  match z with
  | DstTzInfo _ _ =>
      match Datetime.add l (-86400), Datetime.add l 86400 with
      | Some _, Some _ => Some (localize_utcoffset z l)
      | _, _ => None
      end
  | _ => Some (localize_utcoffset z l)
  end.

(** [local_dt.astimezone(pytz.UTC)] as an instant, for the wall time [l]
    localized in [z] with the offset [offset]: the datetime itself when its
    zone is [pytz.UTC], and [local_dt - offset] otherwise; [None] stands for
    OverflowError. *)
Definition astimezone_UTC (z : tzinfo) (l offset : Z) : option Z :=
  match z with
  | UTC => Some l
  | _ => Datetime.add l (- offset)
  end.

(** [utc_datetime.astimezone(z)] as a wall time: the datetime itself when
    [z] is [pytz.UTC], and [z.fromutc], which adds the offset in force,
    otherwise; [None] stands for OverflowError. *)
Definition astimezone (z : tzinfo) (utc_datetime : Z) : option Z :=
  match z with
  | UTC => Some utc_datetime
  | _ => Datetime.add utc_datetime (utcoffset z utc_datetime)
  end.

Record Env := {
  tzdata : string -> option tzinfo;   (* the zones [pytz] knows, by name *)
  uuid4_at : nat -> string;           (* the n-th [str(uuid.uuid4())] *)
  utcnow_at : nat -> Z;               (* the n-th [datetime.utcnow()] *)
  lower : string -> string }.         (* [str.lower] *)

(** [pytz.timezone(name)]; [None] stands for [UnknownTimeZoneError]. *)
Definition pytz_timezone (E : Env) (name : string) : option tzinfo :=
  if String.eqb name "UTC" then Some UTC else tzdata E name.

(* ================================================================= *)
(** ** models/provider_availability_store.py *)

(** A stored slot: the [dict()] of an [AppointmentSlot], plus the keys that
    [update_appointment_slot] may add.  The two slot times are the aware UTC
    datetimes that every writer of the store puts there (the seeds of the
    module and [add_appointment_slot]). *)
Module SlotDict.
Record t := make {
  id : string;
  availability_id : string;
  provider_id : string;
  slot_start_time : Z;
  slot_end_time : Z;
  status : AvailabilityStatus;
  patient_id : option string;
  appointment_type : string;
  booking_reference : option string;
  created_at : Z;
  updated_at : option Z;
  start_time : option string;
  end_time : option string;
  notes : option string;
  pricing : option Pricing.t;
  special_requirements : option (list string) }.
End SlotDict.

(** [slot.dict()] *)
Definition AppointmentSlot_dict (s : AppointmentSlot.t) : SlotDict.t :=
  {| SlotDict.id := AppointmentSlot.id s;
     SlotDict.availability_id := AppointmentSlot.availability_id s;
     SlotDict.provider_id := AppointmentSlot.provider_id s;
     SlotDict.slot_start_time := AppointmentSlot.slot_start_time s;
     SlotDict.slot_end_time := AppointmentSlot.slot_end_time s;
     SlotDict.status := AppointmentSlot.status s;
     SlotDict.patient_id := AppointmentSlot.patient_id s;
     SlotDict.appointment_type := AppointmentSlot.appointment_type s;
     SlotDict.booking_reference := AppointmentSlot.booking_reference s;
     SlotDict.created_at := AppointmentSlot.created_at s;
     SlotDict.updated_at := Some (AppointmentSlot.updated_at s);
     SlotDict.start_time := None;
     SlotDict.end_time := None;
     SlotDict.notes := None;
     SlotDict.pricing := None;
     SlotDict.special_requirements := None |}.

(** The dictionary [update_data] that the service passes to the store. *)
Module UpdateData.
Record t := make {
  start_time : option string;
  end_time : option string;
  status : option AvailabilityStatus;
  notes : option string;
  pricing : option Pricing.t;
  special_requirements : option (list string);
  updated_at : option Z }.
End UpdateData.

(** The module-level state: the two lists of the store, and how many uuids
    and clock readings have been drawn. *)
Record World := {
  PROVIDER_AVAILABILITY : list ProviderAvailabilityDB.t;
  APPOINTMENT_SLOTS : list SlotDict.t;
  uuid_drawn : nat;
  clock_read : nat }.

Definition set_PROVIDER_AVAILABILITY (l : list ProviderAvailabilityDB.t) (w : World) : World :=
  {| PROVIDER_AVAILABILITY := l; APPOINTMENT_SLOTS := APPOINTMENT_SLOTS w;
     uuid_drawn := uuid_drawn w; clock_read := clock_read w |}.

Definition set_APPOINTMENT_SLOTS (l : list SlotDict.t) (w : World) : World :=
  {| PROVIDER_AVAILABILITY := PROVIDER_AVAILABILITY w; APPOINTMENT_SLOTS := l;
     uuid_drawn := uuid_drawn w; clock_read := clock_read w |}.

(** Python exceptions, and the outcome of running a piece of code. *)
Inductive exn :=
| ValueError (msg : string)
| AttributeError (msg : string)
| OverflowError.

Inductive outcome (A : Type) :=
| Return (a : A)
| Raise (e : exn)
| Diverge.
Arguments Return {A} a.
Arguments Raise {A} e.
Arguments Diverge {A}.

Definition M (A : Type) : Type := World -> outcome A * World.

Definition ret {A} (a : A) : M A := fun w => (Return a, w).

Definition bind {A B} (m : M A) (k : A -> M B) : M B :=
  fun w =>
    match m w with
    | (Return a, w') => k a w'
    | (Raise e, w') => (Raise e, w')
    | (Diverge, w') => (Diverge, w')
    end.

Definition raise {A} (e : exn) : M A := fun w => (Raise e, w).
Definition diverge {A} : M A := fun w => (Diverge, w).

(** [try: m  except Exception as e: h e] *)
Definition try_except {A} (m : M A) (h : exn -> M A) : M A :=
  fun w =>
    match m w with
    | (Raise e, w') => h e w'
    | r => r
    end.

Definition lift {A} (o : outcome A) : M A := fun w => (o, w).
Definition gets {A} (f : World -> A) : M A := fun w => (Return (f w), w).
Definition modify (f : World -> World) : M unit := fun w => (Return tt, f w).

Notation "x <- m ;; k" := (bind m (fun x => k))
  (at level 61, m at next level, right associativity).
Notation "m ;;; k" := (bind m (fun _ => k))
  (at level 61, right associativity).

(** [for x in xs: body x] *)
Fixpoint for_each {A} (xs : list A) (body : A -> M unit) : M unit :=
  match xs with
  | [] => ret tt
  | x :: rest => body x ;;; for_each rest body
  end.

Section Store.
Context (E : Env).

Definition uuid4 : M string :=
  fun w => (Return (uuid4_at E (uuid_drawn w)),
            {| PROVIDER_AVAILABILITY := PROVIDER_AVAILABILITY w;
               APPOINTMENT_SLOTS := APPOINTMENT_SLOTS w;
               uuid_drawn := S (uuid_drawn w); clock_read := clock_read w |}).

Definition utcnow : M Z :=
  fun w => (Return (utcnow_at E (clock_read w)),
            {| PROVIDER_AVAILABILITY := PROVIDER_AVAILABILITY w;
               APPOINTMENT_SLOTS := APPOINTMENT_SLOTS w;
               uuid_drawn := uuid_drawn w; clock_read := S (clock_read w) |}).

Definition add_provider_availability (availability : ProviderAvailabilityDB.t) : M string :=
  modify (fun w => set_PROVIDER_AVAILABILITY (PROVIDER_AVAILABILITY w ++ [availability]) w) ;;;
  ret (ProviderAvailabilityDB.id availability).

Definition add_appointment_slot (slot : AppointmentSlot.t) : M string :=
  let slot_dict := AppointmentSlot_dict slot in
  modify (fun w => set_APPOINTMENT_SLOTS (APPOINTMENT_SLOTS w ++ [slot_dict]) w) ;;;
  ret (SlotDict.id slot_dict).

(** [get_appointment_slots(provider_id, availability_id, slot_id)] on the
    current list; an argument is used only when it is truthy. *)
Definition get_appointment_slots (store : list SlotDict.t)
    (provider_id availability_id slot_id : option string) : list SlotDict.t :=
  if Py.truthy_opt slot_id then
    filter (fun slot => String.eqb (SlotDict.id slot) (Py.or_else slot_id "")) store
  else if Py.truthy_opt availability_id then
    filter (fun slot => String.eqb (SlotDict.availability_id slot) (Py.or_else availability_id "")) store
  else if Py.truthy_opt provider_id then
    filter (fun slot => String.eqb (SlotDict.provider_id slot) (Py.or_else provider_id "")) store
  else store.

(** [slot.update(updates); slot["updated_at"] = updates.get("updated_at")] *)
Definition dict_update (slot : SlotDict.t) (updates : UpdateData.t) : SlotDict.t :=
  let upd {A} (new : option A) (old : option A) : option A :=
    match new with Some v => Some v | None => old end in
  {| SlotDict.id := SlotDict.id slot;
     SlotDict.availability_id := SlotDict.availability_id slot;
     SlotDict.provider_id := SlotDict.provider_id slot;
     SlotDict.slot_start_time := SlotDict.slot_start_time slot;
     SlotDict.slot_end_time := SlotDict.slot_end_time slot;
     SlotDict.status := Py.or_else (UpdateData.status updates) (SlotDict.status slot);
     SlotDict.patient_id := SlotDict.patient_id slot;
     SlotDict.appointment_type := SlotDict.appointment_type slot;
     SlotDict.booking_reference := SlotDict.booking_reference slot;
     SlotDict.created_at := SlotDict.created_at slot;
     SlotDict.updated_at := UpdateData.updated_at updates;
     SlotDict.start_time := upd (UpdateData.start_time updates) (SlotDict.start_time slot);
     SlotDict.end_time := upd (UpdateData.end_time updates) (SlotDict.end_time slot);
     SlotDict.notes := upd (UpdateData.notes updates) (SlotDict.notes slot);
     SlotDict.pricing := upd (UpdateData.pricing updates) (SlotDict.pricing slot);
     SlotDict.special_requirements :=
       upd (UpdateData.special_requirements updates) (SlotDict.special_requirements slot) |}.

Fixpoint update_first (slot_id : string) (updates : UpdateData.t)
    (store : list SlotDict.t) : option (list SlotDict.t) :=
  match store with
  | [] => None
  | slot :: rest =>
      if String.eqb (SlotDict.id slot) slot_id then Some (dict_update slot updates :: rest)
      else match update_first slot_id updates rest with
           | Some rest' => Some (slot :: rest')
           | None => None
           end
  end.

Definition update_appointment_slot (slot_id : string) (updates : UpdateData.t) : M bool :=
  store <- gets APPOINTMENT_SLOTS ;;
  match update_first slot_id updates store with
  | Some store' => modify (set_APPOINTMENT_SLOTS store') ;;; ret true
  | None => ret false
  end.

Fixpoint delete_first (slot_id : string) (store : list SlotDict.t) : option (list SlotDict.t) :=
  match store with
  | [] => None
  | slot :: rest =>
      if String.eqb (SlotDict.id slot) slot_id then Some rest
      else match delete_first slot_id rest with
           | Some rest' => Some (slot :: rest')
           | None => None
           end
  end.

Definition delete_appointment_slot (slot_id : string) : M bool :=
  store <- gets APPOINTMENT_SLOTS ;;
  match delete_first slot_id store with
  | Some store' => modify (set_APPOINTMENT_SLOTS store') ;;; ret true
  | None => ret false
  end.

End Store.

(* ================================================================= *)
(** ** dateutil.rrule, as far as the service uses it *)

Module Rrule.

(** [rrule(DAILY, ...)] and [rrule(WEEKLY, ...)]: every [step]-th day from
    [dtstart], [until] included. *)
Definition every (step : Z) (dtstart until : Calendar.date) : list Calendar.date :=
  if until <? dtstart then []
  else map (fun k => dtstart + step * Z.of_nat k)
           (seq 0 (Z.to_nat ((until - dtstart) / step) + 1)).

(** The zero-based index of the month of a date. *)
Definition month_index (d : Calendar.date) : Z :=
  Calendar.year_of d * 12 + (Calendar.month_of d - 1).

(** The day [day] of the month with index [i], when that month has one. *)
Definition in_month (day i : Z) : list Calendar.date :=
  let y := i / 12 in
  let m := i mod 12 + 1 in
  if day <=? Calendar.days_in_month y m then [Calendar.ymd2ord y m day] else [].

(** [rrule(MONTHLY, ...)]: the day of the month of [dtstart] in every month
    that has it, [until] included. *)
Definition monthly (dtstart until : Calendar.date) : list Calendar.date :=
  if until <? dtstart then []
  else
    let i0 := month_index dtstart in
    let months := map (fun k => i0 + Z.of_nat k)
                      (seq 0 (Z.to_nat (month_index until - i0) + 1)) in
    filter (fun d => (dtstart <=? d) && (d <=? until))
           (flat_map (in_month (Calendar.day_of dtstart)) months).

Definition rrule (freq : RecurrencePattern) (dtstart until : Calendar.date)
  : list Calendar.date :=
  match freq with
  | DAILY => every 1 dtstart until
  | WEEKLY => every 7 dtstart until
  | MONTHLY => monthly dtstart until
  end.

End Rrule.

(* ================================================================= *)
(** ** services/providerAvailabilityService.py *)

Inductive Response (D : Type) :=
| Success (message : option string) (data : D)
| Failure (message : string) (status_code : Z).
Arguments Success {D} message data.
Arguments Failure {D} message status_code.

Definition String_geb (a b : string) : bool := negb (String.ltb a b).

Section Service.
Context (E : Env).

(** [hour, minute = map(int, local_time.split(':'))] followed by
    [time(hour, minute)]; [None] stands for ValueError. *)
Definition parse_time (local_time : string) : option (Z * Z) :=
  match Py.split ":" local_time with
  | [h; m] =>
      match Py.int h, Py.int m with
      | Some hour, Some minute =>
          if (0 <=? hour) && (hour <? 24) && (0 <=? minute) && (minute <? 60)
          then Some (hour, minute) else None
      | _, _ => None
      end
  | _ => None
  end.

(** Whatever is raised inside, an unknown zone, a time that does not parse,
    or a datetime that leaves the range, comes out as the one ValueError. *)
Definition convert_to_utc (local_time : string) (date_obj : Calendar.date)
    (timezone_str : string) : outcome Z :=
  match pytz_timezone E timezone_str with
  | None => Raise (ValueError ("Invalid timezone or time format: " ++ timezone_str))
  | Some tz =>
      match parse_time local_time with
      | None => Raise (ValueError ("Invalid timezone or time format: " ++ timezone_str))
      | Some (hour, minute) =>
          let local_datetime := Calendar.combine date_obj hour minute in
          match localize tz local_datetime with
          | None => Raise (ValueError ("Invalid timezone or time format: " ++ timezone_str))
          | Some offset =>
              match astimezone_UTC tz local_datetime offset with
              | None =>
                  Raise (ValueError ("Invalid timezone or time format: " ++ timezone_str))
              | Some utc_dt => Return utc_dt
              end
          end
      end
  end.

(** [local_dt.strftime("%H:%M")] *)
Definition strftime_HM (local_dt : Z) : string :=
  (Py.pad2 ((local_dt mod 86400) / 3600) ++ ":" ++ Py.pad2 ((local_dt mod 3600) / 60))%string.

Definition convert_from_utc (utc_datetime : Z) (timezone_str : string) : outcome string :=
  match pytz_timezone E timezone_str with
  | None => Raise (ValueError ("Invalid timezone: " ++ timezone_str))
  | Some tz =>
      match astimezone tz utc_datetime with
      | None => Raise (ValueError ("Invalid timezone: " ++ timezone_str))
      | Some local_dt => Return (strftime_HM local_dt)
      end
  end.

(** [AppointmentSlot(...)]: the id and the two timestamps come from the
    default factories. *)
Definition new_AppointmentSlot (availability_id provider_id : string)
    (slot_start_time slot_end_time : Z) (status : AvailabilityStatus)
    (appointment_type : string) : M AppointmentSlot.t :=
  id <- uuid4 E ;;
  created_at <- utcnow E ;;
  updated_at <- utcnow E ;;
  ret {| AppointmentSlot.id := id;
         AppointmentSlot.availability_id := availability_id;
         AppointmentSlot.provider_id := provider_id;
         AppointmentSlot.slot_start_time := slot_start_time;
         AppointmentSlot.slot_end_time := slot_end_time;
         AppointmentSlot.status := status;
         AppointmentSlot.patient_id := None;
         AppointmentSlot.appointment_type := appointment_type;
         AppointmentSlot.booking_reference := None;
         AppointmentSlot.created_at := created_at;
         AppointmentSlot.updated_at := updated_at |}.

(** The [while current_time < end_dt] loop of the slot generator.  Each of
    its two additions raises OverflowError when the sum leaves the range of
    [datetime]. *)
Fixpoint slot_loop (fuel : nat) (availability : ProviderAvailabilityDB.t)
    (end_dt current_time : Z) (slots : list AppointmentSlot.t)
  : M (list AppointmentSlot.t) :=
  match fuel with
  | O => diverge
  | S fuel' =>
      if current_time <? end_dt then
        match Datetime.add current_time
                (Calendar.minutes (ProviderAvailabilityDB.slot_duration availability)) with
        | None => raise OverflowError
        | Some slot_end_time =>
            if slot_end_time >? end_dt then ret slots
            else
              slot <- new_AppointmentSlot
                        (ProviderAvailabilityDB.id availability)
                        (ProviderAvailabilityDB.provider_id availability)
                        current_time slot_end_time AVAILABLE
                        (AppointmentType_value
                           (ProviderAvailabilityDB.appointment_type availability)) ;;
              match Datetime.add slot_end_time
                      (Calendar.minutes
                         (ProviderAvailabilityDB.break_duration availability)) with
              | None => raise OverflowError
              | Some next_time =>
                  slot_loop fuel' availability end_dt next_time (slots ++ [slot])
              end
        end
      else ret slots
  end.

(** Iterations allowed to the loop, enough for every run that terminates:
    when [slot_duration + break_duration] is positive the cursor moves forward
    by at least a minute per iteration; otherwise a run stops in its first
    iteration or never stops. *)
Definition slot_loop_fuel (start_dt end_dt : Z) : nat :=
  S (Z.to_nat (end_dt - start_dt)).

Definition generate_slots_from_availability (availability : ProviderAvailabilityDB.t)
  : M (list AppointmentSlot.t) :=
  start_dt <- lift (convert_to_utc (ProviderAvailabilityDB.start_time availability)
                      (ProviderAvailabilityDB.date availability)
                      (ProviderAvailabilityDB.timezone availability)) ;;
  end_dt <- lift (convert_to_utc (ProviderAvailabilityDB.end_time availability)
                    (ProviderAvailabilityDB.date availability)
                    (ProviderAvailabilityDB.timezone availability)) ;;
  slot_loop (slot_loop_fuel start_dt end_dt) availability end_dt start_dt [].

(** The fields that [ProviderAvailabilityDB(...)] copies from a creation
    request, with the date of the occurrence. *)
Definition copy_of (availability : ProviderAvailabilityCreate.t) (date : Calendar.date)
    (id : string) (created_at updated_at : Z) : ProviderAvailabilityDB.t :=
  {| ProviderAvailabilityDB.id := id;
     ProviderAvailabilityDB.provider_id := ProviderAvailabilityCreate.provider_id availability;
     ProviderAvailabilityDB.date := date;
     ProviderAvailabilityDB.start_time := ProviderAvailabilityCreate.start_time availability;
     ProviderAvailabilityDB.end_time := ProviderAvailabilityCreate.end_time availability;
     ProviderAvailabilityDB.timezone := ProviderAvailabilityCreate.timezone availability;
     ProviderAvailabilityDB.is_recurring := ProviderAvailabilityCreate.is_recurring availability;
     ProviderAvailabilityDB.recurrence_pattern :=
       ProviderAvailabilityCreate.recurrence_pattern availability;
     ProviderAvailabilityDB.recurrence_end_date :=
       ProviderAvailabilityCreate.recurrence_end_date availability;
     ProviderAvailabilityDB.slot_duration := ProviderAvailabilityCreate.slot_duration availability;
     ProviderAvailabilityDB.break_duration := ProviderAvailabilityCreate.break_duration availability;
     ProviderAvailabilityDB.status := ProviderAvailabilityCreate.status availability;
     ProviderAvailabilityDB.max_appointments_per_slot :=
       ProviderAvailabilityCreate.max_appointments_per_slot availability;
     ProviderAvailabilityDB.current_appointments := 0;
     ProviderAvailabilityDB.appointment_type :=
       ProviderAvailabilityCreate.appointment_type availability;
     ProviderAvailabilityDB.location := ProviderAvailabilityCreate.location availability;
     ProviderAvailabilityDB.pricing := ProviderAvailabilityCreate.pricing availability;
     ProviderAvailabilityDB.notes := ProviderAvailabilityCreate.notes availability;
     ProviderAvailabilityDB.special_requirements :=
       Py.or_else (ProviderAvailabilityCreate.special_requirements availability) [];
     ProviderAvailabilityDB.created_at := created_at;
     ProviderAvailabilityDB.updated_at := updated_at |}.

(** [ProviderAvailabilityDB(...)]: the id and the two timestamps come from the
    default factories. *)
Definition new_ProviderAvailabilityDB (availability : ProviderAvailabilityCreate.t)
    (date : Calendar.date) : M ProviderAvailabilityDB.t :=
  id <- uuid4 E ;;
  created_at <- utcnow E ;;
  updated_at <- utcnow E ;;
  ret (copy_of availability date id created_at updated_at).

(** The [for date_obj in dates] loop of the recurrence expander. *)
Fixpoint recurring_loop (availability : ProviderAvailabilityCreate.t)
    (dates : list Calendar.date)
    (results : list (ProviderAvailabilityDB.t * list AppointmentSlot.t))
  : M (list (ProviderAvailabilityDB.t * list AppointmentSlot.t)) :=
  match dates with
  | [] => ret results
  | date_obj :: rest =>
      availability_db <- new_ProviderAvailabilityDB availability date_obj ;;
      slots <- generate_slots_from_availability availability_db ;;
      recurring_loop availability rest (results ++ [(availability_db, slots)])
  end.

Definition generate_recurring_slots (availability : ProviderAvailabilityCreate.t)
  : M (list (ProviderAvailabilityDB.t * list AppointmentSlot.t)) :=
  match ProviderAvailabilityCreate.is_recurring availability,
        ProviderAvailabilityCreate.recurrence_pattern availability,
        ProviderAvailabilityCreate.recurrence_end_date availability with
  | true, Some pattern, Some recurrence_end_date =>
      let dates := Rrule.rrule pattern (ProviderAvailabilityCreate.date availability)
                     recurrence_end_date in
      recurring_loop availability dates []
  | _, _, _ => ret []
  end.

(** The [for slot in existing_slots] scan of the conflict checker. *)
Fixpoint conflict_scan (existing_slots : list SlotDict.t) (start_time end_time : Z)
    (exclude_slot_id : option string) : bool :=
  match existing_slots with
  | [] => false
  | slot :: rest =>
      if Py.truthy_opt exclude_slot_id
         && String.eqb (SlotDict.id slot) (Py.or_else exclude_slot_id "")
      then conflict_scan rest start_time end_time exclude_slot_id
      else if (start_time <? SlotDict.slot_end_time slot)
              && (end_time >? SlotDict.slot_start_time slot)
      then true
      else conflict_scan rest start_time end_time exclude_slot_id
  end.

Definition check_slot_conflicts (w : World) (provider_id : string)
    (start_time end_time : Z) (exclude_slot_id : option string) : bool :=
  let existing_slots :=
    get_appointment_slots (APPOINTMENT_SLOTS w) (Some provider_id) None None in
  conflict_scan existing_slots start_time end_time exclude_slot_id.

(** What [create_provider_availability] reports on success. *)
Record CreateData := {
  availability_id : string;
  slots_created : Z;
  date_range : string * string;
  total_appointments_available : Z }.

(** The [for slot in slots] loop of create, with its two counters. *)
Fixpoint store_slots (availability_db : ProviderAvailabilityDB.t)
    (slots : list AppointmentSlot.t) (counters : Z * Z) : M (Z * Z) :=
  match slots with
  | [] => ret counters
  | slot :: rest =>
      add_appointment_slot slot ;;;
      store_slots availability_db rest
        (fst counters + 1,
         snd counters + ProviderAvailabilityDB.max_appointments_per_slot availability_db)
  end.

(** The [for availability_db, slots in recurring_results] loop of create. *)
Fixpoint store_recurring
    (recurring_results : list (ProviderAvailabilityDB.t * list AppointmentSlot.t))
    (counters : Z * Z) : M (Z * Z) :=
  match recurring_results with
  | [] => ret counters
  | (availability_db, slots) :: rest =>
      add_provider_availability availability_db ;;;
      counters' <- store_slots availability_db slots counters ;;
      store_recurring rest counters'
  end.

Definition create_provider_availability (availability : ProviderAvailabilityCreate.t)
  : M (Response CreateData) :=
  try_except
    (if String_geb (ProviderAvailabilityCreate.start_time availability)
                   (ProviderAvailabilityCreate.end_time availability)
     then ret (Failure "End time must be after start time" 400)
     else
       conflict <-
         (if negb (ProviderAvailabilityCreate.is_recurring availability) then
            start_dt <- lift (convert_to_utc (ProviderAvailabilityCreate.start_time availability)
                                (ProviderAvailabilityCreate.date availability)
                                (ProviderAvailabilityCreate.timezone availability)) ;;
            end_dt <- lift (convert_to_utc (ProviderAvailabilityCreate.end_time availability)
                              (ProviderAvailabilityCreate.date availability)
                              (ProviderAvailabilityCreate.timezone availability)) ;;
            gets (fun w => check_slot_conflicts w
                             (ProviderAvailabilityCreate.provider_id availability)
                             start_dt end_dt None)
          else ret false) ;;
       if conflict
       then ret (Failure "Time slot conflicts with existing availability" 409)
       else if ProviderAvailabilityCreate.is_recurring availability then
         recurring_results <- generate_recurring_slots availability ;;
         counters <- store_recurring recurring_results (0, 0) ;;
         match ProviderAvailabilityCreate.recurrence_end_date availability with
         | None => raise (AttributeError "'NoneType' object has no attribute 'isoformat'")
         | Some recurrence_end_date =>
             ret (Success (Some "Availability slots created successfully")
                    {| availability_id := "multiple";
                       slots_created := fst counters;
                       date_range :=
                         (Calendar.isoformat (ProviderAvailabilityCreate.date availability),
                          Calendar.isoformat recurrence_end_date);
                       total_appointments_available := snd counters |})
         end
       else
         availability_db <- new_ProviderAvailabilityDB availability
                              (ProviderAvailabilityCreate.date availability) ;;
         add_provider_availability availability_db ;;;
         slots <- generate_slots_from_availability availability_db ;;
         counters <- store_slots availability_db slots (0, 0) ;;
         ret (Success (Some "Availability slots created successfully")
                {| availability_id := ProviderAvailabilityDB.id availability_db;
                   slots_created := fst counters;
                   date_range :=
                     (Calendar.isoformat (ProviderAvailabilityCreate.date availability),
                      Calendar.isoformat (ProviderAvailabilityCreate.date availability));
                   total_appointments_available := snd counters |}))
    (fun _ => ret (Failure "Failed to create availability slots" 500)).

(** The dictionary [update_data] built from a patch: a field is copied when
    it is truthy. *)
Definition prepare_update_data (updates : ProviderAvailabilityUpdate.t) (now : Z)
  : UpdateData.t :=
  {| UpdateData.start_time :=
       if Py.truthy_opt (ProviderAvailabilityUpdate.start_time updates)
       then ProviderAvailabilityUpdate.start_time updates else None;
     UpdateData.end_time :=
       if Py.truthy_opt (ProviderAvailabilityUpdate.end_time updates)
       then ProviderAvailabilityUpdate.end_time updates else None;
     UpdateData.status := ProviderAvailabilityUpdate.status updates;
     UpdateData.notes :=
       if Py.truthy_opt (ProviderAvailabilityUpdate.notes updates)
       then ProviderAvailabilityUpdate.notes updates else None;
     UpdateData.pricing := ProviderAvailabilityUpdate.pricing updates;
     UpdateData.special_requirements :=
       match ProviderAvailabilityUpdate.special_requirements updates with
       | Some (r :: rs) => Some (r :: rs)
       | _ => None
       end;
     UpdateData.updated_at := Some now |}.

(** The block "check for conflicts if time is being updated" of update:
    [true] when it finds a conflict. *)
Definition update_conflicts (slot_id : string) (updates : ProviderAvailabilityUpdate.t)
    (slot : SlotDict.t) : M bool :=
  if Py.truthy_opt (ProviderAvailabilityUpdate.start_time updates)
     || Py.truthy_opt (ProviderAvailabilityUpdate.end_time updates)
  then
    let provider_id := SlotDict.provider_id slot in
    new_start_time <-
      (if Py.truthy_opt (ProviderAvailabilityUpdate.start_time updates)
       then ret (Py.or_else (ProviderAvailabilityUpdate.start_time updates) "")
       else lift (convert_from_utc (SlotDict.slot_start_time slot) "UTC")) ;;
    new_end_time <-
      (if Py.truthy_opt (ProviderAvailabilityUpdate.end_time updates)
       then ret (Py.or_else (ProviderAvailabilityUpdate.end_time updates) "")
       else lift (convert_from_utc (SlotDict.slot_end_time slot) "UTC")) ;;
    let slot_date := Calendar.date_of (SlotDict.slot_start_time slot) in
    new_start_dt <- lift (convert_to_utc new_start_time slot_date "UTC") ;;
    new_end_dt <- lift (convert_to_utc new_end_time slot_date "UTC") ;;
    gets (fun w => check_slot_conflicts w provider_id new_start_dt new_end_dt
                     (Some slot_id))
  else ret false.

Definition update_availability_slot (slot_id : string)
    (updates : ProviderAvailabilityUpdate.t) : M (Response unit) :=
  try_except
    (existing_slots <- gets (fun w => get_appointment_slots (APPOINTMENT_SLOTS w)
                                        None None (Some slot_id)) ;;
     match existing_slots with
     | [] => ret (Failure "Slot not found" 404)
     | slot :: _ =>
         conflict <- update_conflicts slot_id updates slot ;;
         if conflict
         then ret (Failure "Updated time conflicts with existing availability" 409)
         else
           now <- utcnow E ;;
           let update_data := prepare_update_data updates now in
           success <- update_appointment_slot slot_id update_data ;;
           if negb success
           then ret (Failure "Failed to update slot" 500)
           else ret (Success (Some "Slot updated successfully") tt)
     end)
    (fun _ => ret (Failure "Failed to update slot" 500)).

(** The cascade test of delete on one related slot. *)
Definition cascade_one (slot_id : string) (related_slot : SlotDict.t) : M unit :=
  if negb (String.eqb (SlotDict.id related_slot) slot_id)
     && negb (status_is (SlotDict.status related_slot) "booked")
  then delete_appointment_slot (SlotDict.id related_slot) ;;; ret tt
  else ret tt.

(** [for related_slot in related_slots] when [related_slots] is the store's
    own list (the lookup returns it as it is when no argument is truthy): the
    iteration goes by position over the list as the deletions leave it. *)
Fixpoint cascade_live (fuel : nat) (position : nat) (slot_id : string) : M unit :=
  match fuel with
  | O => ret tt
  | S fuel' =>
      store <- gets APPOINTMENT_SLOTS ;;
      match nth_error store position with
      | None => ret tt
      | Some related_slot =>
          cascade_one slot_id related_slot ;;;
          cascade_live fuel' (S position) slot_id
      end
  end.

Definition delete_availability_slot (slot_id : string) (delete_recurring : bool)
    (reason : option string) : M (Response unit) :=
  try_except
    (existing_slots <- gets (fun w => get_appointment_slots (APPOINTMENT_SLOTS w)
                                        None None (Some slot_id)) ;;
     match existing_slots with
     | [] => ret (Failure "Slot not found" 404)
     | slot :: _ =>
         if status_is (SlotDict.status slot) "booked"
         then ret (Failure "Cannot delete booked slot" 400)
         else
           success <- delete_appointment_slot slot_id ;;
           if negb success
           then ret (Failure "Failed to delete slot" 500)
           else
             (if delete_recurring then
                let availability_id := SlotDict.availability_id slot in
                if Py.truthy availability_id then
                  related_slots <- gets (fun w => get_appointment_slots (APPOINTMENT_SLOTS w)
                                                    None (Some availability_id) None) ;;
                  for_each related_slots (cascade_one slot_id)
                else
                  store <- gets APPOINTMENT_SLOTS ;;
                  cascade_live (S (List.length store)) 0 slot_id
              else ret tt) ;;;
             ret (Success (Some "Slot deleted successfully") tt)
     end)
    (fun _ => ret (Failure "Failed to delete slot" 500)).

(** The provider details that search fabricates for a slot. *)
Record ProviderInfo := {
  info_id : string;
  info_name : string;
  info_specialization : string;
  info_years_of_experience : Z;
  info_rating : Q;
  info_clinic_address : string }.

Definition provider_info_of (slot : SlotDict.t) : ProviderInfo :=
  {| info_id := SlotDict.provider_id slot;
     info_name := ("Dr. Provider " ++ Py.take 8 (SlotDict.provider_id slot))%string;
     info_specialization := "General Medicine";
     info_years_of_experience := 10;
     info_rating := (45 # 10)%Q;
     info_clinic_address := "123 Medical Center Dr, New York, NY" |}.

(** [slot.get("pricing", {}).get("base_fee", 0)] *)
Definition slot_base_fee (slot : SlotDict.t) : Q :=
  match SlotDict.pricing slot with
  | Some p => Pricing.base_fee p
  | None => 0%Q
  end.

(** [slot.get("pricing", {}).get("insurance_accepted", True)] *)
Definition slot_insurance (slot : SlotDict.t) : bool :=
  match SlotDict.pricing slot with
  | Some p => Pricing.insurance_accepted p
  | None => true
  end.

(** The body of the filtering loop of search: [true] when the slot reaches
    [filtered_slots.append], [false] when an earlier test [continue]s. *)
Definition search_keeps (search_request : AvailabilitySearchRequest.t)
    (slot : SlotDict.t) : bool :=
  if AvailabilitySearchRequest.available_only search_request
     && negb (status_is (SlotDict.status slot) "available") then false
  else
    let slot_date := Calendar.date_of (SlotDict.slot_start_time slot) in
    if match AvailabilitySearchRequest.date search_request with
       | Some d => negb (slot_date =? d) | None => false end then false
    else if match AvailabilitySearchRequest.start_date search_request with
            | Some d => slot_date <? d | None => false end then false
    else if match AvailabilitySearchRequest.end_date search_request with
            | Some d => slot_date >? d | None => false end then false
    else if match AvailabilitySearchRequest.appointment_type search_request with
            | Some t => negb (String.eqb (SlotDict.appointment_type slot)
                                         (AppointmentType_value t))
            | None => false end then false
    else
      let provider_info := provider_info_of slot in
      if match AvailabilitySearchRequest.location search_request with
         | Some loc => Py.truthy loc
                       && negb (Py.contains (lower E loc)
                                  (lower E (info_clinic_address provider_info)))
         | None => false end then false
      else if match AvailabilitySearchRequest.max_price search_request with
              | Some max_price => negb (Qeq_bool max_price 0)
                                  && negb (Qle_bool (slot_base_fee slot) max_price)
              | None => false end then false
      else if match AvailabilitySearchRequest.insurance_accepted search_request with
              | Some wanted => negb (Bool.eqb (slot_insurance slot) wanted)
              | None => false end then false
      else true.

(** One entry of a provider's [available_slots]. *)
Record SlotInfo := {
  si_slot_id : string;
  si_date : string;
  si_start_time : string;
  si_end_time : string;
  si_appointment_type : string;
  si_location : option Location.t;
  si_pricing : option Pricing.t;
  si_special_requirements : list string }.

Record ProviderGroup := {
  provider : ProviderInfo;
  available_slots : list SlotInfo }.

Definition slot_info_of (display_timezone : string) (slot : SlotDict.t)
  : outcome SlotInfo :=
  match convert_from_utc (SlotDict.slot_start_time slot) display_timezone with
  | Return start_time =>
      match convert_from_utc (SlotDict.slot_end_time slot) display_timezone with
      | Return end_time =>
          Return {| si_slot_id := SlotDict.id slot;
                    si_date := Calendar.isoformat
                                 (Calendar.date_of (SlotDict.slot_start_time slot));
                    si_start_time := start_time;
                    si_end_time := end_time;
                    si_appointment_type := SlotDict.appointment_type slot;
                    si_location := None;
                    si_pricing := SlotDict.pricing slot;
                    si_special_requirements :=
                      Py.or_else (SlotDict.special_requirements slot) [] |}
      | Raise e => Raise e
      | Diverge => Diverge
      end
  | Raise e => Raise e
  | Diverge => Diverge
  end.

(** [providers[provider_id]["available_slots"].append(slot_info)], the entry
    being created at the end of the dictionary when the key is new. *)
Fixpoint group_append (providers : list (string * ProviderGroup))
    (info : ProviderInfo) (slot_info : SlotInfo) : list (string * ProviderGroup) :=
  match providers with
  | [] => [(info_id info, {| provider := info; available_slots := [slot_info] |})]
  | (key, g) :: rest =>
      if String.eqb key (info_id info)
      then (key, {| provider := provider g;
                    available_slots := available_slots g ++ [slot_info] |}) :: rest
      else (key, g) :: group_append rest info slot_info
  end.

(** The grouping loop of search over [filtered_slots], whose items pair a
    slot with its provider details. *)
Fixpoint group_loop (display_timezone : string)
    (filtered_slots : list (SlotDict.t * ProviderInfo))
    (providers : list (string * ProviderGroup))
  : outcome (list (string * ProviderGroup)) :=
  match filtered_slots with
  | [] => Return providers
  | (slot, provider_info) :: rest =>
      match slot_info_of display_timezone slot with
      | Return slot_info =>
          group_loop display_timezone rest
            (group_append providers provider_info slot_info)
      | Raise e => Raise e
      | Diverge => Diverge
      end
  end.

Record SearchCriteria := {
  sc_date : option string;
  sc_start_date : option string;
  sc_end_date : option string;
  sc_specialization : option string;
  sc_location : option string }.

Record SearchData := {
  search_criteria : SearchCriteria;
  total_results : Z;
  results : list ProviderGroup }.

(** [search_request.timezone or "America/New_York"] *)
Definition display_timezone (timezone : option string) : string :=
  if Py.truthy_opt timezone then Py.or_else timezone "" else "America/New_York".

Definition search_availability_slots (search_request : AvailabilitySearchRequest.t)
  : M (Response SearchData) :=
  try_except
    (all_slots <- gets APPOINTMENT_SLOTS ;;
     let filtered_slots :=
       map (fun slot => (slot, provider_info_of slot))
           (filter (search_keeps search_request) all_slots) in
     providers <- lift (group_loop
                          (display_timezone (AvailabilitySearchRequest.timezone search_request))
                          filtered_slots []) ;;
     let criteria :=
       {| sc_date := option_map Calendar.isoformat (AvailabilitySearchRequest.date search_request);
          sc_start_date :=
            option_map Calendar.isoformat (AvailabilitySearchRequest.start_date search_request);
          sc_end_date :=
            option_map Calendar.isoformat (AvailabilitySearchRequest.end_date search_request);
          sc_specialization :=
            if Py.truthy_opt (AvailabilitySearchRequest.specialization search_request)
            then AvailabilitySearchRequest.specialization search_request else None;
          sc_location :=
            if Py.truthy_opt (AvailabilitySearchRequest.location search_request)
            then AvailabilitySearchRequest.location search_request else None |} in
     ret (Success None {| search_criteria := criteria;
                        total_results := Z.of_nat (List.length providers);
                        results := map snd providers |}))
    (fun _ => ret (Failure "Failed to search availability" 500)).

End Service.

(* ================================================================= *)
(** ** Concrete collaborators, for running the service *)

Module Sample.

(** America/New_York by its rules for the year 2024: EST (UTC-5) until
    2024-03-10 02:00 local, EDT (UTC-4) until 2024-11-03 02:00 local, EST
    after (which is also what [pytz] has from November 2037 on, where its
    table of transitions ends).  The years before 2024 are given the
    standard offset as well ([pytz] has the transitions of each year, and
    local mean time, 4 h 56 min behind UTC, before 1883).  [localize] (with
    its default [is_dst=False]) reads a wall time of the skipped hour and of
    the repeated hour as standard time. *)
Definition new_york_2024 : tzinfo :=
  DstTzInfo
    (fun l =>
       if l <? Calendar.combine (Calendar.ymd2ord 2024 3 10) 3 0 then -18000
       else if l <? Calendar.combine (Calendar.ymd2ord 2024 11 3) 1 0 then -14400
       else -18000)
    (fun t =>
       if t <? Calendar.combine (Calendar.ymd2ord 2024 3 10) 7 0 then -18000
       else if t <? Calendar.combine (Calendar.ymd2ord 2024 11 3) 6 0 then -14400
       else -18000).

Definition ascii_lower (c : ascii) : ascii :=
  let n := N_of_ascii c in
  if ((65 <=? n) && (n <=? 90))%N then ascii_of_N (n + 32) else c.

Fixpoint str_lower (s : string) : string :=
  match s with
  | EmptyString => EmptyString
  | String c rest => String (ascii_lower c) (str_lower rest)
  end.

Definition env : Env :=
  {| tzdata := fun name =>
       if String.eqb name "America/New_York" then Some new_york_2024 else None;
     uuid4_at := fun n => ("uuid-" ++ NilEmpty.string_of_uint (Nat.to_uint n))%string;
     utcnow_at := fun n => 1707955200 + Z.of_nat n;
     lower := str_lower |}.

Definition empty_world : World :=
  {| PROVIDER_AVAILABILITY := []; APPOINTMENT_SLOTS := [];
     uuid_drawn := 0; clock_read := 0 |}.

Definition clinic : Location.t :=
  {| Location.type := CLINIC; Location.address := Some "123 Main St";
     Location.room_number := None |}.

(** A creation request with the defaults of the model. *)
Definition window (provider_id : string) (date : Calendar.date)
    (start_time end_time : string) (slot_duration break_duration : Z)
  : ProviderAvailabilityCreate.t :=
  {| ProviderAvailabilityCreate.provider_id := provider_id;
     ProviderAvailabilityCreate.date := date;
     ProviderAvailabilityCreate.start_time := start_time;
     ProviderAvailabilityCreate.end_time := end_time;
     ProviderAvailabilityCreate.timezone := "America/New_York";
     ProviderAvailabilityCreate.is_recurring := false;
     ProviderAvailabilityCreate.recurrence_pattern := None;
     ProviderAvailabilityCreate.recurrence_end_date := None;
     ProviderAvailabilityCreate.slot_duration := slot_duration;
     ProviderAvailabilityCreate.break_duration := break_duration;
     ProviderAvailabilityCreate.status := AVAILABLE;
     ProviderAvailabilityCreate.max_appointments_per_slot := 1;
     ProviderAvailabilityCreate.appointment_type := CONSULTATION;
     ProviderAvailabilityCreate.location := clinic;
     ProviderAvailabilityCreate.pricing := None;
     ProviderAvailabilityCreate.notes := None;
     ProviderAvailabilityCreate.special_requirements := Some [] |}.

(** The same request, recurring. *)
Definition recurring_window (provider_id : string) (date : Calendar.date)
    (start_time end_time : string) (slot_duration break_duration : Z)
    (pattern : RecurrencePattern) (recurrence_end_date : Calendar.date)
  : ProviderAvailabilityCreate.t :=
  let w := window provider_id date start_time end_time slot_duration break_duration in
  {| ProviderAvailabilityCreate.provider_id := provider_id;
     ProviderAvailabilityCreate.date := date;
     ProviderAvailabilityCreate.start_time := start_time;
     ProviderAvailabilityCreate.end_time := end_time;
     ProviderAvailabilityCreate.timezone := ProviderAvailabilityCreate.timezone w;
     ProviderAvailabilityCreate.is_recurring := true;
     ProviderAvailabilityCreate.recurrence_pattern := Some pattern;
     ProviderAvailabilityCreate.recurrence_end_date := Some recurrence_end_date;
     ProviderAvailabilityCreate.slot_duration := slot_duration;
     ProviderAvailabilityCreate.break_duration := break_duration;
     ProviderAvailabilityCreate.status := ProviderAvailabilityCreate.status w;
     ProviderAvailabilityCreate.max_appointments_per_slot :=
       ProviderAvailabilityCreate.max_appointments_per_slot w;
     ProviderAvailabilityCreate.appointment_type :=
       ProviderAvailabilityCreate.appointment_type w;
     ProviderAvailabilityCreate.location := ProviderAvailabilityCreate.location w;
     ProviderAvailabilityCreate.pricing := ProviderAvailabilityCreate.pricing w;
     ProviderAvailabilityCreate.notes := ProviderAvailabilityCreate.notes w;
     ProviderAvailabilityCreate.special_requirements :=
       ProviderAvailabilityCreate.special_requirements w |}.

(** The stored form of a request, with a fixed id and timestamps. *)
Definition stored (availability : ProviderAvailabilityCreate.t) : ProviderAvailabilityDB.t :=
  copy_of availability (ProviderAvailabilityCreate.date availability)
    "availability-1" 1707955200 1707955200.

(** 09:00-11:00 on 2024-02-15, 30-minute slots, no break. *)
Definition morning : ProviderAvailabilityCreate.t :=
  window "provider-123" (Calendar.ymd2ord 2024 2 15) "09:00" "11:00" 30 0.

(** 09:15-09:45 on the same day, for the same provider. *)
Definition overlapping : ProviderAvailabilityCreate.t :=
  window "provider-123" (Calendar.ymd2ord 2024 2 15) "09:15" "09:45" 30 0.

(** 01:00-04:00 on 2024-03-10, the day the clocks go forward in New York:
    three hours on the wall clock, 60-minute slots, no break. *)
Definition spring_forward : ProviderAvailabilityCreate.t :=
  window "provider-123" (Calendar.ymd2ord 2024 3 10) "01:00" "04:00" 60 0.

(** Weekly from 2024-02-15 until 2024-03-01. *)
Definition weekly : ProviderAvailabilityCreate.t :=
  recurring_window "provider-123" (Calendar.ymd2ord 2024 2 15) "09:00" "10:00" 30 0
    WEEKLY (Calendar.ymd2ord 2024 3 1).

(** A slot as the store holds it after creation. *)
Definition slot (id provider_id : string) (slot_start_time slot_end_time : Z)
    (status : AvailabilityStatus) : SlotDict.t :=
  {| SlotDict.id := id;
     SlotDict.availability_id := "availability-123";
     SlotDict.provider_id := provider_id;
     SlotDict.slot_start_time := slot_start_time;
     SlotDict.slot_end_time := slot_end_time;
     SlotDict.status := status;
     SlotDict.patient_id := None;
     SlotDict.appointment_type := "consultation";
     SlotDict.booking_reference := None;
     SlotDict.created_at := 1707955200;
     SlotDict.updated_at := Some 1707955200;
     SlotDict.start_time := None;
     SlotDict.end_time := None;
     SlotDict.notes := None;
     SlotDict.pricing := None;
     SlotDict.special_requirements := None |}.

(** The two slots the store module starts with: 14:00-14:30 and 14:30-15:00
    UTC on 2024-02-15, of provider-123. *)
Definition seed_slots : list SlotDict.t :=
  [ slot "slot-123" "provider-123" 1708005600 1708007400 AVAILABLE;
    slot "slot-124" "provider-123" 1708007400 1708009200 AVAILABLE ].

(** The availability the store module starts with. *)
Definition seed_availability : ProviderAvailabilityDB.t :=
  {| ProviderAvailabilityDB.id := "availability-123";
     ProviderAvailabilityDB.provider_id := "provider-123";
     ProviderAvailabilityDB.date := Calendar.ymd2ord 2024 2 15;
     ProviderAvailabilityDB.start_time := "09:00";
     ProviderAvailabilityDB.end_time := "17:00";
     ProviderAvailabilityDB.timezone := "America/New_York";
     ProviderAvailabilityDB.is_recurring := false;
     ProviderAvailabilityDB.recurrence_pattern := None;
     ProviderAvailabilityDB.recurrence_end_date := None;
     ProviderAvailabilityDB.slot_duration := 30;
     ProviderAvailabilityDB.break_duration := 0;
     ProviderAvailabilityDB.status := AVAILABLE;
     ProviderAvailabilityDB.max_appointments_per_slot := 1;
     ProviderAvailabilityDB.current_appointments := 0;
     ProviderAvailabilityDB.appointment_type := CONSULTATION;
     ProviderAvailabilityDB.location :=
       {| Location.type := CLINIC;
          Location.address := Some "123 Medical Center Dr, New York, NY 10001";
          Location.room_number := Some "Room 205" |};
     ProviderAvailabilityDB.pricing :=
       Some {| Pricing.base_fee := 150 # 1; Pricing.insurance_accepted := true;
               Pricing.currency := "USD" |};
     ProviderAvailabilityDB.notes := Some "Standard consultation slots";
     ProviderAvailabilityDB.special_requirements := ["bring_insurance_card"];
     ProviderAvailabilityDB.created_at := 1707955200;
     ProviderAvailabilityDB.updated_at := 1707955200 |}.

(** The state in which the store module starts. *)
Definition seeded_world : World :=
  {| PROVIDER_AVAILABILITY := [seed_availability]; APPOINTMENT_SLOTS := seed_slots;
     uuid_drawn := 0; clock_read := 0 |}.

(** A patch that sets nothing. *)
Definition no_patch : ProviderAvailabilityUpdate.t :=
  {| ProviderAvailabilityUpdate.start_time := None;
     ProviderAvailabilityUpdate.end_time := None;
     ProviderAvailabilityUpdate.status := None;
     ProviderAvailabilityUpdate.notes := None;
     ProviderAvailabilityUpdate.pricing := None;
     ProviderAvailabilityUpdate.special_requirements := None |}.

(** A patch that carries only notes. *)
Definition notes_patch (notes : string) : ProviderAvailabilityUpdate.t :=
  {| ProviderAvailabilityUpdate.start_time := None;
     ProviderAvailabilityUpdate.end_time := None;
     ProviderAvailabilityUpdate.status := None;
     ProviderAvailabilityUpdate.notes := Some notes;
     ProviderAvailabilityUpdate.pricing := None;
     ProviderAvailabilityUpdate.special_requirements := None |}.

(** A patch that carries a status and a price. *)
Definition status_price_patch (status : AvailabilityStatus) (base_fee : Q)
  : ProviderAvailabilityUpdate.t :=
  {| ProviderAvailabilityUpdate.start_time := None;
     ProviderAvailabilityUpdate.end_time := None;
     ProviderAvailabilityUpdate.status := Some status;
     ProviderAvailabilityUpdate.notes := None;
     ProviderAvailabilityUpdate.pricing :=
       Some {| Pricing.base_fee := base_fee; Pricing.insurance_accepted := true;
               Pricing.currency := "USD" |};
     ProviderAvailabilityUpdate.special_requirements := None |}.

(** A search that asks for available slots up to a price. *)
Definition search_up_to (max_price : Q) : AvailabilitySearchRequest.t :=
  {| AvailabilitySearchRequest.date := None;
     AvailabilitySearchRequest.start_date := None;
     AvailabilitySearchRequest.end_date := None;
     AvailabilitySearchRequest.specialization := None;
     AvailabilitySearchRequest.location := None;
     AvailabilitySearchRequest.appointment_type := None;
     AvailabilitySearchRequest.insurance_accepted := None;
     AvailabilitySearchRequest.max_price := Some max_price;
     AvailabilitySearchRequest.timezone := None;
     AvailabilitySearchRequest.available_only := true |}.

End Sample.

(* ================================================================= *)
(** ** Vocabulary of the properties *)

(** A zero-padded, fixed-width HH:MM string: one the field pattern accepts
    and that has five characters. *)
Definition is_HHMM (t : string) : bool :=
  time_pattern t && (String.length t =? 5)%nat.

(** The wall time [t] on date [d] is not ambiguous in the zone: the offset
    that [localize] attaches to it is the offset in force at the instant it
    then denotes.  (A wall time of an hour that the zone skips fails this:
    [localize] reads it with the offset of before the change.) *)
Definition unambiguous (tz : tzinfo) (d : Calendar.date) (t : string) : Prop :=
  match parse_time t with
  | Some (hour, minute) =>
      let l := Calendar.combine d hour minute in
      utcoffset tz (l - localize_utcoffset tz l) = localize_utcoffset tz l
  | None => True
  end.

(** Minutes since midnight. *)
Definition minute_of_day (hm : Z * Z) : Z := fst hm * 60 + snd hm.

(** The two lists of the store are the same in both states. *)
Definition same_store (w w' : World) : Prop :=
  PROVIDER_AVAILABILITY w' = PROVIDER_AVAILABILITY w /\
  APPOINTMENT_SLOTS w' = APPOINTMENT_SLOTS w.

(** The slots cut from [cur] up to [end_dt], each [D] seconds long and [B]
    seconds apart. *)
Fixpoint chain (D B end_dt cur : Z) (l : list AppointmentSlot.t) : Prop :=
  match l with
  | [] => end_dt <= cur \/ end_dt < cur + D
  | s :: r =>
      cur + D <= end_dt /\
      AppointmentSlot.slot_start_time s = cur /\
      AppointmentSlot.slot_end_time s = cur + D /\
      chain D B end_dt (cur + D + B) r
  end.

(** The slot that the store's lookup returns first for an id. *)
Definition stored_slot (w : World) (slot_id : string) : option SlotDict.t :=
  hd_error (get_appointment_slots (APPOINTMENT_SLOTS w) None None (Some slot_id)).

(** The strict overlap test between a candidate interval and a stored slot. *)
Definition overlaps (start_time end_time : Z) (slot : SlotDict.t) : Prop :=
  start_time < SlotDict.slot_end_time slot /\ end_time > SlotDict.slot_start_time slot.

(** The record carries every field of the request: the fields are copied
    one by one, no list of requirements being stored as the empty list, and
    no appointment is counted yet.  (The date, the id and the timestamps are
    the record's own.) *)
Definition copies (c : ProviderAvailabilityCreate.t) (db : ProviderAvailabilityDB.t) : Prop :=
  ProviderAvailabilityDB.provider_id db = ProviderAvailabilityCreate.provider_id c /\
  ProviderAvailabilityDB.start_time db = ProviderAvailabilityCreate.start_time c /\
  ProviderAvailabilityDB.end_time db = ProviderAvailabilityCreate.end_time c /\
  ProviderAvailabilityDB.timezone db = ProviderAvailabilityCreate.timezone c /\
  ProviderAvailabilityDB.is_recurring db = ProviderAvailabilityCreate.is_recurring c /\
  ProviderAvailabilityDB.recurrence_pattern db
  = ProviderAvailabilityCreate.recurrence_pattern c /\
  ProviderAvailabilityDB.recurrence_end_date db
  = ProviderAvailabilityCreate.recurrence_end_date c /\
  ProviderAvailabilityDB.slot_duration db = ProviderAvailabilityCreate.slot_duration c /\
  ProviderAvailabilityDB.break_duration db = ProviderAvailabilityCreate.break_duration c /\
  ProviderAvailabilityDB.status db = ProviderAvailabilityCreate.status c /\
  ProviderAvailabilityDB.max_appointments_per_slot db
  = ProviderAvailabilityCreate.max_appointments_per_slot c /\
  ProviderAvailabilityDB.current_appointments db = 0 /\
  ProviderAvailabilityDB.appointment_type db
  = ProviderAvailabilityCreate.appointment_type c /\
  ProviderAvailabilityDB.location db = ProviderAvailabilityCreate.location c /\
  ProviderAvailabilityDB.pricing db = ProviderAvailabilityCreate.pricing c /\
  ProviderAvailabilityDB.notes db = ProviderAvailabilityCreate.notes c /\
  ProviderAvailabilityDB.special_requirements db
  = match ProviderAvailabilityCreate.special_requirements c with
    | Some requirements => requirements
    | None => []
    end.

(** One result of the recurrence expander for the request [c]: a record that
    carries the fields of the request, and the slots that the generator cuts
    from that record. *)
Definition is_occurrence (E : Env) (c : ProviderAvailabilityCreate.t)
    (r : ProviderAvailabilityDB.t * list AppointmentSlot.t) : Prop :=
  copies c (fst r) /\
  (exists w1 w2, generate_slots_from_availability E (fst r) w1 = (Return (snd r), w2)).

(** The ordinal of the day before the first day of the month with index [i]
    (twelve months to the year, January of year 0 at index 0). *)
Definition month_base (i : Z) : Z :=
  Calendar.days_before_year (i / 12) + Calendar.days_before_month (i / 12) (i mod 12 + 1).

Definition month_length (i : Z) : Z := Calendar.days_in_month (i / 12) (i mod 12 + 1).

Definition leap_day (y : Z) : Z := if Calendar.is_leap y then 1 else 0.

(** A calendar date: a month between 1 and 12 and a day of that month. *)
Definition valid_ymd (y m d : Z) : Prop :=
  1 <= m <= 12 /\ 1 <= d <= Calendar.days_in_month y m.

(** The dates that a pattern allows, counted from the start date. *)
Definition on_frequency (pattern : RecurrencePattern) (dtstart d : Calendar.date) : Prop :=
  match pattern with
  | DAILY => True
  | WEEKLY => (d - dtstart) mod 7 = 0
  | MONTHLY => Calendar.day_of d = Calendar.day_of dtstart
  end.

(** A patch field as update takes it: an empty string counts as absent. *)
Definition nonempty_string (o : option string) : option string :=
  match o with
  | Some EmptyString => None
  | _ => o
  end.

(** A patch field as update takes it: an empty list counts as absent. *)
Definition nonempty_list {A} (o : option (list A)) : option (list A) :=
  match o with
  | Some [] => None
  | _ => o
  end.

(** The new value of a key: the one given, or else the old one. *)
Definition given {A} (new old : option A) : option A :=
  match new with
  | Some v => Some v
  | None => old
  end.

(** The fields of a stored slot that a patch without times cannot name are
    the same in [slot'] as in [slot]. *)
Definition untouched (slot slot' : SlotDict.t) : Prop :=
  SlotDict.id slot' = SlotDict.id slot /\
  SlotDict.availability_id slot' = SlotDict.availability_id slot /\
  SlotDict.provider_id slot' = SlotDict.provider_id slot /\
  SlotDict.slot_start_time slot' = SlotDict.slot_start_time slot /\
  SlotDict.slot_end_time slot' = SlotDict.slot_end_time slot /\
  SlotDict.patient_id slot' = SlotDict.patient_id slot /\
  SlotDict.appointment_type slot' = SlotDict.appointment_type slot /\
  SlotDict.booking_reference slot' = SlotDict.booking_reference slot /\
  SlotDict.created_at slot' = SlotDict.created_at slot /\
  SlotDict.start_time slot' = SlotDict.start_time slot /\
  SlotDict.end_time slot' = SlotDict.end_time slot.

(** The status, the notes, the price and the requirements hold, in [slot'],
    the value of the patch where the patch gives a non-empty one, and the
    value of [slot] otherwise. *)
Definition patched (updates : ProviderAvailabilityUpdate.t) (slot slot' : SlotDict.t) : Prop :=
  SlotDict.status slot'
  = match ProviderAvailabilityUpdate.status updates with
    | Some status => status
    | None => SlotDict.status slot
    end /\
  SlotDict.notes slot'
  = given (nonempty_string (ProviderAvailabilityUpdate.notes updates))
          (SlotDict.notes slot) /\
  SlotDict.pricing slot'
  = given (ProviderAvailabilityUpdate.pricing updates) (SlotDict.pricing slot) /\
  SlotDict.special_requirements slot'
  = given (nonempty_list (ProviderAvailabilityUpdate.special_requirements updates))
          (SlotDict.special_requirements slot).

(** The criteria of a search other than the availability flag and the
    price: the date, the range of dates, the appointment type, the location
    (every provider is at the one clinic address) and the insurance flag (a
    slot without a price accepts insurance). *)
Definition meets_other_criteria (E : Env) (search_request : AvailabilitySearchRequest.t)
    (slot : SlotDict.t) : Prop :=
  let slot_date := Calendar.date_of (SlotDict.slot_start_time slot) in
  (forall d, AvailabilitySearchRequest.date search_request = Some d -> slot_date = d) /\
  (forall d, AvailabilitySearchRequest.start_date search_request = Some d -> d <= slot_date) /\
  (forall d, AvailabilitySearchRequest.end_date search_request = Some d -> slot_date <= d) /\
  (forall t, AvailabilitySearchRequest.appointment_type search_request = Some t ->
             SlotDict.appointment_type slot = AppointmentType_value t) /\
  (forall loc, AvailabilitySearchRequest.location search_request = Some loc -> loc <> "" ->
               Py.contains (lower E loc)
                 (lower E "123 Medical Center Dr, New York, NY") = true) /\
  (forall wanted, AvailabilitySearchRequest.insurance_accepted search_request = Some wanted ->
                  match SlotDict.pricing slot with
                  | Some p => Pricing.insurance_accepted p
                  | None => true
                  end = wanted).

(** The stored slots that a search for open slots up to a base fee of 100
    selects: the open ones that, when they have a price, cost at most 100,
    and that meet the other criteria. *)
Definition selected (E : Env) (search_request : AvailabilitySearchRequest.t) (w : World)
    (slot : SlotDict.t) : Prop :=
  In slot (APPOINTMENT_SLOTS w) /\
  SlotDict.status slot = AVAILABLE /\
  (forall p, SlotDict.pricing slot = Some p -> (Pricing.base_fee p <= 100)%Q) /\
  meets_other_criteria E search_request slot.

(** The entry [slot_info] shows the slot in the zone: it carries the id of
    the slot, its UTC date, its two times converted to the zone, its
    appointment type, no location, its price if it has one, and its
    requirements (none when it has no such key). *)
Definition shows (E : Env) (timezone_str : string) (slot : SlotDict.t)
    (slot_info : SlotInfo) : Prop :=
  si_slot_id slot_info = SlotDict.id slot /\
  si_date slot_info = Calendar.isoformat (Calendar.date_of (SlotDict.slot_start_time slot)) /\
  convert_from_utc E (SlotDict.slot_start_time slot) timezone_str
  = Return (si_start_time slot_info) /\
  convert_from_utc E (SlotDict.slot_end_time slot) timezone_str
  = Return (si_end_time slot_info) /\
  si_appointment_type slot_info = SlotDict.appointment_type slot /\
  si_location slot_info = None /\
  si_pricing slot_info = SlotDict.pricing slot /\
  si_special_requirements slot_info
  = match SlotDict.special_requirements slot with
    | Some requirements => requirements
    | None => []
    end.

(** The entry [slot_info] is listed under the provider [key]. *)
Definition listed (providers : list (string * ProviderGroup)) (key : string)
    (slot_info : SlotInfo) : Prop :=
  exists g, In (key, g) providers /\ In slot_info (available_slots g).

(** Every group is filed under the id of its provider. *)
Definition keyed (providers : list (string * ProviderGroup)) : Prop :=
  forall key g, In (key, g) providers -> info_id (provider g) = key.

(** Every slot of [store'] is a slot of [store], and [b] is still there. *)
Definition keeps (store : list SlotDict.t) (b : SlotDict.t) (store' : list SlotDict.t) : Prop :=
  (forall x, In x store' -> In x store) /\ In b store'.

(* ================================================================= *)
(** ** The rest of the store, the listing operation and the validators *)

(** [get_provider_availability(provider_id, availability_id)] on the current
    list; an argument is used only when it is truthy. *)
Definition get_provider_availability (store : list ProviderAvailabilityDB.t)
    (provider_id availability_id : option string) : list ProviderAvailabilityDB.t :=
  if Py.truthy_opt availability_id then
    filter (fun av => String.eqb (ProviderAvailabilityDB.id av) (Py.or_else availability_id ""))
           store
  else if Py.truthy_opt provider_id then
    filter (fun av => String.eqb (ProviderAvailabilityDB.provider_id av)
                                 (Py.or_else provider_id ""))
           store
  else store.

(** The scan of [delete_provider_availability]: the first record with the id
    is removed. *)
Fixpoint delete_first_availability (availability_id : string)
    (store : list ProviderAvailabilityDB.t) : option (list ProviderAvailabilityDB.t) :=
  match store with
  | [] => None
  | availability :: rest =>
      if String.eqb (ProviderAvailabilityDB.id availability) availability_id then Some rest
      else match delete_first_availability availability_id rest with
           | Some rest' => Some (availability :: rest')
           | None => None
           end
  end.

Definition delete_provider_availability (availability_id : string) : M bool :=
  store <- gets PROVIDER_AVAILABILITY ;;
  match delete_first_availability availability_id store with
  | Some store' => modify (set_PROVIDER_AVAILABILITY store') ;;; ret true
  | None => ret false
  end.

(** Both lists are emptied. *)
Definition clear_all_data : M unit :=
  modify (fun w => set_APPOINTMENT_SLOTS [] (set_PROVIDER_AVAILABILITY [] w)).

(** One entry of a day in the listing of a provider's slots. *)
Module ListedSlot.
Record t := make {
  slot_id : string;
  start_time : string;
  end_time : string;
  status : AvailabilityStatus;
  appointment_type : string;
  location : option Location.t;
  pricing : option Pricing.t }.
End ListedSlot.

(** What [get_provider_availability_slots] reports on success, the counters
    of [availability_summary] beside the other keys; [availability] pairs a
    day with its entries. *)
Module Listing.
Record t := make {
  provider_id : string;
  total_slots : Z;
  available_slots : Z;
  booked_slots : Z;
  cancelled_slots : Z;
  availability : list (string * list ListedSlot.t) }.
End Listing.

(** The tests of the filtering loop of the listing: [true] when the slot
    reaches [filtered_slots.append]. *)
Definition listing_keeps (start_date end_date : Calendar.date)
    (status appointment_type : option string) (slot : SlotDict.t) : bool :=
  let slot_date := Calendar.date_of (SlotDict.slot_start_time slot) in
  if (start_date <=? slot_date) && (slot_date <=? end_date) then
    if Py.truthy_opt status
       && negb (status_is (SlotDict.status slot) (Py.or_else status "")) then false
    else if Py.truthy_opt appointment_type
            && negb (String.eqb (SlotDict.appointment_type slot)
                                (Py.or_else appointment_type "")) then false
    else true
  else false.

(** [availability_by_date[slot_date].append(slot_info)], the key being added
    at the end of the dictionary when it is new. *)
Fixpoint by_date_append (availability_by_date : list (Calendar.date * list ListedSlot.t))
    (slot_date : Calendar.date) (slot_info : ListedSlot.t)
  : list (Calendar.date * list ListedSlot.t) :=
  match availability_by_date with
  | [] => [(slot_date, [slot_info])]
  | (key, infos) :: rest =>
      if key =? slot_date then (key, infos ++ [slot_info]) :: rest
      else (key, infos) :: by_date_append rest slot_date slot_info
  end.

(** [sorted(keys)] on dates: insertion into an ascending list. *)
Fixpoint insert_sorted (d : Calendar.date) (l : list Calendar.date) : list Calendar.date :=
  match l with
  | [] => [d]
  | x :: rest => if d <=? x then d :: x :: rest else x :: insert_sorted d rest
  end.

Definition sorted (l : list Calendar.date) : list Calendar.date :=
  fold_right insert_sorted [] l.

(** [availability_by_date[date_obj]] *)
Fixpoint by_date_get (availability_by_date : list (Calendar.date * list ListedSlot.t))
    (date_obj : Calendar.date) : list ListedSlot.t :=
  match availability_by_date with
  | [] => []
  | (key, infos) :: rest =>
      if key =? date_obj then infos else by_date_get rest date_obj
  end.

Section ListingService.
Context (E : Env).

(** The [slot_info] of the listing; no stored slot has a key [location], so
    [slot.get("location")] is [None]. *)
Definition listed_slot_of (display_timezone : string) (slot : SlotDict.t)
  : outcome ListedSlot.t :=
  match convert_from_utc E (SlotDict.slot_start_time slot) display_timezone with
  | Return start_time =>
      match convert_from_utc E (SlotDict.slot_end_time slot) display_timezone with
      | Return end_time =>
          Return {| ListedSlot.slot_id := SlotDict.id slot;
                    ListedSlot.start_time := start_time;
                    ListedSlot.end_time := end_time;
                    ListedSlot.status := SlotDict.status slot;
                    ListedSlot.appointment_type := SlotDict.appointment_type slot;
                    ListedSlot.location := None;
                    ListedSlot.pricing := SlotDict.pricing slot |}
      | Raise e => Raise e
      | Diverge => Diverge
      end
  | Raise e => Raise e
  | Diverge => Diverge
  end.

(** The grouping loop of the listing over [filtered_slots]. *)
Fixpoint by_date_loop (display_timezone : string) (filtered_slots : list SlotDict.t)
    (availability_by_date : list (Calendar.date * list ListedSlot.t))
  : outcome (list (Calendar.date * list ListedSlot.t)) :=
  match filtered_slots with
  | [] => Return availability_by_date
  | slot :: rest =>
      let slot_date := Calendar.date_of (SlotDict.slot_start_time slot) in
      match listed_slot_of display_timezone slot with
      | Return slot_info =>
          by_date_loop display_timezone rest
            (by_date_append availability_by_date slot_date slot_info)
      | Raise e => Raise e
      | Diverge => Diverge
      end
  end.

(** [len([s for s in filtered_slots if s["status"] == lit])] *)
Definition count_status (lit : string) (filtered_slots : list SlotDict.t) : Z :=
  Z.of_nat (List.length (filter (fun s => status_is (SlotDict.status s) lit) filtered_slots)).

(** The records of the provider are fetched and filtered by date first; the
    answer does not use them. *)
Definition get_provider_availability_slots (provider_id : string)
    (start_date end_date : Calendar.date) (status appointment_type timezone : option string)
  : M (Response Listing.t) :=
  try_except
    (availability_records <- gets (fun w => get_provider_availability
                                              (PROVIDER_AVAILABILITY w)
                                              (Some provider_id) None) ;;
     let filtered_availability :=
       filter (fun av => (start_date <=? ProviderAvailabilityDB.date av)
                         && (ProviderAvailabilityDB.date av <=? end_date))
              availability_records in
     all_slots <- gets (fun w => get_appointment_slots (APPOINTMENT_SLOTS w)
                                   (Some provider_id) None None) ;;
     let filtered_slots :=
       filter (listing_keeps start_date end_date status appointment_type) all_slots in
     availability_by_date <-
       lift (by_date_loop (display_timezone timezone) filtered_slots []) ;;
     let availability_list :=
       map (fun date_obj => (Calendar.isoformat date_obj,
                             by_date_get availability_by_date date_obj))
           (sorted (map fst availability_by_date)) in
     ret (Success None
            {| Listing.provider_id := provider_id;
               Listing.total_slots := Z.of_nat (List.length filtered_slots);
               Listing.available_slots := count_status "available" filtered_slots;
               Listing.booked_slots := count_status "booked" filtered_slots;
               Listing.cancelled_slots := count_status "cancelled" filtered_slots;
               Listing.availability := availability_list |}))
    (fun _ => ret (Failure "Failed to retrieve availability" 500)).

End ListingService.

(** *** Validation of a creation request by the model

    The fields are validated in the order of their declaration; a validator
    sees, in [values], the fields that were validated before its own and
    passed. *)
Module Validation.

(** The part of [values] that the validators read: [None] when the key is
    absent. *)
Record values := {
  date : option Calendar.date;
  start_time : option string;
  recurrence_pattern : option (option RecurrencePattern);
  recurrence_end_date : option (option Calendar.date) }.

(** [validate_end_time]: [true] when it raises. *)
Definition validate_end_time (v : string) (vals : values) : bool :=
  match start_time vals with
  | Some start => String.leb v start
  | None => false
  end.

(** [validate_recurrence_end_date]: [true] when it raises. *)
Definition validate_recurrence_end_date (v : option Calendar.date) (vals : values) : bool :=
  match date vals, v with
  | Some d, Some e => e <=? d
  | _, _ => false
  end.

(** [validate_recurring_fields]: [true] when it raises. *)
Definition validate_recurring_fields (v : bool) (vals : values) : bool :=
  if v then
    match recurrence_pattern vals with
    | Some (Some _) =>
        match recurrence_end_date vals with
        | Some (Some _) => false
        | _ => true
        end
    | _ => true
    end
  else false.

(** The fields whose validation fails, in the order of the declaration. *)
Definition errors (a : ProviderAvailabilityCreate.t) : list string :=
  let start_ok := time_pattern (ProviderAvailabilityCreate.start_time a) in
  let end_pattern_ok := time_pattern (ProviderAvailabilityCreate.end_time a) in
  (* values when end_time is validated: provider_id, date, start_time *)
  let at_end_time :=
    {| date := Some (ProviderAvailabilityCreate.date a);
       start_time := if start_ok then Some (ProviderAvailabilityCreate.start_time a) else None;
       recurrence_pattern := None;
       recurrence_end_date := None |} in
  (* values when is_recurring is validated: the recurrence fields come later *)
  let at_is_recurring := at_end_time in
  (* values when recurrence_end_date is validated *)
  let at_recurrence_end_date :=
    {| date := Some (ProviderAvailabilityCreate.date a);
       start_time := start_time at_end_time;
       recurrence_pattern := Some (ProviderAvailabilityCreate.recurrence_pattern a);
       recurrence_end_date := None |} in
  (if start_ok then [] else ["start_time"])
  ++ (if end_pattern_ok
         && negb (validate_end_time (ProviderAvailabilityCreate.end_time a) at_end_time)
      then [] else ["end_time"])
  ++ (if validate_recurring_fields (ProviderAvailabilityCreate.is_recurring a) at_is_recurring
      then ["is_recurring"] else [])
  ++ (if validate_recurrence_end_date (ProviderAvailabilityCreate.recurrence_end_date a)
           at_recurrence_end_date
      then ["recurrence_end_date"] else [])
  ++ (if (15 <=? ProviderAvailabilityCreate.slot_duration a)
         && (ProviderAvailabilityCreate.slot_duration a <=? 480)
      then [] else ["slot_duration"])
  ++ (if (0 <=? ProviderAvailabilityCreate.break_duration a)
         && (ProviderAvailabilityCreate.break_duration a <=? 120)
      then [] else ["break_duration"])
  ++ (if (1 <=? ProviderAvailabilityCreate.max_appointments_per_slot a)
         && (ProviderAvailabilityCreate.max_appointments_per_slot a <=? 10)
      then [] else ["max_appointments_per_slot"])
  ++ (match ProviderAvailabilityCreate.pricing a with
      | Some p => if Qle_bool 0 (Pricing.base_fee p) then [] else ["pricing"]
      | None => []
      end)
  ++ (match ProviderAvailabilityCreate.notes a with
      | Some n => if (String.length n <=? 500)%nat then [] else ["notes"]
      | None => []
      end).

(** The model accepts the request. *)
Definition accepts (a : ProviderAvailabilityCreate.t) : bool :=
  match errors a with [] => true | _ => false end.

End Validation.

(** *** More vocabulary *)

(** The slot is one that the generator makes for the record [a]: it carries
    the ids and the appointment type of the record, it is open and bound to
    no patient. *)
Definition generated_for (a : ProviderAvailabilityDB.t) (s : AppointmentSlot.t) : Prop :=
  AppointmentSlot.availability_id s = ProviderAvailabilityDB.id a /\
  AppointmentSlot.provider_id s = ProviderAvailabilityDB.provider_id a /\
  AppointmentSlot.status s = AVAILABLE /\
  AppointmentSlot.patient_id s = None /\
  AppointmentSlot.booking_reference s = None /\
  AppointmentSlot.appointment_type s
  = AppointmentType_value (ProviderAvailabilityDB.appointment_type a).

(** The ids of [slots] are the uuids drawn from the [n]-th on, in order. *)
Definition drawn_from (E : Env) (n : nat) (slots : list AppointmentSlot.t) : Prop :=
  forall i s, nth_error slots i = Some s -> AppointmentSlot.id s = uuid4_at E (n + i).

(** Further requests and states for running the service. *)
Module Scenario.

(** 09:00-11:00 on 2024-02-15, 30-minute slots with 15 minutes between
    them. *)
Definition with_breaks : ProviderAvailabilityCreate.t :=
  Sample.window "provider-123" (Calendar.ymd2ord 2024 2 15) "09:00" "11:00" 30 15.

(** A slot that is not in the store yet. *)
Definition walk_in : AppointmentSlot.t :=
  {| AppointmentSlot.id := "slot-200";
     AppointmentSlot.availability_id := "availability-123";
     AppointmentSlot.provider_id := "provider-123";
     AppointmentSlot.slot_start_time := 1708009200;
     AppointmentSlot.slot_end_time := 1708011000;
     AppointmentSlot.status := AVAILABLE;
     AppointmentSlot.patient_id := None;
     AppointmentSlot.appointment_type := "consultation";
     AppointmentSlot.booking_reference := None;
     AppointmentSlot.created_at := 1707955200;
     AppointmentSlot.updated_at := 1707955200 |}.

(** The morning window in a zone that pytz does not know. *)
Definition elsewhere : ProviderAvailabilityCreate.t :=
  {| ProviderAvailabilityCreate.provider_id := "provider-123";
     ProviderAvailabilityCreate.date := Calendar.ymd2ord 2024 2 15;
     ProviderAvailabilityCreate.start_time := "09:00";
     ProviderAvailabilityCreate.end_time := "11:00";
     ProviderAvailabilityCreate.timezone := "Mars/Olympus_Mons";
     ProviderAvailabilityCreate.is_recurring := false;
     ProviderAvailabilityCreate.recurrence_pattern := None;
     ProviderAvailabilityCreate.recurrence_end_date := None;
     ProviderAvailabilityCreate.slot_duration := 30;
     ProviderAvailabilityCreate.break_duration := 0;
     ProviderAvailabilityCreate.status := AVAILABLE;
     ProviderAvailabilityCreate.max_appointments_per_slot := 1;
     ProviderAvailabilityCreate.appointment_type := CONSULTATION;
     ProviderAvailabilityCreate.location := Sample.clinic;
     ProviderAvailabilityCreate.pricing := None;
     ProviderAvailabilityCreate.notes := None;
     ProviderAvailabilityCreate.special_requirements := Some [] |}.

(** The morning window a day later, blocked, priced, three patients to a
    slot. *)
Definition group_session : ProviderAvailabilityCreate.t :=
  {| ProviderAvailabilityCreate.provider_id := "provider-123";
     ProviderAvailabilityCreate.date := Calendar.ymd2ord 2024 2 16;
     ProviderAvailabilityCreate.start_time := "09:00";
     ProviderAvailabilityCreate.end_time := "11:00";
     ProviderAvailabilityCreate.timezone := "America/New_York";
     ProviderAvailabilityCreate.is_recurring := false;
     ProviderAvailabilityCreate.recurrence_pattern := None;
     ProviderAvailabilityCreate.recurrence_end_date := None;
     ProviderAvailabilityCreate.slot_duration := 30;
     ProviderAvailabilityCreate.break_duration := 0;
     ProviderAvailabilityCreate.status := BLOCKED;
     ProviderAvailabilityCreate.max_appointments_per_slot := 3;
     ProviderAvailabilityCreate.appointment_type := FOLLOW_UP;
     ProviderAvailabilityCreate.location := Sample.clinic;
     ProviderAvailabilityCreate.pricing :=
       Some {| Pricing.base_fee := 150 # 1; Pricing.insurance_accepted := false;
               Pricing.currency := "USD" |};
     ProviderAvailabilityCreate.notes := None;
     ProviderAvailabilityCreate.special_requirements := None |}.

(** The weekly request of the samples without its end date. *)
Definition open_ended : ProviderAvailabilityCreate.t :=
  {| ProviderAvailabilityCreate.provider_id := "provider-123";
     ProviderAvailabilityCreate.date := Calendar.ymd2ord 2024 2 15;
     ProviderAvailabilityCreate.start_time := "09:00";
     ProviderAvailabilityCreate.end_time := "10:00";
     ProviderAvailabilityCreate.timezone := "America/New_York";
     ProviderAvailabilityCreate.is_recurring := true;
     ProviderAvailabilityCreate.recurrence_pattern := Some WEEKLY;
     ProviderAvailabilityCreate.recurrence_end_date := None;
     ProviderAvailabilityCreate.slot_duration := 30;
     ProviderAvailabilityCreate.break_duration := 0;
     ProviderAvailabilityCreate.status := AVAILABLE;
     ProviderAvailabilityCreate.max_appointments_per_slot := 1;
     ProviderAvailabilityCreate.appointment_type := CONSULTATION;
     ProviderAvailabilityCreate.location := Sample.clinic;
     ProviderAvailabilityCreate.pricing := None;
     ProviderAvailabilityCreate.notes := None;
     ProviderAvailabilityCreate.special_requirements := Some [] |}.

(** 23:00-23:59 in UTC on 9999-12-31, the last day of the calendar,
    30-minute slots, no break. *)
Definition last_evening : ProviderAvailabilityCreate.t :=
  {| ProviderAvailabilityCreate.provider_id := "provider-123";
     ProviderAvailabilityCreate.date := Calendar.ymd2ord 9999 12 31;
     ProviderAvailabilityCreate.start_time := "23:00";
     ProviderAvailabilityCreate.end_time := "23:59";
     ProviderAvailabilityCreate.timezone := "UTC";
     ProviderAvailabilityCreate.is_recurring := false;
     ProviderAvailabilityCreate.recurrence_pattern := None;
     ProviderAvailabilityCreate.recurrence_end_date := None;
     ProviderAvailabilityCreate.slot_duration := 30;
     ProviderAvailabilityCreate.break_duration := 0;
     ProviderAvailabilityCreate.status := AVAILABLE;
     ProviderAvailabilityCreate.max_appointments_per_slot := 1;
     ProviderAvailabilityCreate.appointment_type := CONSULTATION;
     ProviderAvailabilityCreate.location := Sample.clinic;
     ProviderAvailabilityCreate.pricing := None;
     ProviderAvailabilityCreate.notes := None;
     ProviderAvailabilityCreate.special_requirements := Some [] |}.

(** Weekly from 9999-12-24 until 9999-12-31, the last day of the
    calendar. *)
Definition last_weeks : ProviderAvailabilityCreate.t :=
  Sample.recurring_window "provider-123" (Calendar.ymd2ord 9999 12 24) "09:00" "10:00" 30 0
    WEEKLY (Calendar.ymd2ord 9999 12 31).

(** A patch that asks for 13:00-14:00. *)
Definition move_earlier : ProviderAvailabilityUpdate.t :=
  {| ProviderAvailabilityUpdate.start_time := Some "13:00";
     ProviderAvailabilityUpdate.end_time := Some "14:00";
     ProviderAvailabilityUpdate.status := None;
     ProviderAvailabilityUpdate.notes := None;
     ProviderAvailabilityUpdate.pricing := None;
     ProviderAvailabilityUpdate.special_requirements := None |}.

(** The initial store with a third slot of the same availability, booked. *)
Definition busy_world : World :=
  {| PROVIDER_AVAILABILITY := [Sample.seed_availability];
     APPOINTMENT_SLOTS :=
       Sample.seed_slots
       ++ [Sample.slot "slot-125" "provider-123" 1708009200 1708011000 BOOKED];
     uuid_drawn := 0; clock_read := 0 |}.

(** A search for the open slots, shown in a zone that pytz does not know. *)
Definition search_elsewhere : AvailabilitySearchRequest.t :=
  {| AvailabilitySearchRequest.date := None;
     AvailabilitySearchRequest.start_date := None;
     AvailabilitySearchRequest.end_date := None;
     AvailabilitySearchRequest.specialization := None;
     AvailabilitySearchRequest.location := None;
     AvailabilitySearchRequest.appointment_type := None;
     AvailabilitySearchRequest.insurance_accepted := None;
     AvailabilitySearchRequest.max_price := None;
     AvailabilitySearchRequest.timezone := Some "Mars/Olympus_Mons";
     AvailabilitySearchRequest.available_only := true |}.

(** A slot with a price. *)
Definition priced_slot (id provider_id : string) (slot_start_time slot_end_time : Z)
    (status : AvailabilityStatus) (base_fee : Q) : SlotDict.t :=
  dict_update (Sample.slot id provider_id slot_start_time slot_end_time status)
    (prepare_update_data (Sample.status_price_patch status base_fee) 1707955200).

(** A store with four slots on 2024-02-15: an open one without a price, an
    open one at 150, a booked one, and an open one at 80 of another
    provider. *)
Definition mixed_world : World :=
  {| PROVIDER_AVAILABILITY := [Sample.seed_availability];
     APPOINTMENT_SLOTS :=
       [ Sample.slot "slot-123" "provider-123" 1708005600 1708007400 AVAILABLE;
         priced_slot "slot-124" "provider-123" 1708007400 1708009200 AVAILABLE (150 # 1);
         Sample.slot "slot-125" "provider-123" 1708009200 1708011000 BOOKED;
         priced_slot "slot-126" "provider-456" 1708005600 1708007400 AVAILABLE (80 # 1) ];
     uuid_drawn := 0; clock_read := 0 |}.

(** The open slot that starts with the calendar, 0001-01-01T00:00Z, and the
    store that holds it. *)
Definition first_slot : SlotDict.t :=
  Sample.slot "slot-1" "provider-123" Datetime.MIN (Datetime.MIN + 1800) AVAILABLE.

Definition first_day_world : World :=
  {| PROVIDER_AVAILABILITY := []; APPOINTMENT_SLOTS := [first_slot];
     uuid_drawn := 0; clock_read := 0 |}.

(** A store with one open slot, priced at 150. *)
Definition priced_world : World :=
  {| PROVIDER_AVAILABILITY := [];
     APPOINTMENT_SLOTS :=
       [dict_update (Sample.slot "slot-123" "provider-123" 1708005600 1708007400 AVAILABLE)
          (prepare_update_data (Sample.status_price_patch AVAILABLE (150 # 1)) 1707955200)];
     uuid_drawn := 0; clock_read := 0 |}.

End Scenario.

(** Another slot of the same provider, other than [slot_id], overlaps the
    interval. *)
Definition clashes (w : World) (slot_id provider_id : string) (start_time end_time : Z)
  : Prop :=
  exists other,
    In other (APPOINTMENT_SLOTS w) /\
    (provider_id = "" \/ SlotDict.provider_id other = provider_id) /\
    SlotDict.id other <> slot_id /\
    overlaps start_time end_time other.

(** What a cascading delete of the slot [slot_id] of the availability
    [availability_id] leaves in the store: the other slots that belong to
    another availability or are booked. *)
Definition survives_cascade (slot_id availability_id : string) (s : SlotDict.t) : bool :=
  negb (String.eqb (SlotDict.id s) slot_id)
  && (negb (String.eqb (SlotDict.availability_id s) availability_id)
      || status_is (SlotDict.status s) "booked").

(** The search request without its price limit. *)
Definition without_max_price (search_request : AvailabilitySearchRequest.t)
  : AvailabilitySearchRequest.t :=
  {| AvailabilitySearchRequest.date := AvailabilitySearchRequest.date search_request;
     AvailabilitySearchRequest.start_date :=
       AvailabilitySearchRequest.start_date search_request;
     AvailabilitySearchRequest.end_date := AvailabilitySearchRequest.end_date search_request;
     AvailabilitySearchRequest.specialization :=
       AvailabilitySearchRequest.specialization search_request;
     AvailabilitySearchRequest.location := AvailabilitySearchRequest.location search_request;
     AvailabilitySearchRequest.appointment_type :=
       AvailabilitySearchRequest.appointment_type search_request;
     AvailabilitySearchRequest.insurance_accepted :=
       AvailabilitySearchRequest.insurance_accepted search_request;
     AvailabilitySearchRequest.max_price := None;
     AvailabilitySearchRequest.timezone := AvailabilitySearchRequest.timezone search_request;
     AvailabilitySearchRequest.available_only :=
       AvailabilitySearchRequest.available_only search_request |}.

(** The slots that a listing shows: those of the provider (of every
    provider when the id is empty) whose UTC date is in the range and that
    carry the status and the appointment type asked for, a criterion that is
    absent or empty asking for nothing. *)
Definition listing_selects (provider_id : string) (start_date end_date : Calendar.date)
    (status appointment_type : option string) (slot : SlotDict.t) : Prop :=
  (provider_id = "" \/ SlotDict.provider_id slot = provider_id) /\
  start_date <= Calendar.date_of (SlotDict.slot_start_time slot) <= end_date /\
  (forall wanted, status = Some wanted -> wanted <> "" ->
                  AvailabilityStatus_value (SlotDict.status slot) = wanted) /\
  (forall wanted, appointment_type = Some wanted -> wanted <> "" ->
                  SlotDict.appointment_type slot = wanted).

(** The entry of a listing shows the slot in the zone: it carries the id of
    the slot, its two times converted to the zone, its status, its
    appointment type, no location, and its price if it has one. *)
Definition lists (E : Env) (timezone_str : string) (slot : SlotDict.t)
    (entry : ListedSlot.t) : Prop :=
  ListedSlot.slot_id entry = SlotDict.id slot /\
  convert_from_utc E (SlotDict.slot_start_time slot) timezone_str
  = Return (ListedSlot.start_time entry) /\
  convert_from_utc E (SlotDict.slot_end_time slot) timezone_str
  = Return (ListedSlot.end_time entry) /\
  ListedSlot.status entry = SlotDict.status slot /\
  ListedSlot.appointment_type entry = SlotDict.appointment_type slot /\
  ListedSlot.location entry = None /\
  ListedSlot.pricing entry = SlotDict.pricing slot.

(** The number of entries in the groups of a listing. *)
Fixpoint entries_count {K A} (groups : list (K * list A)) : nat :=
  match groups with
  | [] => 0
  | g :: rest => List.length (snd g) + entries_count rest
  end.

(** *** The range of [datetime] in the properties *)

(** A date that exists: from 0001-01-01 to 9999-12-31. *)
Definition is_date (d : Calendar.date) : Prop :=
  Calendar.ymd2ord 1 1 1 <= d <= Calendar.ymd2ord 9999 12 31.

(** A date from 0001-01-02 to 9999-12-29: no wall time of such a day, moved
    by less than a day and then by the longest slot or break that the model
    admits, leaves the range of [datetime]. *)
Definition inner_date (d : Calendar.date) : Prop :=
  Calendar.ymd2ord 1 1 2 <= d <= Calendar.ymd2ord 9999 12 29.

(** The offsets of the zone are less than a day in size, as [datetime]
    demands of every [tzinfo]. *)
Definition offsets_within_a_day (tz : tzinfo) : Prop :=
  forall x, -86400 < localize_utcoffset tz x < 86400 /\ -86400 < utcoffset tz x < 86400.

(** The slot generator, run between the two instants, stays inside the range
    of [datetime]: the start is a datetime, and so is the end moved by a slot
    and by a break. *)
Definition within_range (slot_duration break_duration start_dt end_dt : Z) : Prop :=
  Datetime.MIN <= start_dt /\
  end_dt + Calendar.minutes slot_duration <= Datetime.MAX /\
  end_dt + Calendar.minutes break_duration <= Datetime.MAX.

(** The window of the request, put on the date [d], can be cut into slots:
    its two times convert, and the generator stays inside the range of
    [datetime] between them. *)
Definition generable (E : Env) (c : ProviderAvailabilityCreate.t) (d : Calendar.date) : Prop :=
  exists start_dt end_dt,
    convert_to_utc E (ProviderAvailabilityCreate.start_time c) d
      (ProviderAvailabilityCreate.timezone c) = Return start_dt /\
    convert_to_utc E (ProviderAvailabilityCreate.end_time c) d
      (ProviderAvailabilityCreate.timezone c) = Return end_dt /\
    within_range (ProviderAvailabilityCreate.slot_duration c)
      (ProviderAvailabilityCreate.break_duration c) start_dt end_dt.

(** The two times of the slot can be shown in the zone: [convert_from_utc]
    returns for both. *)
Definition showable (E : Env) (timezone_str : string) (slot : SlotDict.t) : bool :=
  match convert_from_utc E (SlotDict.slot_start_time slot) timezone_str,
        convert_from_utc E (SlotDict.slot_end_time slot) timezone_str with
  | Return _, Return _ => true
  | _, _ => false
  end.

Ltac run_monad :=
  unfold bind, ret, lift, gets, modify, raise, diverge, try_except,
         new_AppointmentSlot, new_ProviderAvailabilityDB, uuid4, utcnow;
  cbn -[Z.mul Z.add Z.sub Calendar.minutes].

(* ================================================================= *)
(** ** Properties *)

(** *** Digits and time strings *)
Lemma digit_cases (d : Z) :
  0 <= d <= 9 ->
  d = 0 \/ d = 1 \/ d = 2 \/ d = 3 \/ d = 4 \/ d = 5 \/ d = 6 \/ d = 7 \/ d = 8 \/ d = 9.
Proof. lia. Qed.

Ltac each_digit d H :=
  destruct (digit_cases d H) as [->|[->|[->|[->|[->|[->|[->|[->|[->| ->]]]]]]]]].

Lemma digit_of_digit_char (d : Z) :
  0 <= d <= 9 -> Py.digit_of (Py.digit_char d) = Some d.
Proof. intros H. each_digit d H; reflexivity. Qed.

Lemma digit_char_not_colon (d : Z) :
  0 <= d <= 9 -> Ascii.eqb (Py.digit_char d) ":" = false.
Proof. intros H. each_digit d H; reflexivity. Qed.

Lemma digit_of_inv (c : ascii) (x : Z) :
  Py.digit_of c = Some x -> 0 <= x <= 9 /\ c = Py.digit_char x.
Proof.
  unfold Py.digit_of, Py.digit_char.
  destruct (_ && _) eqn:B; [|discriminate].
  intros [= <-]. apply andb_prop in B as [B1 B2].
  apply Z.leb_le in B1, B2. split; [lia|].
  replace (48 + (Z.of_N (N_of_ascii c) - 48)) with (Z.of_N (N_of_ascii c)) by lia.
  now rewrite N2Z.id, ascii_N_embedding.
Qed.

Lemma digit_not_colon (c : ascii) (x : Z) :
  Py.digit_of c = Some x -> Ascii.eqb c ":" = false.
Proof.
  intros H. apply digit_of_inv in H as [Hx ->]. now apply digit_char_not_colon.
Qed.

Lemma digit_plain (c : ascii) (x : Z) :
  Py.digit_of c = Some x ->
  Py.is_space c = false /\ Ascii.eqb c "+" = false /\ Ascii.eqb c "-" = false.
Proof.
  intros H. apply digit_of_inv in H as [Hx ->]. each_digit x Hx; repeat split.
Qed.

Lemma int_one_digit (a : ascii) (x : Z) :
  Py.digit_of a = Some x -> Py.int (String a EmptyString) = Some x.
Proof.
  intros Ha. destruct (digit_plain a x Ha) as (Sa & Pa & Ma).
  unfold Py.int. cbn [Py.skip_blanks]. rewrite Sa. cbn [Py.trim_blanks]. rewrite Sa, Pa, Ma.
  cbn [Py.int_digits]. rewrite Ha. f_equal; lia.
Qed.

Lemma int_two_digits (a b : ascii) (x y : Z) :
  Py.digit_of a = Some x -> Py.digit_of b = Some y ->
  Py.int (String a (String b EmptyString)) = Some (10 * x + y).
Proof.
  intros Ha Hb. destruct (digit_plain a x Ha) as (Sa & Pa & Ma).
  destruct (digit_plain b y Hb) as (Sb & _ & _).
  unfold Py.int. cbn [Py.skip_blanks]. rewrite Sa. cbn [Py.trim_blanks]. rewrite Sb, Pa, Ma.
  cbn [Py.int_digits]. rewrite Ha, Hb. f_equal; lia.
Qed.

Lemma parse_time_pad2 (h m : Z) :
  0 <= h < 24 -> 0 <= m < 60 ->
  parse_time (Py.pad2 h ++ ":" ++ Py.pad2 m) = Some (h, m).
Proof.
  intros Hh Hm. unfold parse_time, Py.pad2. cbn [String.append].
  assert (Ha : 0 <= h / 10 <= 9) by (split; [apply Z.div_pos | apply Z.div_le_upper_bound]; lia).
  assert (Hb : 0 <= h mod 10 <= 9) by (pose proof (Z.mod_pos_bound h 10); lia).
  assert (Hc : 0 <= m / 10 <= 9) by (split; [apply Z.div_pos | apply Z.div_le_upper_bound]; lia).
  assert (Hd : 0 <= m mod 10 <= 9) by (pose proof (Z.mod_pos_bound m 10); lia).
  cbn [Py.split].
  rewrite !digit_char_not_colon by assumption.
  rewrite Ascii.eqb_refl.
  rewrite (int_two_digits _ _ (h / 10) (h mod 10)) by now apply digit_of_digit_char.
  rewrite (int_two_digits _ _ (m / 10) (m mod 10)) by now apply digit_of_digit_char.
  replace (10 * (h / 10) + h mod 10) with h by (pose proof (Z.div_mod h 10); lia).
  replace (10 * (m / 10) + m mod 10) with m by (pose proof (Z.div_mod m 10); lia).
  destruct (0 <=? h) eqn:A0; [|apply Z.leb_gt in A0; lia].
  destruct (h <? 24) eqn:A; [|apply Z.ltb_ge in A; lia].
  destruct (0 <=? m) eqn:B0; [|apply Z.leb_gt in B0; lia].
  destruct (m <? 60) eqn:B; [|apply Z.ltb_ge in B; lia].
  reflexivity.
Qed.

Lemma strftime_HM_combine (d h m : Z) :
  0 <= h < 24 -> 0 <= m < 60 ->
  strftime_HM (Calendar.combine d h m) = (Py.pad2 h ++ ":" ++ Py.pad2 m)%string.
Proof.
  intros Hh Hm. unfold strftime_HM, Calendar.combine.
  replace (((d - Calendar.epoch_ordinal) * 86400 + h * 3600 + m * 60) mod 86400 / 3600) with h.
  2:{ symmetry.
      replace ((d - Calendar.epoch_ordinal) * 86400 + h * 3600 + m * 60)
        with ((h * 3600 + m * 60) + (d - Calendar.epoch_ordinal) * 86400) by lia.
      rewrite Z.mod_add by lia. rewrite Z.mod_small by lia.
      symmetry. apply Z.div_unique with (r := m * 60); lia. }
  replace (((d - Calendar.epoch_ordinal) * 86400 + h * 3600 + m * 60) mod 3600 / 60) with m.
  2:{ symmetry.
      replace ((d - Calendar.epoch_ordinal) * 86400 + h * 3600 + m * 60)
        with (m * 60 + ((d - Calendar.epoch_ordinal) * 24 + h) * 3600) by lia.
      rewrite Z.mod_add by lia. rewrite Z.mod_small by lia.
      symmetry. apply Z.div_unique with (r := 0); lia. }
  reflexivity.
Qed.

Lemma is_HHMM_inv (t : string) :
  is_HHMM t = true ->
  exists h m, 0 <= h < 24 /\ 0 <= m < 60 /\ t = (Py.pad2 h ++ ":" ++ Py.pad2 m)%string.
Proof.
  unfold is_HHMM. intros H. apply andb_prop in H as [P L].
  destruct t as [|a [|b [|c [|d [|e [|f t]]]]]]; try discriminate L.
  clear L. unfold time_pattern in P. cbn [Py.split] in P.
  destruct (Ascii.eqb a ":") eqn:Ea, (Ascii.eqb b ":") eqn:Eb,
           (Ascii.eqb c ":") eqn:Ec, (Ascii.eqb d ":") eqn:Ed,
           (Ascii.eqb e ":") eqn:Ee; cbn in P; try discriminate P.
  - (* "a:cde": the minute field would have three characters *)
    apply andb_prop in P as [_ P]. discriminate P.
  - (* "ab:de" *)
    apply Ascii.eqb_eq in Ec. subst c.
    apply andb_prop in P as [Ph Pm].
    destruct (Py.digit_of a) as [x|] eqn:Da; [|discriminate Ph].
    destruct (Py.digit_of b) as [y|] eqn:Db; [|discriminate Ph].
    destruct (Py.digit_of d) as [u|] eqn:Dd; [|discriminate Pm].
    destruct (Py.digit_of e) as [v|] eqn:De; [|discriminate Pm].
    apply digit_of_inv in Da as [Hx ->], Db as [Hy ->], Dd as [Hu ->], De as [Hv ->].
    apply Z.leb_le in Pm.
    assert (Hxy : x <= 1 \/ (x = 2 /\ y <= 3)).
    { apply orb_prop in Ph as [Ph|Ph]; [left; now apply Z.leb_le|right].
      apply andb_prop in Ph as [P1 P2]. apply Z.eqb_eq in P1. apply Z.leb_le in P2. lia. }
    exists (10 * x + y), (10 * u + v). split; [lia|]. split; [lia|].
    unfold Py.pad2. cbn [String.append].
    replace ((10 * x + y) / 10) with x by (apply Z.div_unique with (r := y); lia).
    replace ((10 * x + y) mod 10) with y by (apply Z.mod_unique with (q := x); lia).
    replace ((10 * u + v) / 10) with u by (apply Z.div_unique with (r := v); lia).
    replace ((10 * u + v) mod 10) with v by (apply Z.mod_unique with (q := u); lia).
    reflexivity.
Qed.

Lemma digit_char_compare (x y : Z) :
  0 <= x <= 9 -> 0 <= y <= 9 ->
  Ascii.compare (Py.digit_char x) (Py.digit_char y) = (x ?= y).
Proof.
  intros Hx Hy. each_digit x Hx; each_digit y Hy; reflexivity.
Qed.

(** On zero-padded HH:MM strings the order of the strings is the order of
    the times of day. *)
Lemma hhmm_order (a b : string) (ta tb : Z * Z) :
  is_HHMM a = true -> is_HHMM b = true ->
  parse_time a = Some ta -> parse_time b = Some tb ->
  String.ltb a b = true <-> minute_of_day ta < minute_of_day tb.
Proof.
  intros Ha Hb Pa Pb.
  destruct (is_HHMM_inv a Ha) as (h & m & Hh & Hm & ->).
  destruct (is_HHMM_inv b Hb) as (h' & m' & Hh' & Hm' & ->).
  rewrite parse_time_pad2 in Pa, Pb by assumption.
  injection Pa as <-. injection Pb as <-.
  unfold minute_of_day. cbn [fst snd].
  unfold String.ltb, Py.pad2. cbn [String.append String.compare].
  pose proof (Z.div_mod h 10 ltac:(lia)). pose proof (Z.mod_pos_bound h 10 ltac:(lia)).
  pose proof (Z.div_mod m 10 ltac:(lia)). pose proof (Z.mod_pos_bound m 10 ltac:(lia)).
  pose proof (Z.div_mod h' 10 ltac:(lia)). pose proof (Z.mod_pos_bound h' 10 ltac:(lia)).
  pose proof (Z.div_mod m' 10 ltac:(lia)). pose proof (Z.mod_pos_bound m' 10 ltac:(lia)).
  assert (0 <= h / 10 <= 9) by (split; [apply Z.div_pos|apply Z.div_le_upper_bound]; lia).
  assert (0 <= m / 10 <= 9) by (split; [apply Z.div_pos|apply Z.div_le_upper_bound]; lia).
  assert (0 <= h' / 10 <= 9) by (split; [apply Z.div_pos|apply Z.div_le_upper_bound]; lia).
  assert (0 <= m' / 10 <= 9) by (split; [apply Z.div_pos|apply Z.div_le_upper_bound]; lia).
  rewrite !digit_char_compare by lia.
  change (Ascii.compare ":" ":") with Eq. cbv iota.
  destruct (Z.compare_spec (h / 10) (h' / 10));
  destruct (Z.compare_spec (h mod 10) (h' mod 10));
  destruct (Z.compare_spec (m / 10) (m' / 10));
  destruct (Z.compare_spec (m mod 10) (m' mod 10));
  split; intros; try discriminate; try reflexivity; try lia.
Qed.

(** *** The slot loop *)

Lemma same_store_refl w : same_store w w.
Proof. now split. Qed.

Lemma same_store_trans w1 w2 w3 : same_store w1 w2 -> same_store w2 w3 -> same_store w1 w3.
Proof. intros [A B] [C D]. split; congruence. Qed.

Lemma Datetime_add_in (dt s : Z) :
  Datetime.MIN <= dt + s <= Datetime.MAX -> Datetime.add dt s = Some (dt + s).
Proof.
  intros [A B]. unfold Datetime.add, Datetime.representable.
  apply Z.leb_le in A, B. now rewrite A, B.
Qed.

Lemma Datetime_add_inv (dt s r : Z) :
  Datetime.add dt s = Some r -> r = dt + s /\ Datetime.MIN <= r <= Datetime.MAX.
Proof.
  unfold Datetime.add, Datetime.representable.
  destruct (Datetime.MIN <=? dt + s) eqn:A; [|discriminate].
  destruct (dt + s <=? Datetime.MAX) eqn:B; [|discriminate].
  intros [= <-]. apply Z.leb_le in A, B. lia.
Qed.

(** Whatever the loop returns is the slots it had, followed by a chain cut
    from the cursor; the loop leaves the store as it is. *)
Lemma slot_loop_chain (E : Env) (a : ProviderAvailabilityDB.t) (end_dt : Z) (fuel : nat) :
  forall cur acc w slots w',
    slot_loop E fuel a end_dt cur acc w = (Return slots, w') ->
    exists new,
      slots = acc ++ new /\
      chain (Calendar.minutes (ProviderAvailabilityDB.slot_duration a))
            (Calendar.minutes (ProviderAvailabilityDB.break_duration a))
            end_dt cur new /\
      same_store w w'.
Proof.
  induction fuel as [|fuel IH]; intros cur acc w slots w'; [discriminate|].
  cbn [slot_loop].
  destruct (cur <? end_dt) eqn:C1.
  - apply Z.ltb_lt in C1.
    destruct (Datetime.add cur _) as [slot_end|] eqn:A1; [|discriminate].
    apply Datetime_add_inv in A1 as [-> _].
    destruct (_ >? end_dt) eqn:C2.
    + intros [= <- <-]. exists []. rewrite app_nil_r. repeat split.
      right. apply Z.gtb_lt in C2. lia.
    + rewrite Z.gtb_ltb in C2. apply Z.ltb_ge in C2.
      destruct (Datetime.add (cur + _) _) as [next|] eqn:A2.
      * apply Datetime_add_inv in A2 as [-> _].
        run_monad. intros R.
        destruct (IH _ _ _ _ _ R) as (new & -> & Ch & St).
        eexists (_ :: new). rewrite <- app_assoc. split; [reflexivity|].
        split; [|exact St]. cbn -[Calendar.minutes]. auto.
      * run_monad. discriminate.
  - apply Z.ltb_ge in C1. intros [= <- <-]. exists []. rewrite app_nil_r.
    repeat split. now left.
Qed.

(** The loop returns when its additions stay inside the range of
    [datetime]. *)
Lemma slot_loop_run (E : Env) (a : ProviderAvailabilityDB.t) (end_dt : Z) (fuel : nat) :
  0 < ProviderAvailabilityDB.slot_duration a ->
  0 <= ProviderAvailabilityDB.break_duration a ->
  end_dt + Calendar.minutes (ProviderAvailabilityDB.slot_duration a) <= Datetime.MAX ->
  end_dt + Calendar.minutes (ProviderAvailabilityDB.break_duration a) <= Datetime.MAX ->
  forall cur acc w,
    Datetime.MIN <= cur ->
    (Z.to_nat (end_dt - cur) < fuel)%nat ->
    exists slots w', slot_loop E fuel a end_dt cur acc w = (Return slots, w').
Proof.
  intros HD HB HMD HMB. induction fuel as [|fuel IH]; intros cur acc w Hc Hf; [lia|].
  cbn [slot_loop].
  destruct (cur <? end_dt) eqn:C1; [|now eexists _, _].
  apply Z.ltb_lt in C1.
  rewrite Datetime_add_in by (unfold Calendar.minutes in *; lia). cbv beta iota.
  destruct (_ >? end_dt) eqn:C2; [now eexists _, _|].
  rewrite Z.gtb_ltb in C2. apply Z.ltb_ge in C2.
  rewrite Datetime_add_in by (unfold Calendar.minutes in *; lia).
  run_monad. apply IH; unfold Calendar.minutes in *; lia.
Qed.

(** The loop returns as well when the break is 0 and the distance to the end
    is a whole number of slots, the end being a datetime: the cursor then
    never passes the end. *)
Lemma slot_loop_run_exact (E : Env) (a : ProviderAvailabilityDB.t) (end_dt : Z) (fuel : nat) :
  0 < ProviderAvailabilityDB.slot_duration a ->
  ProviderAvailabilityDB.break_duration a = 0 ->
  end_dt <= Datetime.MAX ->
  forall cur acc w k,
    Datetime.MIN <= cur ->
    end_dt - cur = k * Calendar.minutes (ProviderAvailabilityDB.slot_duration a) ->
    (Z.to_nat (end_dt - cur) < fuel)%nat ->
    exists slots w', slot_loop E fuel a end_dt cur acc w = (Return slots, w').
Proof.
  intros HD HB HM. induction fuel as [|fuel IH]; intros cur acc w k Hc Hk Hf; [lia|].
  cbn [slot_loop].
  destruct (cur <? end_dt) eqn:C1; [|now eexists _, _].
  apply Z.ltb_lt in C1.
  assert (Hk1 : 1 <= k) by (unfold Calendar.minutes in *; nia).
  rewrite Datetime_add_in by (unfold Calendar.minutes in *; nia). cbv beta iota.
  destruct (_ >? end_dt) eqn:C2; [now eexists _, _|].
  rewrite Z.gtb_ltb in C2. apply Z.ltb_ge in C2.
  rewrite HB.
  rewrite Datetime_add_in by (unfold Calendar.minutes in *; nia).
  run_monad. apply (IH _ _ _ (k - 1)); unfold Calendar.minutes in *; nia.
Qed.

(** What the generator returns is the chain cut between the two converted
    instants. *)
Lemma generate_slots_chain (E : Env) (a : ProviderAvailabilityDB.t) (start_dt end_dt : Z)
    (w : World) (slots : list AppointmentSlot.t) (w' : World) :
  convert_to_utc E (ProviderAvailabilityDB.start_time a) (ProviderAvailabilityDB.date a)
    (ProviderAvailabilityDB.timezone a) = Return start_dt ->
  convert_to_utc E (ProviderAvailabilityDB.end_time a) (ProviderAvailabilityDB.date a)
    (ProviderAvailabilityDB.timezone a) = Return end_dt ->
  generate_slots_from_availability E a w = (Return slots, w') ->
  chain (Calendar.minutes (ProviderAvailabilityDB.slot_duration a))
        (Calendar.minutes (ProviderAvailabilityDB.break_duration a))
        end_dt start_dt slots /\
  same_store w w'.
Proof.
  intros Hs He. unfold generate_slots_from_availability.
  rewrite Hs, He. cbv beta iota delta [bind lift]. intros R.
  destruct (slot_loop_chain _ _ _ _ _ _ _ _ _ R) as (new & -> & Ch & St). now split.
Qed.

Lemma generate_slots_run (E : Env) (a : ProviderAvailabilityDB.t) (start_dt end_dt : Z)
    (w : World) :
  convert_to_utc E (ProviderAvailabilityDB.start_time a) (ProviderAvailabilityDB.date a)
    (ProviderAvailabilityDB.timezone a) = Return start_dt ->
  convert_to_utc E (ProviderAvailabilityDB.end_time a) (ProviderAvailabilityDB.date a)
    (ProviderAvailabilityDB.timezone a) = Return end_dt ->
  0 < ProviderAvailabilityDB.slot_duration a ->
  0 <= ProviderAvailabilityDB.break_duration a ->
  within_range (ProviderAvailabilityDB.slot_duration a)
    (ProviderAvailabilityDB.break_duration a) start_dt end_dt ->
  exists slots w',
    generate_slots_from_availability E a w = (Return slots, w') /\
    chain (Calendar.minutes (ProviderAvailabilityDB.slot_duration a))
          (Calendar.minutes (ProviderAvailabilityDB.break_duration a))
          end_dt start_dt slots /\
    same_store w w'.
Proof.
  intros Hs He HD HB (Hmin & HMD & HMB).
  destruct (slot_loop_run E a end_dt (slot_loop_fuel start_dt end_dt) HD HB HMD HMB
              start_dt [] w Hmin) as (slots & w' & R); [unfold slot_loop_fuel; lia|].
  exists slots, w'.
  assert (G : generate_slots_from_availability E a w = (Return slots, w')).
  { unfold generate_slots_from_availability.
    rewrite Hs, He. cbv beta iota delta [bind lift]. exact R. }
  split; [exact G|]. exact (generate_slots_chain E a _ _ _ _ _ Hs He G).
Qed.

Section Chain.
Context (D B end_dt : Z) (HD : 0 < D) (HB : 0 <= B).

Lemma chain_lower (l : list AppointmentSlot.t) :
  forall cur s, chain D B end_dt cur l -> In s l ->
    cur <= AppointmentSlot.slot_start_time s /\
    AppointmentSlot.slot_end_time s = AppointmentSlot.slot_start_time s + D /\
    AppointmentSlot.slot_end_time s <= end_dt.
Proof.
  induction l as [|x r IH]; intros cur s Ch Hin; [contradiction|].
  destruct Ch as (Hle & Hs & He & Ch). destruct Hin as [->|Hin].
  - lia.
  - destruct (IH _ _ Ch Hin) as (? & ? & ?). lia.
Qed.

Lemma chain_next (l : list AppointmentSlot.t) :
  forall cur i s t, chain D B end_dt cur l ->
    nth_error l i = Some s -> nth_error l (S i) = Some t ->
    AppointmentSlot.slot_start_time t = AppointmentSlot.slot_end_time s + B.
Proof.
  induction l as [|x r IH]; intros cur i s t Ch Hi Hj; [now destruct i|].
  destruct Ch as (Hle & Hs & He & Ch). destruct i as [|i].
  - cbn in Hi. injection Hi as <-. cbn in Hj.
    destruct r as [|y r']; [discriminate|]. cbn in Hj. injection Hj as <-.
    destruct Ch as (_ & Hy & _). lia.
  - exact (IH _ _ _ _ Ch Hi Hj).
Qed.

Lemma chain_order (l : list AppointmentSlot.t) :
  forall cur i j s t, chain D B end_dt cur l -> (i < j)%nat ->
    nth_error l i = Some s -> nth_error l j = Some t ->
    AppointmentSlot.slot_end_time s <= AppointmentSlot.slot_start_time t.
Proof.
  induction l as [|x r IH]; intros cur i j s t Ch Hij Hi Hj; [now destruct i|].
  destruct Ch as (Hle & Hs & He & Ch).
  destruct j as [|j]; [lia|]. cbn in Hj. destruct i as [|i].
  - cbn in Hi. injection Hi as <-.
    destruct (chain_lower _ _ _ Ch (nth_error_In _ _ Hj)) as (? & _). lia.
  - cbn in Hi. apply (IH _ i j s t Ch); [lia|assumption..].
Qed.

Lemma chain_count (l : list AppointmentSlot.t) :
  B = 0 ->
  forall cur k, 0 <= k -> end_dt - cur = k * D -> chain D B end_dt cur l ->
    Z.of_nat (List.length l) = k.
Proof.
  intros HB0. induction l as [|x r IH]; intros cur k Hk Hspan Ch.
  - cbn. destruct Ch as [Ch|Ch]; nia.
  - destruct Ch as (Hle & _ & _ & Ch).
    assert (Hk1 : 1 <= k) by nia.
    cbn [List.length]. rewrite Nat2Z.inj_succ.
    rewrite (IH (cur + D + B) (k - 1)); [lia|lia|nia|assumption].
Qed.

End Chain.

Lemma chain_nth (D B end_dt : Z) (l : list AppointmentSlot.t) :
  forall cur i s, chain D B end_dt cur l -> nth_error l i = Some s ->
    AppointmentSlot.slot_start_time s = cur + Z.of_nat i * (D + B) /\
    AppointmentSlot.slot_end_time s = cur + Z.of_nat i * (D + B) + D.
Proof.
  induction l as [|x r IH]; intros cur i s Ch Hi; [now destruct i|].
  destruct Ch as (Hle & Hs & He & Ch). destruct i as [|i].
  - cbn in Hi. injection Hi as <-. lia.
  - cbn [nth_error] in Hi. destruct (IH _ _ _ Ch Hi) as [A C]. lia.
Qed.

(** *** The slot generator *)

(** What [convert_to_utc] returns is the wall time less the offset that
    [localize] attaches to it. *)
Lemma convert_to_utc_value (E : Env) (t : string) (d : Calendar.date) (timezone_str : string)
    (tz : tzinfo) (hm : Z * Z) (utc_dt : Z) :
  pytz_timezone E timezone_str = Some tz ->
  parse_time t = Some hm ->
  convert_to_utc E t d timezone_str = Return utc_dt ->
  utc_dt = Calendar.combine d (fst hm) (snd hm)
           - localize_utcoffset tz (Calendar.combine d (fst hm) (snd hm)).
Proof.
  intros Hz Hp. unfold convert_to_utc. rewrite Hz, Hp. destruct hm as [h m]. cbn [fst snd].
  unfold localize, astimezone_UTC.
  destruct tz as [|offset|lt ut]; cbn [localize_utcoffset].
  - intros [= <-]. lia.
  - destruct (Datetime.add _ _) as [r|] eqn:A; [|discriminate].
    intros [= <-]. apply Datetime_add_inv in A as [-> _]. lia.
  - destruct (Datetime.add _ (-86400)); [|discriminate].
    destruct (Datetime.add _ 86400); [|discriminate].
    destruct (Datetime.add _ (- _)) as [r|] eqn:A; [|discriminate].
    intros [= <-]. apply Datetime_add_inv in A as [-> _]. lia.
Qed.

Lemma parse_time_bounds (t : string) (h m : Z) :
  parse_time t = Some (h, m) -> 0 <= h < 24 /\ 0 <= m < 60.
Proof.
  unfold parse_time.
  destruct (Py.split ":" t) as [|a [|b [|c l]]]; try discriminate.
  destruct (Py.int a) as [x|]; [|discriminate].
  destruct (Py.int b) as [y|]; [|discriminate].
  destruct (0 <=? x) eqn:A; [|discriminate].
  destruct (x <? 24) eqn:B; [|discriminate].
  destruct (0 <=? y) eqn:C; [|discriminate].
  destruct (y <? 60) eqn:D; [|discriminate].
  intros [= <- <-]. apply Z.leb_le in A, C. apply Z.ltb_lt in B, D. lia.
Qed.

Lemma MIN_value : Datetime.MIN = -62135596800.
Proof. reflexivity. Qed.

Lemma MAX_value : Datetime.MAX = 253402300799.
Proof. reflexivity. Qed.

(** Every wall time of a date that exists is a datetime. *)
Lemma combine_is_date (d h m : Z) :
  is_date d -> 0 <= h < 24 -> 0 <= m < 60 ->
  Datetime.MIN <= Calendar.combine d h m <= Datetime.MAX.
Proof.
  unfold is_date. change (Calendar.ymd2ord 1 1 1) with 1.
  change (Calendar.ymd2ord 9999 12 31) with 3652059.
  rewrite MIN_value, MAX_value. unfold Calendar.combine, Calendar.epoch_ordinal. lia.
Qed.

(** A wall time of an inner date is a day away from the start of the range
    and two days away from its end. *)
Lemma combine_inner_date (d h m : Z) :
  inner_date d -> 0 <= h < 24 -> 0 <= m < 60 ->
  Datetime.MIN + 86400 <= Calendar.combine d h m /\
  Calendar.combine d h m + 2 * 86400 <= Datetime.MAX.
Proof.
  unfold inner_date. change (Calendar.ymd2ord 1 1 2) with 2.
  change (Calendar.ymd2ord 9999 12 29) with 3652057.
  rewrite MIN_value, MAX_value. unfold Calendar.combine, Calendar.epoch_ordinal. lia.
Qed.

(** On an inner date, in a zone whose offsets are less than a day,
    [convert_to_utc] returns, and what it returns is a day away from the end
    of the range. *)
Lemma convert_to_utc_inner (E : Env) (t : string) (d : Calendar.date) (timezone_str : string)
    (tz : tzinfo) (h m : Z) :
  pytz_timezone E timezone_str = Some tz ->
  parse_time t = Some (h, m) ->
  inner_date d ->
  offsets_within_a_day tz ->
  exists utc_dt,
    convert_to_utc E t d timezone_str = Return utc_dt /\
    utc_dt = Calendar.combine d h m - localize_utcoffset tz (Calendar.combine d h m) /\
    Datetime.MIN <= utc_dt /\ utc_dt + 86400 <= Datetime.MAX.
Proof.
  intros Hz Hp Hd Ho.
  destruct (parse_time_bounds t h m Hp) as [Hh Hm].
  destruct (combine_inner_date d h m Hd Hh Hm) as [L U].
  destruct (Ho (Calendar.combine d h m)) as [[O1 O2] _].
  unfold convert_to_utc. rewrite Hz, Hp.
  set (l := Calendar.combine d h m) in *.
  exists (l - localize_utcoffset tz l).
  split; [|split; [reflexivity|lia]].
  destruct tz as [|offset|lt ut]; unfold localize, astimezone_UTC.
  - cbn [localize_utcoffset]. f_equal; lia.
  - rewrite Datetime_add_in by lia. f_equal; lia.
  - rewrite (Datetime_add_in l (-86400)) by lia.
    rewrite (Datetime_add_in l 86400) by lia.
    rewrite Datetime_add_in by lia. f_equal; lia.
Qed.

(** On such a date, a request whose fields are within the bounds of the
    model can be cut into slots. *)
Lemma inner_date_generable (E : Env) (c : ProviderAvailabilityCreate.t) (d : Calendar.date)
    (tz : tzinfo) (start_hm end_hm : Z * Z) :
  pytz_timezone E (ProviderAvailabilityCreate.timezone c) = Some tz ->
  offsets_within_a_day tz ->
  parse_time (ProviderAvailabilityCreate.start_time c) = Some start_hm ->
  parse_time (ProviderAvailabilityCreate.end_time c) = Some end_hm ->
  inner_date d ->
  ProviderAvailabilityCreate.slot_duration c <= 480 ->
  ProviderAvailabilityCreate.break_duration c <= 120 ->
  generable E c d.
Proof.
  intros Hz Ho Hs He Hd HD HB. destruct start_hm as [h1 m1], end_hm as [h2 m2].
  destruct (convert_to_utc_inner E _ d _ tz h1 m1 Hz Hs Hd Ho) as (s & Cs & _ & Smin & _).
  destruct (convert_to_utc_inner E _ d _ tz h2 m2 Hz He Hd Ho) as (e & Ce & _ & _ & Emax).
  exists s, e. split; [exact Cs|]. split; [exact Ce|].
  unfold within_range, Calendar.minutes. lia.
Qed.

(** [convert_from_utc] in a zone that [pytz] knows: the wall time of the
    instant when that is a datetime, and its one ValueError when not. *)
Lemma convert_from_utc_in (E : Env) (utc_datetime : Z) (timezone_str : string) (tz : tzinfo) :
  pytz_timezone E timezone_str = Some tz ->
  tz = UTC \/
  Datetime.MIN <= utc_datetime + utcoffset tz utc_datetime <= Datetime.MAX ->
  convert_from_utc E utc_datetime timezone_str
  = Return (strftime_HM (utc_datetime + utcoffset tz utc_datetime)).
Proof.
  intros Hz H. unfold convert_from_utc. rewrite Hz.
  destruct tz as [|offset|lt ut]; unfold astimezone.
  - cbn [utcoffset]. now rewrite Z.add_0_r.
  - destruct H as [H|H]; [discriminate|]. now rewrite Datetime_add_in.
  - destruct H as [H|H]; [discriminate|]. now rewrite Datetime_add_in.
Qed.

Lemma convert_from_utc_out (E : Env) (utc_datetime : Z) (timezone_str : string) (tz : tzinfo) :
  pytz_timezone E timezone_str = Some tz ->
  tz <> UTC ->
  ~ Datetime.MIN <= utc_datetime + utcoffset tz utc_datetime <= Datetime.MAX ->
  convert_from_utc E utc_datetime timezone_str
  = Raise (ValueError ("Invalid timezone: " ++ timezone_str)).
Proof.
  intros Hz Hn H. unfold convert_from_utc. rewrite Hz.
  destruct tz as [|offset|lt ut]; [congruence| |]; unfold astimezone;
    (destruct (Datetime.add _ _) as [r|] eqn:A; [|reflexivity]);
    apply Datetime_add_inv in A as [-> A]; contradiction.
Qed.

(** The offsets of the sample zone are less than a day. *)
Lemma new_york_2024_offsets : offsets_within_a_day Sample.new_york_2024.
Proof.
  intros x. unfold Sample.new_york_2024. cbn [localize_utcoffset utcoffset].
  repeat destruct (_ <? _); lia.
Qed.

(** C10. Whatever the generator returns for a window, the slots last exactly
    [slot_duration] minutes each, lie inside the converted UTC interval of
    the window, follow one another at a distance of [break_duration] minutes,
    and are therefore in strictly increasing order and pairwise disjoint.
    The generator does return when its additions stay inside the range of
    [datetime]: when the UTC start is a datetime, and the UTC end moved by a
    slot and by a break is one as well. *)
Theorem slot_generator_invariant (E : Env) (availability : ProviderAvailabilityDB.t)
    (start_dt end_dt : Z) (w : World) :
  convert_to_utc E (ProviderAvailabilityDB.start_time availability)
    (ProviderAvailabilityDB.date availability)
    (ProviderAvailabilityDB.timezone availability) = Return start_dt ->
  convert_to_utc E (ProviderAvailabilityDB.end_time availability)
    (ProviderAvailabilityDB.date availability)
    (ProviderAvailabilityDB.timezone availability) = Return end_dt ->
  0 < ProviderAvailabilityDB.slot_duration availability ->
  0 <= ProviderAvailabilityDB.break_duration availability ->
  (forall slots w',
     generate_slots_from_availability E availability w = (Return slots, w') ->
     (forall i s, nth_error slots i = Some s ->
        AppointmentSlot.slot_end_time s =
          AppointmentSlot.slot_start_time s
          + 60 * ProviderAvailabilityDB.slot_duration availability /\
        start_dt <= AppointmentSlot.slot_start_time s /\
        AppointmentSlot.slot_end_time s <= end_dt) /\
     (forall i s t, nth_error slots i = Some s -> nth_error slots (S i) = Some t ->
        AppointmentSlot.slot_start_time t =
          AppointmentSlot.slot_end_time s
          + 60 * ProviderAvailabilityDB.break_duration availability) /\
     (forall i j s t, (i < j)%nat ->
        nth_error slots i = Some s -> nth_error slots j = Some t ->
        AppointmentSlot.slot_start_time s < AppointmentSlot.slot_start_time t /\
        AppointmentSlot.slot_end_time s <= AppointmentSlot.slot_start_time t)) /\
  (Datetime.MIN <= start_dt ->
   end_dt + 60 * ProviderAvailabilityDB.slot_duration availability <= Datetime.MAX ->
   end_dt + 60 * ProviderAvailabilityDB.break_duration availability <= Datetime.MAX ->
   exists slots w',
     generate_slots_from_availability E availability w = (Return slots, w')).
Proof.
  intros Hs He HD HB.
  assert (HD' : 0 < Calendar.minutes (ProviderAvailabilityDB.slot_duration availability))
    by (unfold Calendar.minutes; lia).
  assert (HB' : 0 <= Calendar.minutes (ProviderAvailabilityDB.break_duration availability))
    by (unfold Calendar.minutes; lia).
  split.
  - intros slots w' R.
    destruct (generate_slots_chain E availability start_dt end_dt w slots w' Hs He R)
      as (Ch & _).
    split; [|split].
    + intros i s Hi.
      destruct (chain_lower _ _ _ HD' HB' _ _ _ Ch (nth_error_In _ _ Hi)) as (A & B & C).
      unfold Calendar.minutes in B. auto.
    + intros i s t Hi Hj.
      eapply chain_next; eassumption.
    + intros i j s t Hij Hi Hj.
      assert (O : AppointmentSlot.slot_end_time s <= AppointmentSlot.slot_start_time t)
        by (eapply chain_order; eassumption).
      destruct (chain_lower _ _ _ HD' HB' _ _ _ Ch (nth_error_In _ _ Hi)) as (_ & B & _).
      split; [lia|exact O].
  - intros Hmin HMD HMB.
    destruct (generate_slots_run E availability start_dt end_dt w Hs He HD HB)
      as (slots & w' & R & _); [repeat split; assumption|].
    now exists slots, w'.
Qed.

Lemma slot_generator_invariant_witness :
  (forall slots w',
     generate_slots_from_availability Sample.env (Sample.stored Sample.morning)
       Sample.empty_world = (Return slots, w') ->
     (forall i s, nth_error slots i = Some s ->
        AppointmentSlot.slot_end_time s = AppointmentSlot.slot_start_time s + 60 * 30 /\
        1708005600 <= AppointmentSlot.slot_start_time s /\
        AppointmentSlot.slot_end_time s <= 1708012800) /\
     (forall i s t, nth_error slots i = Some s -> nth_error slots (S i) = Some t ->
        AppointmentSlot.slot_start_time t = AppointmentSlot.slot_end_time s + 60 * 0) /\
     (forall i j s t, (i < j)%nat ->
        nth_error slots i = Some s -> nth_error slots j = Some t ->
        AppointmentSlot.slot_start_time s < AppointmentSlot.slot_start_time t /\
        AppointmentSlot.slot_end_time s <= AppointmentSlot.slot_start_time t)) /\
  (Datetime.MIN <= 1708005600 ->
   1708012800 + 60 * 30 <= Datetime.MAX ->
   1708012800 + 60 * 0 <= Datetime.MAX ->
   exists slots w',
     generate_slots_from_availability Sample.env (Sample.stored Sample.morning)
       Sample.empty_world = (Return slots, w')).
Proof.
  apply (slot_generator_invariant Sample.env (Sample.stored Sample.morning)
           1708005600 1708012800 Sample.empty_world);
    [reflexivity | reflexivity | cbn; lia | cbn; lia].
Defined.

(** C1 (amended). When the two times of the window convert to UTC datetimes,
    the zone attaches the same UTC offset to both, the end is later in the
    day than the start, the span in minutes is an exact multiple of
    [slot_duration] and [break_duration] is 0, the generator produces exactly
    (end - start) / slot_duration slots: the i-th one starts i slot lengths
    after the UTC start and lasts one slot length. *)
Theorem slot_count_exact_multiple (E : Env) (availability : ProviderAvailabilityDB.t)
    (tz : tzinfo) (start_hm end_hm : Z * Z) (start_dt end_dt : Z) (w : World) :
  pytz_timezone E (ProviderAvailabilityDB.timezone availability) = Some tz ->
  parse_time (ProviderAvailabilityDB.start_time availability) = Some start_hm ->
  parse_time (ProviderAvailabilityDB.end_time availability) = Some end_hm ->
  convert_to_utc E (ProviderAvailabilityDB.start_time availability)
    (ProviderAvailabilityDB.date availability)
    (ProviderAvailabilityDB.timezone availability) = Return start_dt ->
  convert_to_utc E (ProviderAvailabilityDB.end_time availability)
    (ProviderAvailabilityDB.date availability)
    (ProviderAvailabilityDB.timezone availability) = Return end_dt ->
  Datetime.MIN <= start_dt ->
  end_dt <= Datetime.MAX ->
  localize_utcoffset tz
    (Calendar.combine (ProviderAvailabilityDB.date availability) (fst start_hm) (snd start_hm))
  = localize_utcoffset tz
    (Calendar.combine (ProviderAvailabilityDB.date availability) (fst end_hm) (snd end_hm)) ->
  minute_of_day start_hm < minute_of_day end_hm ->
  0 < ProviderAvailabilityDB.slot_duration availability ->
  ProviderAvailabilityDB.break_duration availability = 0 ->
  (minute_of_day end_hm - minute_of_day start_hm)
    mod ProviderAvailabilityDB.slot_duration availability = 0 ->
  exists slots w',
    generate_slots_from_availability E availability w = (Return slots, w') /\
    Z.of_nat (List.length slots)
    = (minute_of_day end_hm - minute_of_day start_hm)
        / ProviderAvailabilityDB.slot_duration availability /\
    (forall i s, nth_error slots i = Some s ->
       AppointmentSlot.slot_start_time s
       = start_dt + Z.of_nat i * (60 * ProviderAvailabilityDB.slot_duration availability) /\
       AppointmentSlot.slot_end_time s
       = AppointmentSlot.slot_start_time s
         + 60 * ProviderAvailabilityDB.slot_duration availability).
Proof.
  intros Hz Hs He Cs Ce Hmin Hmax Hoff Hlt HD HB Hmod.
  destruct start_hm as [sh sm], end_hm as [eh em]. cbn [fst snd] in *.
  set (d := ProviderAvailabilityDB.date availability) in *.
  set (sd := ProviderAvailabilityDB.slot_duration availability) in *.
  set (off := localize_utcoffset tz (Calendar.combine d eh em)) in *.
  assert (Es : start_dt = Calendar.combine d sh sm - off).
  { pose proof (convert_to_utc_value E _ _ _ tz (sh, sm) start_dt Hz Hs Cs) as V.
    cbn [fst snd] in V. now rewrite Hoff in V. }
  assert (Ee : end_dt = Calendar.combine d eh em - off).
  { exact (convert_to_utc_value E _ _ _ tz (eh, em) end_dt Hz He Ce). }
  set (k := (minute_of_day (eh, em) - minute_of_day (sh, sm)) / sd).
  assert (Hk : minute_of_day (eh, em) - minute_of_day (sh, sm) = sd * k).
  { unfold k. pose proof (Z.div_mod (minute_of_day (eh, em) - minute_of_day (sh, sm)) sd).
    lia. }
  assert (Hk0 : 0 <= k) by nia.
  assert (Hspan : end_dt - start_dt = k * Calendar.minutes sd).
  { rewrite Es, Ee. clear - Hk.
    unfold Calendar.combine, Calendar.minutes, minute_of_day in *. cbn [fst snd] in Hk. nia. }
  destruct (slot_loop_run_exact E availability end_dt (slot_loop_fuel start_dt end_dt)
              HD HB Hmax start_dt [] w k Hmin Hspan) as (slots & w' & R);
    [unfold slot_loop_fuel; lia|].
  assert (G : generate_slots_from_availability E availability w = (Return slots, w')).
  { unfold generate_slots_from_availability.
    fold d. rewrite Cs, Ce. cbv beta iota delta [bind lift]. exact R. }
  destruct (generate_slots_chain E availability _ _ _ _ _ Cs Ce G) as (Ch & _).
  exists slots, w'. split; [exact G|].
  fold sd in Ch. rewrite HB in Ch.
  split.
  - eapply chain_count; [| | exact Hk0 | exact Hspan | exact Ch].
    + unfold Calendar.minutes. lia.
    + reflexivity.
  - intros i s Hi. destruct (chain_nth _ _ _ _ _ _ _ Ch Hi) as [A B].
    unfold Calendar.minutes in A, B. lia.
Qed.

Lemma slot_count_exact_multiple_witness :
  exists slots w',
    generate_slots_from_availability Sample.env (Sample.stored Sample.morning)
      Sample.empty_world = (Return slots, w') /\
    Z.of_nat (List.length slots) = (minute_of_day (11, 0) - minute_of_day (9, 0)) / 30 /\
    (forall i s, nth_error slots i = Some s ->
       AppointmentSlot.slot_start_time s = 1708005600 + Z.of_nat i * (60 * 30) /\
       AppointmentSlot.slot_end_time s = AppointmentSlot.slot_start_time s + 60 * 30).
Proof.
  apply (slot_count_exact_multiple Sample.env (Sample.stored Sample.morning)
           Sample.new_york_2024 (9, 0) (11, 0) 1708005600 1708012800 Sample.empty_world);
    [reflexivity | reflexivity | reflexivity | reflexivity | reflexivity
    | vm_compute; discriminate | vm_compute; discriminate | reflexivity
    | cbn; lia | cbn; lia | reflexivity | reflexivity].
Defined.

(** C1, as stated, fails on the day the clocks go forward: the window
    01:00-04:00 of 2024-03-10 in America/New_York spans 180 minutes of wall
    time, a multiple of its 60-minute slots with no break, and yields two
    slots, not three. *)
Lemma slot_count_spring_forward_counterexample :
  time_pattern "01:00" = true /\ time_pattern "04:00" = true /\
  ProviderAvailabilityDB.start_time (Sample.stored Sample.spring_forward) = "01:00" /\
  ProviderAvailabilityDB.end_time (Sample.stored Sample.spring_forward) = "04:00" /\
  ProviderAvailabilityDB.slot_duration (Sample.stored Sample.spring_forward) = 60 /\
  ProviderAvailabilityDB.break_duration (Sample.stored Sample.spring_forward) = 0 /\
  (minute_of_day (4, 0) - minute_of_day (1, 0)) mod 60 = 0 /\
  (minute_of_day (4, 0) - minute_of_day (1, 0)) / 60 = 3 /\
  exists slots w',
    generate_slots_from_availability Sample.env (Sample.stored Sample.spring_forward)
      Sample.empty_world = (Return slots, w') /\
    List.length slots = 2%nat /\
    Z.of_nat (List.length slots) <> (minute_of_day (4, 0) - minute_of_day (1, 0)) / 60.
Proof.
  repeat (split; [reflexivity|]).
  eexists _, _. split; [vm_compute; reflexivity|]. split; [reflexivity|discriminate].
Qed.

(** *** Time conversion *)

(** C5 (amended). A zero-padded HH:MM string, on a date that exists, in a
    zone in which that wall time is not ambiguous: whenever the conversion to
    UTC returns, converting the instant back gives the same string.  The
    conversion to UTC returns on every date from 0001-01-02 to 9999-12-29
    (in a zone whose offsets are less than a day). *)
Theorem time_conversion_round_trip (E : Env) (t : string) (d : Calendar.date)
    (timezone_str : string) (tz : tzinfo) :
  is_HHMM t = true ->
  is_date d ->
  pytz_timezone E timezone_str = Some tz ->
  unambiguous tz d t ->
  (forall utc_dt,
     convert_to_utc E t d timezone_str = Return utc_dt ->
     convert_from_utc E utc_dt timezone_str = Return t) /\
  (inner_date d -> offsets_within_a_day tz ->
   exists utc_dt, convert_to_utc E t d timezone_str = Return utc_dt).
Proof.
  intros Ht Hd Hz Hu.
  destruct (is_HHMM_inv t Ht) as (h & m & Hh & Hm & ->).
  unfold unambiguous in Hu. rewrite parse_time_pad2 in Hu by assumption. cbn zeta in Hu.
  pose proof (parse_time_pad2 h m Hh Hm) as Hp.
  split.
  - intros utc_dt C.
    pose proof (convert_to_utc_value E _ _ _ tz (h, m) utc_dt Hz Hp C) as V.
    cbn [fst snd] in V. subst utc_dt.
    set (l := Calendar.combine d h m) in *.
    assert (Hl : l - localize_utcoffset tz l + utcoffset tz (l - localize_utcoffset tz l) = l)
      by (rewrite Hu; lia).
    rewrite (convert_from_utc_in E _ _ tz Hz).
    + rewrite Hl. f_equal. now apply strftime_HM_combine.
    + right. rewrite Hl. now apply combine_is_date.
  - intros Hi Ho.
    destruct (convert_to_utc_inner E _ d _ tz h m Hz Hp Hi Ho) as (utc_dt & C & _).
    now exists utc_dt.
Qed.

Lemma time_conversion_round_trip_witness :
  (forall utc_dt,
     convert_to_utc Sample.env "09:00" (Calendar.ymd2ord 2024 2 15) "America/New_York"
     = Return utc_dt ->
     convert_from_utc Sample.env utc_dt "America/New_York" = Return "09:00") /\
  exists utc_dt,
    convert_to_utc Sample.env "09:00" (Calendar.ymd2ord 2024 2 15) "America/New_York"
    = Return utc_dt.
Proof.
  destruct (time_conversion_round_trip Sample.env "09:00" (Calendar.ymd2ord 2024 2 15)
              "America/New_York" Sample.new_york_2024) as [A B];
    [reflexivity | vm_compute; split; discriminate | reflexivity
    | vm_compute; reflexivity |].
  split; [exact A|].
  apply B; [vm_compute; split; discriminate | exact new_york_2024_offsets].
Defined.

(** C5, as stated, fails on a time with a one-digit hour, which the field
    pattern accepts: "9:00" on 2024-02-15 in America/New_York converts to
    14:00 UTC and comes back as "09:00".  It also fails at the end of the
    calendar: "23:00" on 9999-12-31 in America/New_York does not convert,
    [convert_to_utc] raising its ValueError. *)
Lemma time_conversion_round_trip_counterexample :
  (time_pattern "9:00" = true /\
   unambiguous Sample.new_york_2024 (Calendar.ymd2ord 2024 2 15) "9:00" /\
   convert_to_utc Sample.env "9:00" (Calendar.ymd2ord 2024 2 15) "America/New_York"
   = Return 1708005600 /\
   convert_from_utc Sample.env 1708005600 "America/New_York" = Return "09:00" /\
   "09:00" <> "9:00") /\
  (is_HHMM "23:00" = true /\
   unambiguous Sample.new_york_2024 (Calendar.ymd2ord 9999 12 31) "23:00" /\
   convert_to_utc Sample.env "23:00" (Calendar.ymd2ord 9999 12 31) "America/New_York"
   = Raise (ValueError "Invalid timezone or time format: America/New_York")).
Proof.
  split.
  - split; [reflexivity|]. split; [vm_compute; reflexivity|].
    split; [reflexivity|]. split; [reflexivity|discriminate].
  - split; [reflexivity|]. split; [vm_compute; reflexivity|]. reflexivity.
Qed.

(** *** The start < end validation *)

(** C7. The start < end validation compares the strings: "9:00" and "10:00"
    both pass the field pattern, 10:00 is later in the day than 9:00, and yet
    the model validator raises and create answers 400 "End time must be after
    start time", storing nothing. *)
Theorem create_rejects_single_digit_hour :
  time_pattern "9:00" = true /\ time_pattern "10:00" = true /\
  parse_time "9:00" = Some (9, 0) /\ parse_time "10:00" = Some (10, 0) /\
  minute_of_day (9, 0) < minute_of_day (10, 0) /\
  validate_end_time_raises "9:00" "10:00" = true /\
  forall (E : Env) (w : World) (d : Calendar.date),
    create_provider_availability E (Sample.window "provider-123" d "9:00" "10:00" 30 0) w
    = (Return (Failure "End time must be after start time" 400), w).
Proof.
  repeat (split; [reflexivity|]). intros E w d. reflexivity.
Qed.

(** *** The conflict checker *)

Lemma truthy_false (s : string) : Py.truthy s = false <-> s = "".
Proof. destruct s; cbn; split; congruence. Qed.

Lemma conflict_scan_iff (l : list SlotDict.t) (s e : Z) (x : option string) :
  conflict_scan l s e x = true <->
  exists slot, In slot l /\
    (x = None \/ x = Some "" \/ Some (SlotDict.id slot) <> x) /\
    overlaps s e slot.
Proof.
  unfold overlaps. induction l as [|a l IH]; cbn [conflict_scan].
  - split; [discriminate|]. intros (? & [] & _).
  - destruct (Py.truthy_opt x && String.eqb (SlotDict.id a) (Py.or_else x "")) eqn:X.
    + apply andb_prop in X as [T Q]. apply String.eqb_eq in Q.
      destruct x as [x|]; [|discriminate T]. cbn in T, Q.
      rewrite IH. split.
      * intros (slot & Hin & H). exists slot. split; [now right|exact H].
      * intros (slot & [->|Hin] & Hx & H); [|exists slot; auto].
        exfalso. destruct Hx as [Hx|[Hx|Hx]]; [discriminate| |congruence].
        injection Hx as ->. discriminate T.
    + assert (Hx : x = None \/ x = Some "" \/ Some (SlotDict.id a) <> x).
      { destruct x as [x|]; [|now left]. cbn in X. right.
        destruct x as [|c x]; [now left|right]. cbn in X.
        apply String.eqb_neq in X. congruence. }
      destruct ((s <? SlotDict.slot_end_time a) && (e >? SlotDict.slot_start_time a)) eqn:O.
      * split; [intros _|reflexivity]. exists a. split; [now left|]. split; [exact Hx|].
        apply andb_prop in O as [O1 O2]. apply Z.ltb_lt in O1. apply Z.gtb_lt in O2. lia.
      * rewrite IH. split.
        -- intros (slot & Hin & H). exists slot. split; [now right|exact H].
        -- intros (slot & [->|Hin] & Hx' & H); [|exists slot; auto].
           exfalso. destruct H as [H1 H2].
           apply andb_false_iff in O as [O|O];
             [apply Z.ltb_ge in O | rewrite Z.gtb_ltb in O; apply Z.ltb_ge in O]; lia.
Qed.

Lemma provider_slots_iff (store : list SlotDict.t) (p : string) (slot : SlotDict.t) :
  In slot (get_appointment_slots store (Some p) None None) <->
  In slot store /\ (p = "" \/ SlotDict.provider_id slot = p).
Proof.
  unfold get_appointment_slots. cbn [Py.truthy_opt Py.or_else].
  destruct (Py.truthy p) eqn:T.
  - rewrite filter_In, String.eqb_eq. split; intros [A B]; split; auto.
    destruct B as [->|B]; [discriminate T|exact B].
  - apply truthy_false in T. subst p. split; [auto|now intros []].
Qed.

Lemma check_slot_conflicts_iff (w : World) (provider_id : string)
    (start_time end_time : Z) (exclude_slot_id : option string) :
  check_slot_conflicts w provider_id start_time end_time exclude_slot_id = true <->
  exists slot, In slot (APPOINTMENT_SLOTS w) /\
    (provider_id = "" \/ SlotDict.provider_id slot = provider_id) /\
    (exclude_slot_id = None \/ exclude_slot_id = Some "" \/
     Some (SlotDict.id slot) <> exclude_slot_id) /\
    overlaps start_time end_time slot.
Proof.
  unfold check_slot_conflicts. rewrite conflict_scan_iff.
  split; intros (slot & Hin & H).
  - apply provider_slots_iff in Hin as [Hin Hp]. exists slot. tauto.
  - exists slot. rewrite provider_slots_iff. tauto.
Qed.

(** C2 (amended). The conflict checker answers true exactly when some stored
    slot overlaps the candidate interval strictly, among the slots of the
    provider (of every provider when the provider id is the empty string) whose
    id differs from the excluded id (nothing is excluded when that id is absent
    or empty); the status of a slot plays no part, so a cancelled slot still
    conflicts. *)
Theorem check_slot_conflicts_characterised :
  (forall (w : World) (provider_id : string) (start_time end_time : Z)
          (exclude_slot_id : option string),
     check_slot_conflicts w provider_id start_time end_time exclude_slot_id = true <->
     exists slot, In slot (APPOINTMENT_SLOTS w) /\
       (provider_id = "" \/ SlotDict.provider_id slot = provider_id) /\
       (exclude_slot_id = None \/ exclude_slot_id = Some "" \/
        Some (SlotDict.id slot) <> exclude_slot_id) /\
       overlaps start_time end_time slot) /\
  (forall (w : World) (start_time end_time : Z) (slot : SlotDict.t),
     In slot (APPOINTMENT_SLOTS w) ->
     SlotDict.status slot = CANCELLED ->
     overlaps start_time end_time slot ->
     check_slot_conflicts w (SlotDict.provider_id slot) start_time end_time None = true).
Proof.
  split; [exact check_slot_conflicts_iff|].
  intros w s e slot Hin _ Ho. apply check_slot_conflicts_iff. exists slot. auto.
Qed.

Lemma check_slot_conflicts_characterised_witness :
  check_slot_conflicts
    {| PROVIDER_AVAILABILITY := [];
       APPOINTMENT_SLOTS :=
         [Sample.slot "slot-c" "provider-123" 1708005600 1708007400 CANCELLED];
       uuid_drawn := 0; clock_read := 0 |}
    "provider-123" 1708006500 1708008300 None = true.
Proof.
  apply (proj2 check_slot_conflicts_characterised
           {| PROVIDER_AVAILABILITY := [];
              APPOINTMENT_SLOTS :=
                [Sample.slot "slot-c" "provider-123" 1708005600 1708007400 CANCELLED];
              uuid_drawn := 0; clock_read := 0 |}
           1708006500 1708008300
           (Sample.slot "slot-c" "provider-123" 1708005600 1708007400 CANCELLED));
    [now left | reflexivity | unfold overlaps; cbn; lia].
Defined.

(** C2, as stated, fails for empty ids.  With the empty provider id the
    lookup returns the slots of every provider: a slot of provider-123
    conflicts although no stored slot belongs to the provider "".  With the
    empty excluded id nothing is excluded: a stored slot whose id is empty
    conflicts although its id does not differ from the excluded one. *)
Lemma check_slot_conflicts_counterexample :
  (check_slot_conflicts Sample.seeded_world "" 1708005600 1708007400 None = true /\
   ~ (exists slot, In slot (APPOINTMENT_SLOTS Sample.seeded_world) /\
        SlotDict.provider_id slot = "" /\
        Some (SlotDict.id slot) <> None /\
        overlaps 1708005600 1708007400 slot)) /\
  (check_slot_conflicts
     {| PROVIDER_AVAILABILITY := [];
        APPOINTMENT_SLOTS := [Sample.slot "" "provider-123" 1708005600 1708007400 AVAILABLE];
        uuid_drawn := 0; clock_read := 0 |}
     "provider-123" 1708005600 1708007400 (Some "") = true /\
   ~ (exists slot,
        In slot [Sample.slot "" "provider-123" 1708005600 1708007400 AVAILABLE] /\
        SlotDict.provider_id slot = "provider-123" /\
        Some (SlotDict.id slot) <> Some "" /\
        overlaps 1708005600 1708007400 slot)).
Proof.
  split; (split; [reflexivity|]).
  - intros (slot & Hin & Hp & _). cbn in Hin.
    destruct Hin as [<-|[<-|[]]]; discriminate Hp.
  - intros (slot & [<-|[]] & _ & Hid & _). now apply Hid.
Qed.

(** *** Deleting a slot *)

(** C6. Deleting a slot whose stored status is "booked" fails with the
    invalid-state answer (400, "Cannot delete booked slot") whatever the
    cascade flag, and leaves the state as it was. *)
Theorem delete_booked_slot_fails (slot_id : string) (delete_recurring : bool)
    (reason : option string) (w : World) (slot : SlotDict.t) :
  stored_slot w slot_id = Some slot ->
  SlotDict.status slot = BOOKED ->
  delete_availability_slot slot_id delete_recurring reason w
  = (Return (Failure "Cannot delete booked slot" 400), w).
Proof.
  unfold stored_slot, delete_availability_slot. intros Hs Hb.
  unfold try_except, bind, gets.
  destruct (get_appointment_slots (APPOINTMENT_SLOTS w) None None (Some slot_id))
    as [|s rest]; [discriminate Hs|].
  injection Hs as ->. rewrite Hb. reflexivity.
Qed.

Lemma delete_booked_slot_fails_witness :
  delete_availability_slot "slot-b" true None
    {| PROVIDER_AVAILABILITY := [];
       APPOINTMENT_SLOTS :=
         Sample.seed_slots
         ++ [Sample.slot "slot-b" "provider-123" 1708009200 1708011000 BOOKED];
       uuid_drawn := 0; clock_read := 0 |}
  = (Return (Failure "Cannot delete booked slot" 400),
     {| PROVIDER_AVAILABILITY := [];
        APPOINTMENT_SLOTS :=
          Sample.seed_slots
          ++ [Sample.slot "slot-b" "provider-123" 1708009200 1708011000 BOOKED];
        uuid_drawn := 0; clock_read := 0 |}).
Proof.
  apply (delete_booked_slot_fails "slot-b" true None _
           (Sample.slot "slot-b" "provider-123" 1708009200 1708011000 BOOKED));
    reflexivity.
Defined.

Lemma stored_slot_first (w : World) (slot_id : string) :
  slot_id <> "" ->
  stored_slot w slot_id
  = find (fun s => String.eqb (SlotDict.id s) slot_id) (APPOINTMENT_SLOTS w).
Proof.
  intros Hne. unfold stored_slot, get_appointment_slots. cbn [Py.truthy_opt Py.or_else].
  destruct slot_id as [|c r]; [contradiction|]. cbn [Py.truthy].
  induction (APPOINTMENT_SLOTS w) as [|x l IH]; [reflexivity|].
  cbn [filter find]. destruct (String.eqb (SlotDict.id x) (String c r)); [reflexivity|exact IH].
Qed.

Lemma same_id_same_slot (store : list SlotDict.t) (x y : SlotDict.t) :
  NoDup (map SlotDict.id store) -> In x store -> In y store ->
  SlotDict.id x = SlotDict.id y -> x = y.
Proof.
  induction store as [|a l IH]; intros N Hx Hy E; [contradiction|].
  cbn in N. apply NoDup_cons_iff in N as [Na N].
  destruct Hx as [->|Hx], Hy as [->|Hy]; auto.
  - exfalso. apply Na. rewrite E. now apply in_map.
  - exfalso. apply Na. rewrite <- E. now apply in_map.
Qed.

Lemma delete_first_spec (slot_id : string) :
  forall store store',
    delete_first slot_id store = Some store' ->
    exists before x after,
      store = before ++ x :: after /\ SlotDict.id x = slot_id /\ store' = before ++ after.
Proof.
  induction store as [|a l IH]; intros store' H; [discriminate|].
  cbn [delete_first] in H. destruct (String.eqb_spec (SlotDict.id a) slot_id) as [Q|Q].
  - injection H as <-. now exists [], a, l.
  - destruct (delete_first slot_id l) as [rest|]; [|discriminate].
    injection H as <-. destruct (IH rest eq_refl) as (before & x & after & -> & Hx & ->).
    now exists (a :: before), x, after.
Qed.

(** Deleting by the id of a slot of the store that is not booked keeps every
    booked slot. *)
Lemma delete_appointment_slot_keeps (store : list SlotDict.t) (b r : SlotDict.t) (w : World) :
  NoDup (map SlotDict.id store) ->
  SlotDict.status b = BOOKED ->
  In r store -> SlotDict.status r <> BOOKED ->
  keeps store b (APPOINTMENT_SLOTS w) ->
  keeps store b (APPOINTMENT_SLOTS (snd (delete_appointment_slot (SlotDict.id r) w))).
Proof.
  intros N Hb Hr Hnb [Sub Hin]. unfold delete_appointment_slot, bind, gets, modify, ret.
  destruct (delete_first (SlotDict.id r) (APPOINTMENT_SLOTS w)) as [store'|] eqn:D;
    [|now split].
  cbn. apply delete_first_spec in D as (before & x & after & Hst & Hx & ->).
  assert (Hxs : In x store) by (apply Sub; rewrite Hst; apply in_elt).
  assert (x = r) as -> by (apply (same_id_same_slot store); auto).
  split.
  - intros y Hy. apply Sub. rewrite Hst. apply in_app_iff in Hy as [Hy|Hy];
      apply in_app_iff; [now left|right; now right].
  - rewrite Hst in Hin. apply in_app_iff in Hin as [Hin|[->|Hin]].
    + apply in_app_iff. now left.
    + congruence.
    + apply in_app_iff. now right.
Qed.

Lemma status_is_booked (s : AvailabilityStatus) :
  status_is s "booked" = true <-> s = BOOKED.
Proof. destruct s; cbn; split; congruence. Qed.

Lemma cascade_one_keeps (store : list SlotDict.t) (b r : SlotDict.t) (slot_id : string)
    (w : World) :
  NoDup (map SlotDict.id store) ->
  SlotDict.status b = BOOKED ->
  In r store ->
  keeps store b (APPOINTMENT_SLOTS w) ->
  keeps store b (APPOINTMENT_SLOTS (snd (cascade_one slot_id r w))) /\
  fst (cascade_one slot_id r w) = Return tt.
Proof.
  intros N Hb Hr K. unfold cascade_one.
  destruct (negb (String.eqb (SlotDict.id r) slot_id)
            && negb (status_is (SlotDict.status r) "booked")) eqn:C; [|now split].
  apply andb_prop in C as [_ C]. apply negb_true_iff in C.
  assert (Hnb : SlotDict.status r <> BOOKED).
  { intros Q. apply status_is_booked in Q. congruence. }
  pose proof (delete_appointment_slot_keeps store b r w N Hb Hr Hnb K) as K'.
  unfold bind, ret. unfold delete_appointment_slot, bind, gets, modify, ret in *.
  destruct (delete_first (SlotDict.id r) (APPOINTMENT_SLOTS w)); cbn in *; now split.
Qed.

Lemma for_each_cascade_keeps (store : list SlotDict.t) (b : SlotDict.t) (slot_id : string) :
  NoDup (map SlotDict.id store) ->
  SlotDict.status b = BOOKED ->
  forall related w,
    (forall r, In r related -> In r store) ->
    keeps store b (APPOINTMENT_SLOTS w) ->
    keeps store b (APPOINTMENT_SLOTS (snd (for_each related (cascade_one slot_id) w))).
Proof.
  intros N Hb. induction related as [|r related IH]; intros w Hsub K; [exact K|].
  cbn [for_each]. unfold bind.
  destruct (cascade_one_keeps store b r slot_id w N Hb (Hsub r (or_introl eq_refl)) K)
    as [K' R].
  destruct (cascade_one slot_id r w) as [o w1]. cbn [fst snd] in *. subst o.
  apply IH; [|exact K']. intros r' H. apply Hsub. now right.
Qed.

Lemma cascade_live_keeps (store : list SlotDict.t) (b : SlotDict.t) (slot_id : string) :
  NoDup (map SlotDict.id store) ->
  SlotDict.status b = BOOKED ->
  forall fuel position w,
    keeps store b (APPOINTMENT_SLOTS w) ->
    keeps store b (APPOINTMENT_SLOTS (snd (cascade_live fuel position slot_id w))).
Proof.
  intros N Hb. induction fuel as [|fuel IH]; intros position w K; [exact K|].
  cbn [cascade_live]. unfold bind at 1, gets at 1. cbv beta iota.
  destruct (nth_error (APPOINTMENT_SLOTS w) position) as [r|] eqn:Hn; [|exact K].
  assert (Hr : In r store) by (apply K; eapply nth_error_In; eassumption).
  destruct (cascade_one_keeps store b r slot_id w N Hb Hr K) as [K' R].
  unfold bind. destruct (cascade_one slot_id r w) as [o w1]. cbn [fst snd] in *. subst o.
  now apply IH.
Qed.

(** Whatever delete is asked, and however it answers, a booked slot of a
    store whose ids are distinct and not empty is still stored afterwards. *)
Lemma booked_slots_survive_delete (slot_id : string) (delete_recurring : bool)
    (reason : option string) (w : World) (b : SlotDict.t) :
  NoDup (map SlotDict.id (APPOINTMENT_SLOTS w)) ->
  (forall s, In s (APPOINTMENT_SLOTS w) -> SlotDict.id s <> "") ->
  In b (APPOINTMENT_SLOTS w) ->
  SlotDict.status b = BOOKED ->
  In b (APPOINTMENT_SLOTS
          (snd (delete_availability_slot slot_id delete_recurring reason w))).
Proof.
  intros N Hids Hin Hb.
  set (store := APPOINTMENT_SLOTS w) in *.
  assert (K : keeps store b (APPOINTMENT_SLOTS w)) by (split; [auto|exact Hin]).
  enough (G : keeps store b
                (APPOINTMENT_SLOTS
                   (snd (delete_availability_slot slot_id delete_recurring reason w))))
    by apply G.
  unfold delete_availability_slot, try_except.
  unfold bind at 1, gets at 1. cbv beta iota.
  destruct (get_appointment_slots (APPOINTMENT_SLOTS w) None None (Some slot_id))
    as [|slot rest] eqn:G; [exact K|].
  destruct (status_is (SlotDict.status slot) "booked") eqn:B; [exact K|].
  assert (Hslot : In slot store).
  { assert (I : In slot (get_appointment_slots store None None (Some slot_id)))
      by (fold store in G; rewrite G; now left).
    unfold get_appointment_slots in I. cbn [Py.truthy_opt Py.or_else] in I.
    destruct (Py.truthy slot_id); [now apply filter_In in I|exact I]. }
  assert (Hnb : SlotDict.status slot <> BOOKED).
  { intros Q. apply status_is_booked in Q. congruence. }
  (* the slot that delete removes is the one that was looked up *)
  assert (Hdel : forall x before after,
             APPOINTMENT_SLOTS w = before ++ x :: after -> SlotDict.id x = slot_id ->
             x = slot).
  { intros x before after Hst Hx.
    assert (Hxs : In x store) by (unfold store; rewrite Hst; apply in_elt).
    assert (Hne : Py.truthy slot_id = true).
    { destruct slot_id; [exfalso; now apply (Hids x Hxs)|reflexivity]. }
    assert (I : In slot (get_appointment_slots store None None (Some slot_id)))
      by (fold store in G; rewrite G; now left).
    unfold get_appointment_slots in I. cbn [Py.truthy_opt Py.or_else] in I.
    rewrite Hne in I. apply filter_In in I as [_ I]. apply String.eqb_eq in I.
    apply (same_id_same_slot store); auto. congruence. }
  unfold bind at 1, delete_appointment_slot at 1, bind at 1, gets at 1. cbv beta iota.
  destruct (delete_first slot_id (APPOINTMENT_SLOTS w)) as [store'|] eqn:D.
  2:{ unfold ret. cbn. exact K. }
  apply delete_first_spec in D as (before & x & after & Hst & Hx & ->).
  pose proof (Hdel x before after Hst Hx) as ->.
  unfold bind at 1, modify at 1, ret at 1. cbv beta iota. cbn [negb].
  set (w1 := set_APPOINTMENT_SLOTS (before ++ after) w).
  assert (K1 : keeps store b (APPOINTMENT_SLOTS w1)).
  { cbn. split.
    - intros y Hy. unfold store. rewrite Hst. apply in_app_iff in Hy as [Hy|Hy];
        apply in_app_iff; [now left|right; now right].
    - unfold store in Hin. rewrite Hst in Hin. apply in_app_iff in Hin as [Hin'|[->|Hin']].
      + apply in_app_iff. now left.
      + congruence.
      + apply in_app_iff. now right. }
  destruct delete_recurring.
  - destruct (Py.truthy (SlotDict.availability_id slot)).
    + unfold bind at 1. unfold bind at 1, gets at 1. cbv beta iota.
      match goal with
      | |- context [for_each ?rel (cascade_one slot_id) w1] =>
          pose proof (for_each_cascade_keeps store b slot_id N Hb rel w1) as F;
          destruct (for_each rel (cascade_one slot_id) w1) as [o w2]
      end.
      cbn [snd] in F.
      assert (K2 : keeps store b (APPOINTMENT_SLOTS w2)).
      { apply F; [|exact K1]. intros r Hr. apply K1.
        unfold get_appointment_slots in Hr. cbn [Py.truthy_opt Py.or_else] in Hr.
        repeat match type of Hr with
               | In _ (if ?c then _ else _) => destruct c
               end; try (now apply filter_In in Hr); exact Hr. }
      destruct o; cbn; exact K2.
    + unfold bind at 1. unfold bind at 1, gets at 1. cbv beta iota.
      match goal with
      | |- context [cascade_live ?f 0 slot_id w1] =>
          pose proof (cascade_live_keeps store b slot_id N Hb f 0%nat w1 K1) as F;
          destruct (cascade_live f 0 slot_id w1) as [o w2]
      end.
      cbn [snd] in F. destruct o; cbn; exact F.
  - unfold bind, ret. cbn. exact K1.
Qed.

(** *** The calendar *)

Lemma is_leap_spec (y : Z) :
  Calendar.is_leap y = true <-> y mod 4 = 0 /\ (y mod 100 <> 0 \/ y mod 400 = 0).
Proof.
  unfold Calendar.is_leap.
  rewrite andb_true_iff, orb_true_iff, negb_true_iff, !Z.eqb_eq, Z.eqb_neq. tauto.
Qed.

Lemma days_before_year_succ (y : Z) :
  Calendar.days_before_year (y + 1) = Calendar.days_before_year y + 365 + leap_day y.
Proof.
  unfold Calendar.days_before_year, leap_day.
  replace (y + 1 - 1) with y by lia.
  destruct (Calendar.is_leap y) eqn:L.
  - apply is_leap_spec in L. Z.div_mod_to_equations. lia.
  - assert (N : ~ (y mod 4 = 0 /\ (y mod 100 <> 0 \/ y mod 400 = 0))).
    { intros H. apply is_leap_spec in H. congruence. }
    Z.div_mod_to_equations. lia.
Qed.

Lemma div_eq (a b q r : Z) : 0 <= r < b -> a = b * q + r -> a / b = q.
Proof. intros. symmetry. now apply Z.div_unique with (r := r); [left|]. Qed.

Lemma mod_eq (a b q r : Z) : 0 <= r < b -> a = b * q + r -> a mod b = r.
Proof. intros. symmetry. now apply Z.mod_unique with (q := q); [left|]. Qed.

Lemma month_cases (r : Z) :
  0 <= r < 12 ->
  r = 0 \/ r = 1 \/ r = 2 \/ r = 3 \/ r = 4 \/ r = 5 \/ r = 6 \/ r = 7 \/ r = 8 \/ r = 9
  \/ r = 10 \/ r = 11.
Proof. lia. Qed.

Ltac each_month r H :=
  destruct (month_cases r H) as [->|[->|[->|[->|[->|[->|[->|[->|[->|[->|[->| ->]]]]]]]]]]].

Lemma month_length_bounds (i : Z) : 28 <= month_length i <= 31.
Proof.
  unfold month_length, Calendar.days_in_month.
  repeat match goal with |- context [if ?b then _ else _] => destruct b end; lia.
Qed.

Lemma month_base_succ (i : Z) : month_base (i + 1) = month_base i + month_length i.
Proof.
  unfold month_base, month_length.
  pose proof (Z.mod_pos_bound i 12 ltac:(lia)) as Hr.
  pose proof (Z.div_mod i 12 ltac:(lia)) as Hi.
  set (y := i / 12) in *. set (r := i mod 12) in *.
  destruct (Z.eq_dec r 11) as [E|N].
  - assert (Hq : (i + 1) / 12 = y + 1) by (apply div_eq with (r := 0); lia).
    assert (Hm : (i + 1) mod 12 = 0) by (apply mod_eq with (q := y + 1); lia).
    rewrite Hq, Hm, E, days_before_year_succ. unfold leap_day.
    unfold Calendar.days_before_month, Calendar.days_in_month. cbn.
    destruct (Calendar.is_leap y), (Calendar.is_leap (y + 1)); lia.
  - assert (Hq : (i + 1) / 12 = y) by (apply div_eq with (r := r + 1); lia).
    assert (Hm : (i + 1) mod 12 = r + 1) by (apply mod_eq with (q := y); lia).
    rewrite Hq, Hm. clearbody r y. clear Hq Hm Hi.
    each_month r Hr; try lia;
      unfold Calendar.days_before_month, Calendar.days_in_month; cbn;
      destruct (Calendar.is_leap y); lia.
Qed.

Lemma month_base_mono (i j : Z) : i < j -> month_base i + month_length i <= month_base j.
Proof.
  intros H. replace j with (i + 1 + (j - i - 1)) by lia.
  assert (0 <= j - i - 1) by lia. generalize dependent (j - i - 1). clear.
  intros k Hk. pattern k. apply natlike_ind; [| |exact Hk].
  - rewrite Z.add_0_r, month_base_succ. lia.
  - intros x Hx IH. replace (i + 1 + Z.succ x) with (i + 1 + x + 1) by lia.
    rewrite month_base_succ. pose proof (month_length_bounds (i + 1 + x)). lia.
Qed.

Lemma ymd2ord_month_base (y m d : Z) :
  1 <= m <= 12 ->
  Calendar.ymd2ord y m d = month_base (12 * y + (m - 1)) + d /\
  Calendar.days_in_month y m = month_length (12 * y + (m - 1)).
Proof.
  intros Hm. unfold Calendar.ymd2ord, month_base, month_length.
  assert (Hq : (12 * y + (m - 1)) / 12 = y) by (apply div_eq with (r := m - 1); lia).
  assert (Hr : (12 * y + (m - 1)) mod 12 = m - 1) by (apply mod_eq with (q := y); lia).
  rewrite Hq, Hr. replace (m - 1 + 1) with m by lia. split; reflexivity.
Qed.

(** [ymd2ord] is strictly increasing from month to month. *)
Lemma ymd2ord_lt_months (y m d y' m' d' : Z) :
  valid_ymd y m d -> valid_ymd y' m' d' ->
  12 * y + (m - 1) < 12 * y' + (m' - 1) ->
  Calendar.ymd2ord y m d < Calendar.ymd2ord y' m' d'.
Proof.
  intros [Hm Hd] [Hm' Hd'] Hlt.
  destruct (ymd2ord_month_base y m d Hm) as [-> L].
  destruct (ymd2ord_month_base y' m' d' Hm') as [-> _].
  pose proof (month_base_mono _ _ Hlt). lia.
Qed.

Lemma ymd2ord_inj (y m d y' m' d' : Z) :
  valid_ymd y m d -> valid_ymd y' m' d' ->
  Calendar.ymd2ord y m d = Calendar.ymd2ord y' m' d' ->
  y = y' /\ m = m' /\ d = d'.
Proof.
  intros V V' E.
  destruct (Z.lt_trichotomy (12 * y + (m - 1)) (12 * y' + (m' - 1))) as [H|[H|H]].
  - pose proof (ymd2ord_lt_months _ _ _ _ _ _ V V' H). lia.
  - destruct V as [Hm _], V' as [Hm' _].
    assert (y = y' /\ m = m') as [-> ->] by lia.
    unfold Calendar.ymd2ord in E. repeat split. lia.
  - pose proof (ymd2ord_lt_months _ _ _ _ _ _ V' V H). lia.
Qed.

Lemma days_before_month_succ (y m : Z) :
  1 <= m <= 11 ->
  Calendar.days_before_month y (m + 1)
  = Calendar.days_before_month y m + Calendar.days_in_month y m.
Proof.
  intros Hm. assert (Hr : 0 <= m - 1 < 12) by lia.
  remember (m - 1) as r eqn:Er. assert (Em : m = r + 1) by lia. subst m. clear Er.
  each_month r Hr; try lia;
    unfold Calendar.days_before_month, Calendar.days_in_month; cbn;
    destruct (Calendar.is_leap y); lia.
Qed.

Lemma month_scan_spec (fuel : nat) :
  forall y m n,
    1 <= m -> m + Z.of_nat fuel = 12 -> 0 <= n ->
    Calendar.days_before_month y m + n < 365 + leap_day y ->
    valid_ymd y (fst (Calendar.month_scan fuel y m n)) (snd (Calendar.month_scan fuel y m n)) /\
    Calendar.days_before_month y (fst (Calendar.month_scan fuel y m n))
    + snd (Calendar.month_scan fuel y m n)
    = Calendar.days_before_month y m + n + 1.
Proof.
  induction fuel as [|fuel IH]; intros y m n Hm Hf Hn Hlt.
  - assert (m = 12) by lia. subst m. cbn [Calendar.month_scan fst snd].
    split; [|lia]. split; [lia|].
    unfold Calendar.days_before_month, Calendar.days_in_month, leap_day in *. cbn in *.
    destruct (Calendar.is_leap y); lia.
  - cbn [Calendar.month_scan].
    destruct (n <? Calendar.days_in_month y m) eqn:C.
    + apply Z.ltb_lt in C. cbn [fst snd]. split; [|lia]. split; lia.
    + apply Z.ltb_ge in C.
      assert (Hm' : 1 <= m <= 11) by lia.
      pose proof (days_before_month_succ y m Hm') as S.
      destruct (IH y (m + 1) (n - Calendar.days_in_month y m)) as [V Q]; try lia.
      split; [exact V|]. lia.
Qed.

Lemma days_before_year_cycle (a b c e : Z) :
  0 <= b <= 3 -> 0 <= c <= 24 -> 0 <= e <= 3 ->
  Calendar.days_before_year (a * 400 + 1 + b * 100 + c * 4 + e)
  = 146097 * a + 36524 * b + 1461 * c + 365 * e.
Proof.
  intros Hb Hc He. unfold Calendar.days_before_year.
  replace (a * 400 + 1 + b * 100 + c * 4 + e - 1) with (a * 400 + b * 100 + c * 4 + e) by lia.
  cbv zeta.
  rewrite (div_eq (a * 400 + b * 100 + c * 4 + e) 4 (100 * a + 25 * b + c) e) by lia.
  rewrite (div_eq (a * 400 + b * 100 + c * 4 + e) 100 (4 * a + b) (c * 4 + e)) by lia.
  rewrite (div_eq (a * 400 + b * 100 + c * 4 + e) 400 a (b * 100 + c * 4 + e)) by lia.
  lia.
Qed.

Lemma is_leap_cycle (a b c e : Z) :
  0 <= b <= 3 -> 0 <= c <= 24 -> 0 <= e <= 3 ->
  Calendar.is_leap (a * 400 + 1 + b * 100 + c * 4 + e)
  = (e =? 3) && (negb (c =? 24) || (b =? 3)).
Proof.
  intros Hb Hc He. unfold Calendar.is_leap.
  set (y := a * 400 + 1 + b * 100 + c * 4 + e).
  assert (M4 : y mod 4 = (e + 1) mod 4).
  { unfold y. replace (a * 400 + 1 + b * 100 + c * 4 + e)
      with (e + 1 + (a * 100 + b * 25 + c) * 4) by lia. now rewrite Z.mod_add by lia. }
  assert (M100 : y mod 100 = (c * 4 + e + 1) mod 100).
  { unfold y. replace (a * 400 + 1 + b * 100 + c * 4 + e)
      with (c * 4 + e + 1 + (a * 4 + b) * 100) by lia. now rewrite Z.mod_add by lia. }
  assert (M400 : y mod 400 = (b * 100 + c * 4 + e + 1) mod 400).
  { unfold y. replace (a * 400 + 1 + b * 100 + c * 4 + e)
      with (b * 100 + c * 4 + e + 1 + a * 400) by lia. now rewrite Z.mod_add by lia. }
  rewrite M4, M100, M400.
  destruct (Z.eq_dec e 3) as [->|Ne].
  - cbn [Z.eqb andb]. rewrite (mod_eq (3 + 1) 4 1 0) by lia. cbn [Z.eqb andb].
    destruct (Z.eq_dec c 24) as [->|Nc].
    + rewrite (mod_eq (24 * 4 + 3 + 1) 100 1 0) by lia. cbn [Z.eqb negb orb].
      destruct (Z.eq_dec b 3) as [->|Nb].
      * reflexivity.
      * rewrite Z.mod_small by lia.
        replace (b =? 3) with false by (symmetry; apply Z.eqb_neq; lia).
        apply Z.eqb_neq. lia.
    + rewrite (Z.mod_small (c * 4 + 3 + 1)) by lia.
      replace (c =? 24) with false by (symmetry; apply Z.eqb_neq; lia).
      replace (c * 4 + 3 + 1 =? 0) with false by (symmetry; apply Z.eqb_neq; lia).
      reflexivity.
  - rewrite Z.mod_small by lia.
    replace (e =? 3) with false by (symmetry; apply Z.eqb_neq; lia).
    replace (e + 1 =? 0) with false by (symmetry; apply Z.eqb_neq; lia).
    reflexivity.
Qed.

(** [fromordinal] yields a calendar date, and [toordinal] takes it back. *)
Lemma ord2ymd_spec (n : Z) :
  valid_ymd (Calendar.year_of n) (Calendar.month_of n) (Calendar.day_of n) /\
  Calendar.ymd2ord (Calendar.year_of n) (Calendar.month_of n) (Calendar.day_of n) = n.
Proof.
  unfold Calendar.year_of, Calendar.month_of, Calendar.day_of, Calendar.ord2ymd.
  cbv zeta.
  pose proof (Z.div_mod (n - 1) 146097 ltac:(lia)) as E400.
  pose proof (Z.mod_pos_bound (n - 1) 146097 ltac:(lia)) as B400.
  set (a := (n - 1) / 146097) in *. set (r400 := (n - 1) mod 146097) in *.
  pose proof (Z.div_mod r400 36524 ltac:(lia)) as E100.
  pose proof (Z.mod_pos_bound r400 36524 ltac:(lia)) as B100.
  set (b := r400 / 36524) in *. set (r100 := r400 mod 36524) in *.
  pose proof (Z.div_mod r100 1461 ltac:(lia)) as E4.
  pose proof (Z.mod_pos_bound r100 1461 ltac:(lia)) as B4.
  set (c := r100 / 1461) in *. set (r4 := r100 mod 1461) in *.
  pose proof (Z.div_mod r4 365 ltac:(lia)) as E1.
  pose proof (Z.mod_pos_bound r4 365 ltac:(lia)) as B1.
  set (e := r4 / 365) in *. set (r1 := r4 mod 365) in *.
  clearbody a r400 b r100 c r4 e r1.
  assert (Hb : 0 <= b <= 4) by nia.
  assert (Hc : 0 <= c <= 24) by nia.
  assert (He : 0 <= e <= 4) by nia.
  destruct ((e =? 4) || (b =? 4)) eqn:S.
  - cbn [fst snd].
    assert (Y : exists b' c',
               0 <= b' <= 3 /\ 0 <= c' <= 24 /\ (c' <> 24 \/ b' = 3) /\
               a * 400 + 1 + b * 100 + c * 4 + e - 1 = a * 400 + 1 + b' * 100 + c' * 4 + 3 /\
               n = 146097 * a + 36524 * b' + 1461 * c' + 1461).
    { destruct (Z.eq_dec b 4) as [->|Nb].
      - exists 3, 24. lia.
      - assert (e = 4) as ->.
        { apply orb_prop in S as [S|S]; apply Z.eqb_eq in S; [exact S|contradiction]. }
        exists b, c. lia. }
    destruct Y as (b' & c' & Hb' & Hc' & Hbc & -> & ->).
    assert (L : Calendar.is_leap (a * 400 + 1 + b' * 100 + c' * 4 + 3) = true).
    { rewrite is_leap_cycle by lia. cbn [Z.eqb andb].
      destruct Hbc as [Hbc|Hbc].
      - apply Z.eqb_neq in Hbc. now rewrite Hbc.
      - subst b'. now rewrite orb_true_r. }
    split.
    + split; [lia|]. unfold Calendar.days_in_month. cbn. lia.
    + unfold Calendar.ymd2ord. rewrite days_before_year_cycle by lia.
      unfold Calendar.days_before_month. rewrite L. cbn. lia.
  - apply orb_false_iff in S as [Se Sb]. apply Z.eqb_neq in Se, Sb.
    set (y := a * 400 + 1 + b * 100 + c * 4 + e).
    destruct (Calendar.month_scan 11 y 1 r1) as [m d] eqn:MS. cbn [fst snd].
    destruct (month_scan_spec 11 y 1 r1) as [V Q]; try lia.
    { unfold Calendar.days_before_month, leap_day. cbn.
      destruct (Calendar.is_leap y); lia. }
    rewrite MS in V, Q. cbn [fst snd] in V, Q. split; [exact V|].
    unfold Calendar.ymd2ord. unfold y at 1. rewrite days_before_year_cycle by lia.
    unfold Calendar.days_before_month at 2 in Q. cbn in Q. lia.
Qed.

Lemma ord2ymd_ymd2ord (y m d : Z) :
  valid_ymd y m d ->
  Calendar.year_of (Calendar.ymd2ord y m d) = y /\
  Calendar.month_of (Calendar.ymd2ord y m d) = m /\
  Calendar.day_of (Calendar.ymd2ord y m d) = d.
Proof.
  intros V. destruct (ord2ymd_spec (Calendar.ymd2ord y m d)) as [V' E].
  now apply ymd2ord_inj in E.
Qed.

(** *** The recurrence rule *)

Lemma sorted_map_seq (f : nat -> Z) :
  (forall i j, (i < j)%nat -> f i < f j) ->
  forall n a, StronglySorted Z.lt (map f (seq a n)).
Proof.
  intros Hf. induction n as [|n IH]; intros a; cbn; constructor.
  - apply IH.
  - apply Forall_forall. intros x Hx. apply in_map_iff in Hx as (j & <- & Hj).
    apply in_seq in Hj. apply Hf. lia.
Qed.

Lemma every_In (step dtstart until d : Z) :
  0 < step ->
  In d (Rrule.every step dtstart until) <->
  dtstart <= d <= until /\ (d - dtstart) mod step = 0.
Proof.
  intros Hs. unfold Rrule.every.
  destruct (until <? dtstart) eqn:C.
  - apply Z.ltb_lt in C. split; [intros []|lia].
  - apply Z.ltb_ge in C. rewrite in_map_iff.
    assert (Hq : 0 <= (until - dtstart) / step) by (apply Z.div_pos; lia).
    pose proof (Z.mul_div_le (until - dtstart) step Hs) as Hle.
    split.
    + intros (k & <- & Hk). apply in_seq in Hk.
      assert (Z.of_nat k <= (until - dtstart) / step) by lia.
      split; [nia|].
      replace (dtstart + step * Z.of_nat k - dtstart) with (Z.of_nat k * step) by lia.
      apply Z.mod_mul. lia.
    + intros [Hd Hm].
      apply Z.mod_divide in Hm; [|lia]. destruct Hm as [q Hq'].
      assert (0 <= q) by nia.
      assert (q <= (until - dtstart) / step).
      { apply Z.div_le_lower_bound; [lia|]. nia. }
      exists (Z.to_nat q). split; [lia|]. apply in_seq. lia.
Qed.

Lemma every_sorted (step dtstart until : Z) :
  0 < step -> StronglySorted Z.lt (Rrule.every step dtstart until).
Proof.
  intros Hs. unfold Rrule.every. destruct (until <? dtstart); [constructor|].
  apply sorted_map_seq. intros i j Hij. nia.
Qed.

Lemma month_index_spec (d : Z) :
  valid_ymd (Rrule.month_index d / 12) (Rrule.month_index d mod 12 + 1) (Calendar.day_of d) /\
  Calendar.ymd2ord (Rrule.month_index d / 12) (Rrule.month_index d mod 12 + 1)
    (Calendar.day_of d) = d.
Proof.
  destruct (ord2ymd_spec d) as [V E]. unfold Rrule.month_index.
  assert (Hm : 1 <= Calendar.month_of d <= 12) by apply V.
  rewrite (div_eq _ 12 (Calendar.year_of d) (Calendar.month_of d - 1)) by lia.
  rewrite (mod_eq _ 12 (Calendar.year_of d) (Calendar.month_of d - 1)) by lia.
  replace (Calendar.month_of d - 1 + 1) with (Calendar.month_of d) by lia.
  now split.
Qed.

Lemma month_index_bounds (d : Z) :
  month_base (Rrule.month_index d) < d <= month_base (Rrule.month_index d)
                                          + month_length (Rrule.month_index d).
Proof.
  destruct (month_index_spec d) as [[Hm Hd] E].
  unfold month_base, month_length. unfold Calendar.ymd2ord in E. lia.
Qed.

Lemma month_index_mono (a b : Z) : a <= b -> Rrule.month_index a <= Rrule.month_index b.
Proof.
  intros Hab. destruct (Z.le_gt_cases (Rrule.month_index a) (Rrule.month_index b)) as [H|H];
    [exact H|].
  pose proof (month_base_mono _ _ H). pose proof (month_index_bounds a).
  pose proof (month_index_bounds b). lia.
Qed.

Lemma in_month_In (day i x : Z) :
  1 <= day ->
  In x (Rrule.in_month day i) <->
  day <= month_length i /\ x = month_base i + day.
Proof.
  intros Hday. unfold Rrule.in_month, month_length, month_base. cbv zeta.
  destruct (day <=? Calendar.days_in_month (i / 12) (i mod 12 + 1)) eqn:C.
  - apply Z.leb_le in C. cbn [In]. unfold Calendar.ymd2ord. split.
    + intros [<-|[]]. split; [exact C|reflexivity].
    + intros [_ ->]. now left.
  - apply Z.leb_gt in C. split; [intros []|lia].
Qed.

Lemma sorted_app (l1 l2 : list Z) :
  StronglySorted Z.lt l1 -> StronglySorted Z.lt l2 ->
  (forall a b, In a l1 -> In b l2 -> a < b) ->
  StronglySorted Z.lt (l1 ++ l2).
Proof.
  induction l1 as [|x l1 IH]; intros S1 S2 H; [exact S2|].
  cbn. apply StronglySorted_inv in S1 as [S1 F1]. constructor.
  - apply IH; [exact S1|exact S2|]. intros a b Ha Hb. apply H; [now right|exact Hb].
  - apply Forall_app. split; [exact F1|].
    apply Forall_forall. intros b Hb. apply H; [now left|exact Hb].
Qed.

Lemma sorted_filter (f : Z -> bool) (l : list Z) :
  StronglySorted Z.lt l -> StronglySorted Z.lt (filter f l).
Proof.
  induction 1 as [|x l Hs IH F]; cbn; [constructor|].
  destruct (f x); [|exact IH]. constructor; [exact IH|].
  apply Forall_forall. intros y Hy. apply filter_In in Hy as [Hy _].
  rewrite Forall_forall in F. now apply F.
Qed.

Lemma months_sorted (day i0 : Z) :
  1 <= day ->
  forall n a,
    StronglySorted Z.lt
      (flat_map (Rrule.in_month day) (map (fun k => i0 + Z.of_nat k) (seq a n))) /\
    (forall x, In x (flat_map (Rrule.in_month day)
                       (map (fun k => i0 + Z.of_nat k) (seq a n))) ->
               month_base (i0 + Z.of_nat a) < x).
Proof.
  intros Hday. induction n as [|n IH]; intros a.
  - cbn. split; [constructor|intros _ []].
  - cbn [seq map flat_map]. destruct (IH (S a)) as [Hs L]. split.
    + apply sorted_app; [| exact Hs |].
      * unfold Rrule.in_month. cbv zeta. destruct (_ <=? _); repeat constructor.
      * intros x y Hx Hy. apply in_month_In in Hx as [Hx ->]; [|exact Hday].
        apply L in Hy. replace (i0 + Z.of_nat (S a)) with (i0 + Z.of_nat a + 1) in Hy by lia.
        rewrite month_base_succ in Hy. lia.
    + intros x Hx. apply in_app_iff in Hx as [Hx|Hx].
      * apply in_month_In in Hx as [_ ->]; [lia|exact Hday].
      * apply L in Hx. replace (i0 + Z.of_nat (S a)) with (i0 + Z.of_nat a + 1) in Hx by lia.
        rewrite month_base_succ in Hx. pose proof (month_length_bounds (i0 + Z.of_nat a)). lia.
Qed.

Lemma day_of_pos (d : Z) : 1 <= Calendar.day_of d.
Proof. destruct (ord2ymd_spec d) as [[_ H] _]. lia. Qed.

Lemma monthly_sorted (dtstart until : Z) :
  StronglySorted Z.lt (Rrule.monthly dtstart until).
Proof.
  unfold Rrule.monthly. destruct (until <? dtstart); [constructor|]. cbv zeta.
  apply sorted_filter. apply months_sorted. apply day_of_pos.
Qed.

Lemma monthly_In (dtstart until d : Z) :
  In d (Rrule.monthly dtstart until) <->
  dtstart <= d <= until /\ Calendar.day_of d = Calendar.day_of dtstart.
Proof.
  unfold Rrule.monthly. destruct (until <? dtstart) eqn:C.
  - apply Z.ltb_lt in C. split; [intros []|lia].
  - apply Z.ltb_ge in C. cbv zeta.
    rewrite filter_In, in_flat_map, andb_true_iff, Z.leb_le, Z.leb_le.
    pose proof (day_of_pos dtstart) as Hday.
    split.
    + intros [(i & Hi & Hx) Hb]. split; [exact Hb|].
      apply in_month_In in Hx as [Hl ->]; [|exact Hday].
      unfold month_base, month_length in *.
      assert (V : valid_ymd (i / 12) (i mod 12 + 1) (Calendar.day_of dtstart)).
      { split; [|lia]. pose proof (Z.mod_pos_bound i 12). lia. }
      apply ord2ymd_ymd2ord in V. unfold Calendar.ymd2ord in V. apply V.
    + intros [Hb Hd]. split; [|exact Hb].
      exists (Rrule.month_index d). split.
      * apply in_map_iff.
        pose proof (month_index_mono dtstart d ltac:(lia)).
        pose proof (month_index_mono d until ltac:(lia)).
        exists (Z.to_nat (Rrule.month_index d - Rrule.month_index dtstart)).
        split; [lia|]. apply in_seq. lia.
      * apply in_month_In; [exact Hday|].
        destruct (month_index_spec d) as [[Hm Hdd] E].
        rewrite <- Hd. unfold month_length, month_base.
        unfold Calendar.ymd2ord in E. lia.
Qed.

Lemma rrule_In (pattern : RecurrencePattern) (dtstart until d : Z) :
  In d (Rrule.rrule pattern dtstart until) <->
  dtstart <= d <= until /\ on_frequency pattern dtstart d.
Proof.
  destruct pattern; cbn [Rrule.rrule on_frequency].
  - rewrite every_In by lia. rewrite Z.mod_1_r. tauto.
  - apply every_In. lia.
  - apply monthly_In.
Qed.

Lemma rrule_sorted (pattern : RecurrencePattern) (dtstart until : Z) :
  StronglySorted Z.lt (Rrule.rrule pattern dtstart until).
Proof.
  destruct pattern; cbn [Rrule.rrule];
    [apply every_sorted; lia | apply every_sorted; lia | apply monthly_sorted].
Qed.

(** *** The recurrence expander and create *)

Lemma recurring_loop_run (E : Env) (c : ProviderAvailabilityCreate.t) :
  0 < ProviderAvailabilityCreate.slot_duration c ->
  0 <= ProviderAvailabilityCreate.break_duration c ->
  forall dates acc w,
    (forall d, In d dates -> generable E c d) ->
    exists results w',
      recurring_loop E c dates acc w = (Return (acc ++ results), w') /\
      same_store w w' /\
      map (fun r => ProviderAvailabilityDB.date (fst r)) results = dates /\
      Forall (is_occurrence E c) results.
Proof.
  intros HD HB. induction dates as [|d dates IH]; intros acc w Hg.
  - exists [], w. cbn. rewrite app_nil_r. repeat split. constructor.
  - cbn [recurring_loop]. unfold bind at 1. unfold new_ProviderAvailabilityDB.
    unfold bind at 1. unfold uuid4 at 1. cbv beta iota.
    unfold bind at 1. unfold utcnow at 1. cbv beta iota.
    unfold bind at 1. unfold utcnow at 1. cbv beta iota.
    unfold ret at 1. cbv beta iota.
    match goal with
    | |- context [generate_slots_from_availability E ?a] => set (db := a)
    end.
    match goal with
    | |- context [bind (generate_slots_from_availability E db) ?k ?w0] => set (w1 := w0)
    end.
    destruct (Hg d (or_introl eq_refl)) as (s & e & Cs & Ce & Hr).
    destruct (generate_slots_run E db s e w1 Cs Ce HD HB Hr) as (slots & w2 & R & _ & St).
    unfold bind at 1. rewrite R.
    destruct (IH (acc ++ [(db, slots)]) w2 (fun x Hx => Hg x (or_intror Hx)))
      as (results & w' & R' & St' & Hd & Ho).
    rewrite R'. exists ((db, slots) :: results), w'.
    rewrite <- app_assoc. split; [reflexivity|]. split; [|split].
    + apply same_store_trans with w2; [|exact St'].
      apply same_store_trans with w1; [|exact St]. now split.
    + cbn. now rewrite Hd.
    + constructor; [|exact Ho]. split; cbn [fst snd].
      * unfold copies, db, copy_of. cbn. repeat split.
      * now exists w1, w2.
Qed.

Lemma store_slots_run (db : ProviderAvailabilityDB.t) (slots : list AppointmentSlot.t) :
  forall counters w,
    exists counters' w',
      store_slots db slots counters w = (Return counters', w') /\
      fst counters' = fst counters + Z.of_nat (List.length slots) /\
      PROVIDER_AVAILABILITY w' = PROVIDER_AVAILABILITY w /\
      APPOINTMENT_SLOTS w' = APPOINTMENT_SLOTS w ++ map AppointmentSlot_dict slots.
Proof.
  induction slots as [|slot slots IH]; intros counters w.
  - exists counters, w. cbn. rewrite app_nil_r. repeat split. lia.
  - cbn [store_slots]. unfold add_appointment_slot, modify, ret, bind.
    cbv beta iota.
    match goal with
    | |- context [store_slots db slots ?c ?w0] =>
        destruct (IH c w0) as (counters' & w' & R & Hc & Hp & Hs)
    end.
    rewrite R. exists counters', w'. split; [reflexivity|].
    cbn in Hc, Hp, Hs. cbn [List.length map]. rewrite Hs, <- app_assoc.
    repeat split; [lia|exact Hp].
Qed.

Lemma store_recurring_run
    (results : list (ProviderAvailabilityDB.t * list AppointmentSlot.t)) :
  forall counters w,
    exists counters' w',
      store_recurring results counters w = (Return counters', w') /\
      fst counters' = fst counters + Z.of_nat (List.length (List.concat (map snd results))) /\
      PROVIDER_AVAILABILITY w' = PROVIDER_AVAILABILITY w ++ map fst results /\
      APPOINTMENT_SLOTS w'
      = APPOINTMENT_SLOTS w ++ map AppointmentSlot_dict (List.concat (map snd results)).
Proof.
  induction results as [|[db slots] results IH]; intros counters w.
  - exists counters, w. cbn. rewrite !app_nil_r. repeat split. lia.
  - cbn [store_recurring]. unfold add_provider_availability, modify, ret, bind.
    cbv beta iota.
    match goal with
    | |- context [store_slots db slots counters ?w0] =>
        destruct (store_slots_run db slots counters w0) as (c1 & w1 & R1 & Hc1 & Hp1 & Hs1)
    end.
    rewrite R1.
    destruct (IH c1 w1) as (c2 & w2 & R2 & Hc2 & Hp2 & Hs2).
    rewrite R2. exists c2, w2. split; [reflexivity|].
    cbn in Hp1, Hs1. cbn [map List.concat fst snd].
    rewrite Hc2, Hc1, Hp2, Hp1, Hs2, Hs1, List.length_app, map_app, <- !app_assoc.
    repeat split. lia.
Qed.







(** *** Updating a slot *)

Lemma update_first_spec (slot_id : string) (updates : UpdateData.t) :
  forall store store',
    update_first slot_id updates store = Some store' ->
    exists before slot after,
      store = before ++ slot :: after /\
      (forall s, In s before -> SlotDict.id s <> slot_id) /\
      SlotDict.id slot = slot_id /\
      store' = before ++ dict_update slot updates :: after.
Proof.
  induction store as [|x store IH]; intros store' H; [discriminate|].
  cbn [update_first] in H. destruct (String.eqb (SlotDict.id x) slot_id) eqn:Q.
  - injection H as <-. apply String.eqb_eq in Q.
    exists [], x, store. repeat split; auto.
  - destruct (update_first slot_id updates store) as [rest|] eqn:U; [|discriminate].
    injection H as <-. destruct (IH rest eq_refl) as (before & slot & after & -> & Hb & Hi & ->).
    apply String.eqb_neq in Q.
    exists (x :: before), slot, after. repeat split; auto.
    all: intros s [<-|Hs]; auto.
Qed.

Lemma update_first_found (slot_id : string) (updates : UpdateData.t) :
  forall store slot,
    In slot store -> SlotDict.id slot = slot_id ->
    update_first slot_id updates store <> None.
Proof.
  induction store as [|x store IH]; intros slot Hin Hid; [contradiction|].
  cbn [update_first]. destruct (String.eqb (SlotDict.id x) slot_id) eqn:Q; [discriminate|].
  destruct Hin as [->|Hin]; [apply String.eqb_neq in Q; contradiction|].
  specialize (IH slot Hin Hid).
  destruct (update_first slot_id updates store); [discriminate|contradiction].
Qed.

Lemma update_conflicts_pure (E : Env) (slot_id : string)
    (updates : ProviderAvailabilityUpdate.t) (slot : SlotDict.t) (w : World) :
  snd (update_conflicts E slot_id updates slot w) = w.
Proof.
  unfold update_conflicts.
  destruct (_ || _); [|reflexivity].
  unfold bind, lift, ret, gets.
  repeat match goal with
         | |- context [if ?b then _ else _] => destruct b
         | |- context [match ?o with Return _ => _ | Raise _ => _ | Diverge => _ end] =>
             destruct o
         end; reflexivity.
Qed.

(** C9 (amended). Update answers 404 when the store returns no slot for the
    id.  When it succeeds on a patch that carries no time, exactly one stored
    slot changes, the first one carrying the id: the status, the notes, the
    price and the requirements for which the patch gives a non-empty value
    take that value (an empty notes string or an empty list of requirements
    is ignored), every other field keeps its value, and the updated timestamp
    becomes the current time; such a patch always succeeds on a stored,
    non-empty id. *)
Theorem update_slot_effect :
  (forall (E : Env) (slot_id : string) (updates : ProviderAvailabilityUpdate.t) (w : World),
     stored_slot w slot_id = None ->
     update_availability_slot E slot_id updates w
     = (Return (Failure "Slot not found" 404), w)) /\
  (forall (E : Env) (slot_id : string) (updates : ProviderAvailabilityUpdate.t)
          (w w' : World) (message : option string),
     Py.truthy_opt (ProviderAvailabilityUpdate.start_time updates) = false ->
     Py.truthy_opt (ProviderAvailabilityUpdate.end_time updates) = false ->
     update_availability_slot E slot_id updates w = (Return (Success message tt), w') ->
     exists before slot slot' after,
       APPOINTMENT_SLOTS w = before ++ slot :: after /\
       (forall s, In s before -> SlotDict.id s <> slot_id) /\
       SlotDict.id slot = slot_id /\
       APPOINTMENT_SLOTS w' = before ++ slot' :: after /\
       PROVIDER_AVAILABILITY w' = PROVIDER_AVAILABILITY w /\
       untouched slot slot' /\
       patched updates slot slot' /\
       SlotDict.updated_at slot' = Some (utcnow_at E (clock_read w))) /\
  (forall (E : Env) (slot_id : string) (updates : ProviderAvailabilityUpdate.t)
          (w : World) (slot : SlotDict.t),
     slot_id <> "" ->
     stored_slot w slot_id = Some slot ->
     Py.truthy_opt (ProviderAvailabilityUpdate.start_time updates) = false ->
     Py.truthy_opt (ProviderAvailabilityUpdate.end_time updates) = false ->
     exists w',
       update_availability_slot E slot_id updates w
       = (Return (Success (Some "Slot updated successfully") tt), w')).
Proof.
  split; [|split].
  - intros E slot_id updates w Hs. unfold stored_slot in Hs.
    unfold update_availability_slot, try_except, bind, gets.
    destruct (get_appointment_slots (APPOINTMENT_SLOTS w) None None (Some slot_id));
      [reflexivity|discriminate Hs].
  - intros E slot_id updates w w' message Tst Ten H.
    unfold update_availability_slot, try_except in H.
    unfold bind at 1, gets at 1 in H.
    destruct (get_appointment_slots (APPOINTMENT_SLOTS w) None None (Some slot_id))
      as [|slot0 rest]; [discriminate H|].
    unfold bind at 1 in H.
    pose proof (update_conflicts_pure E slot_id updates slot0 w) as P.
    destruct (update_conflicts E slot_id updates slot0 w) as [o w1].
    cbn [snd] in P. subst w1.
    destruct o as [[|]| |]; try discriminate H.
    unfold bind at 1, utcnow at 1 in H. cbv beta iota in H.
    unfold bind at 1, update_appointment_slot, bind at 1, gets at 1 in H.
    cbv beta iota in H. cbn [APPOINTMENT_SLOTS] in H.
    destruct (update_first slot_id
                (prepare_update_data updates (utcnow_at E (clock_read w)))
                (APPOINTMENT_SLOTS w)) as [store'|] eqn:U; [|discriminate H].
    unfold bind, modify, ret in H. cbn in H. injection H as _ <-.
    apply update_first_spec in U as (before & slot & after & Hst & Hb & Hid & ->).
    exists before, slot,
      (dict_update slot (prepare_update_data updates (utcnow_at E (clock_read w)))), after.
    split; [exact Hst|]. split; [exact Hb|]. split; [exact Hid|].
    split; [reflexivity|]. split; [reflexivity|].
    split; [|split]; [| | reflexivity].
    + unfold untouched, dict_update, prepare_update_data.
      cbn [SlotDict.id SlotDict.availability_id SlotDict.provider_id
           SlotDict.slot_start_time SlotDict.slot_end_time SlotDict.patient_id
           SlotDict.appointment_type SlotDict.booking_reference SlotDict.created_at
           SlotDict.start_time SlotDict.end_time
           UpdateData.start_time UpdateData.end_time].
      rewrite Tst, Ten. repeat split.
    + unfold patched, dict_update, prepare_update_data.
      cbn [SlotDict.status SlotDict.notes
           SlotDict.pricing SlotDict.special_requirements
           UpdateData.status UpdateData.notes
           UpdateData.pricing UpdateData.special_requirements].
      destruct updates as [st en sta no pr sr].
      cbn [ProviderAvailabilityUpdate.status ProviderAvailabilityUpdate.notes
           ProviderAvailabilityUpdate.pricing
           ProviderAvailabilityUpdate.special_requirements].
      destruct sta, no as [[|? ?]|], pr, sr as [[|? ?]|]; repeat split.
  - intros E slot_id updates w slot Hne Hs Hst Hen. unfold stored_slot in Hs.
    unfold update_availability_slot, try_except.
    unfold bind at 1, gets at 1.
    assert (Hg : get_appointment_slots (APPOINTMENT_SLOTS w) None None (Some slot_id)
                 = filter (fun s => String.eqb (SlotDict.id s) slot_id) (APPOINTMENT_SLOTS w)).
    { unfold get_appointment_slots. cbn [Py.truthy_opt Py.or_else].
      destruct slot_id; [contradiction|reflexivity]. }
    rewrite Hg in *.
    destruct (filter _ (APPOINTMENT_SLOTS w)) as [|slot0 rest] eqn:F; [discriminate Hs|].
    injection Hs as ->.
    assert (Hin : In slot (APPOINTMENT_SLOTS w) /\ SlotDict.id slot = slot_id).
    { assert (I : In slot (filter (fun s => String.eqb (SlotDict.id s) slot_id)
                             (APPOINTMENT_SLOTS w))) by (rewrite F; now left).
      apply filter_In in I as [I Q]. apply String.eqb_eq in Q. now split. }
    destruct Hin as [Hin Hid].
    unfold bind at 1, update_conflicts. rewrite Hst, Hen. cbn [orb]. unfold ret at 1.
    cbv beta iota.
    unfold bind at 1, utcnow at 1. cbv beta iota.
    unfold bind at 1, update_appointment_slot, bind at 1, gets at 1.
    cbv beta iota. cbn [APPOINTMENT_SLOTS].
    pose proof (update_first_found slot_id
                  (prepare_update_data updates (utcnow_at E (clock_read w)))
                  _ _ Hin Hid) as U.
    destruct (update_first slot_id _ (APPOINTMENT_SLOTS w)) as [store'|]; [|contradiction].
    unfold bind, modify, ret. cbn. eauto.
Qed.

Lemma update_slot_effect_witness :
  exists before slot slot' after,
    APPOINTMENT_SLOTS Sample.seeded_world = before ++ slot :: after /\
    (forall s, In s before -> SlotDict.id s <> "slot-124") /\
    SlotDict.id slot = "slot-124" /\
    APPOINTMENT_SLOTS
      (snd (update_availability_slot Sample.env "slot-124"
              (Sample.status_price_patch BLOCKED (150 # 1)) Sample.seeded_world))
    = before ++ slot' :: after /\
    PROVIDER_AVAILABILITY
      (snd (update_availability_slot Sample.env "slot-124"
              (Sample.status_price_patch BLOCKED (150 # 1)) Sample.seeded_world))
    = PROVIDER_AVAILABILITY Sample.seeded_world /\
    untouched slot slot' /\
    patched (Sample.status_price_patch BLOCKED (150 # 1)) slot slot' /\
    SlotDict.updated_at slot'
    = Some (utcnow_at Sample.env (clock_read Sample.seeded_world)).
Proof.
  apply (proj1 (proj2 update_slot_effect) Sample.env "slot-124"
           (Sample.status_price_patch BLOCKED (150 # 1)) Sample.seeded_world
           (snd (update_availability_slot Sample.env "slot-124"
                   (Sample.status_price_patch BLOCKED (150 # 1)) Sample.seeded_world))
           (Some "Slot updated successfully"));
    [reflexivity | reflexivity | vm_compute; reflexivity].
Defined.

(** C9, as stated, fails for a field that is present and empty: after the
    notes of slot-123 were set to "Bring ID", a patch whose notes field is the
    empty string succeeds and leaves the notes as they were.  It also fails
    for the empty id, for which the lookup returns the whole store: no stored
    slot has that id, and the answer is 500, not 404. *)
Lemma update_slot_counterexample :
  (ProviderAvailabilityUpdate.notes (Sample.notes_patch "") = Some "" /\
   exists w1 w2,
     update_availability_slot Sample.env "slot-123" (Sample.notes_patch "Bring ID")
       Sample.seeded_world
     = (Return (Success (Some "Slot updated successfully") tt), w1) /\
     map SlotDict.notes (APPOINTMENT_SLOTS w1) = [Some "Bring ID"; None] /\
     update_availability_slot Sample.env "slot-123" (Sample.notes_patch "") w1
     = (Return (Success (Some "Slot updated successfully") tt), w2) /\
     map SlotDict.notes (APPOINTMENT_SLOTS w2) = [Some "Bring ID"; None] /\
     (forall s, In s (APPOINTMENT_SLOTS w2) -> SlotDict.notes s <> Some "")) /\
  ((forall s, In s (APPOINTMENT_SLOTS Sample.seeded_world) -> SlotDict.id s <> "") /\
   fst (update_availability_slot Sample.env "" Sample.no_patch Sample.seeded_world)
   = Return (Failure "Failed to update slot" 500)).
Proof.
  split.
  - split; [reflexivity|].
    eexists _, _. split; [vm_compute; reflexivity|]. split; [reflexivity|].
    split; [vm_compute; reflexivity|]. split; [reflexivity|].
    intros s [<-|[<-|[]]]; discriminate.
  - split; [|reflexivity]. intros s [<-|[<-|[]]]; discriminate.
Qed.

(** *** Search *)

Lemma status_is_available (s : AvailabilityStatus) :
  status_is s "available" = true <-> s = AVAILABLE.
Proof. destruct s; cbn; split; congruence. Qed.

Lemma optional_test {A} (o : option A) (skip : A -> bool) (P : A -> Prop) :
  (forall a, skip a = false <-> P a) ->
  match o with Some a => skip a | None => false end = false <->
  (forall a, o = Some a -> P a).
Proof.
  intros H. destruct o as [a|].
  - rewrite H. split; [now intros p ? [= <-]|auto].
  - split; [discriminate|reflexivity].
Qed.

Lemma search_keeps_iff (E : Env) (search_request : AvailabilitySearchRequest.t)
    (max_price : Q) (slot : SlotDict.t) :
  AvailabilitySearchRequest.available_only search_request = true ->
  AvailabilitySearchRequest.max_price search_request = Some max_price ->
  (max_price == 100)%Q ->
  search_keeps E search_request slot = true <->
  SlotDict.status slot = AVAILABLE /\
  (forall p, SlotDict.pricing slot = Some p -> (Pricing.base_fee p <= 100)%Q) /\
  meets_other_criteria E search_request slot.
Proof.
  intros Ha Hm Hq. unfold search_keeps, meets_other_criteria. rewrite Ha, Hm. cbv zeta.
  assert (Z0 : Qeq_bool max_price 0 = false).
  { destruct (Qeq_bool max_price 0) eqn:Q0; [|reflexivity].
    apply Qeq_bool_iff in Q0. rewrite Hq in Q0. discriminate Q0. }
  rewrite Z0. cbn [negb andb].
  set (slot_date := Calendar.date_of (SlotDict.slot_start_time slot)).
  (* the availability flag *)
  pose proof (status_is_available (SlotDict.status slot)) as Hst.
  destruct (status_is (SlotDict.status slot) "available"); cbn [negb];
    [|split; [discriminate|intros [A _]; apply Hst in A; discriminate]].
  (* the exact date *)
  pose proof (optional_test (AvailabilitySearchRequest.date search_request)
                (fun d => negb (slot_date =? d)) (fun d => slot_date = d)) as T1.
  cbv beta in T1. rewrite <- T1
    by (intros d; rewrite negb_false_iff; apply Z.eqb_eq).
  destruct (match AvailabilitySearchRequest.date search_request with
            | Some d => negb (slot_date =? d) | None => false end);
    [split; [discriminate|intros (_ & _ & A & _); discriminate]|].
  (* the date range *)
  pose proof (optional_test (AvailabilitySearchRequest.start_date search_request)
                (fun d => slot_date <? d) (fun d => d <= slot_date)) as T2.
  cbv beta in T2. rewrite <- T2 by (intros d; apply Z.ltb_ge).
  destruct (match AvailabilitySearchRequest.start_date search_request with
            | Some d => slot_date <? d | None => false end);
    [split; [discriminate|intros (_ & _ & _ & A & _); discriminate]|].
  pose proof (optional_test (AvailabilitySearchRequest.end_date search_request)
                (fun d => slot_date >? d) (fun d => slot_date <= d)) as T3.
  cbv beta in T3. rewrite <- T3
    by (intros d; rewrite Z.gtb_ltb; apply Z.ltb_ge).
  destruct (match AvailabilitySearchRequest.end_date search_request with
            | Some d => slot_date >? d | None => false end);
    [split; [discriminate|intros (_ & _ & _ & _ & A & _); discriminate]|].
  (* the appointment type *)
  pose proof (optional_test (AvailabilitySearchRequest.appointment_type search_request)
                (fun t => negb (String.eqb (SlotDict.appointment_type slot)
                                           (AppointmentType_value t)))
                (fun t => SlotDict.appointment_type slot = AppointmentType_value t)) as T4.
  cbv beta in T4. rewrite <- T4
    by (intros t; rewrite negb_false_iff; apply String.eqb_eq).
  destruct (match AvailabilitySearchRequest.appointment_type search_request with
            | Some t => negb (String.eqb (SlotDict.appointment_type slot)
                                         (AppointmentType_value t))
            | None => false end);
    [split; [discriminate|intros (_ & _ & _ & _ & _ & A & _); discriminate]|].
  (* the location *)
  pose proof (optional_test (AvailabilitySearchRequest.location search_request)
                (fun loc => Py.truthy loc
                            && negb (Py.contains (lower E loc)
                                       (lower E (info_clinic_address (provider_info_of slot)))))
                (fun loc => loc <> "" ->
                            Py.contains (lower E loc)
                              (lower E "123 Medical Center Dr, New York, NY") = true))
    as T5.
  cbv beta in T5. rewrite <- T5.
  2:{ intros loc. destruct loc as [|c loc]; cbn [Py.truthy andb].
      - split; [intros _ N; now contradiction N|reflexivity].
      - rewrite negb_false_iff. split; [auto|intros H; apply H; discriminate]. }
  destruct (match AvailabilitySearchRequest.location search_request with
            | Some loc => _ | None => false end);
    [split; [discriminate|intros (_ & _ & _ & _ & _ & _ & A & _); discriminate]|].
  (* the price *)
  assert (Hfee : Qle_bool (slot_base_fee slot) max_price = true <->
                 (forall p, SlotDict.pricing slot = Some p ->
                            (Pricing.base_fee p <= 100)%Q)).
  { unfold slot_base_fee. rewrite Qle_bool_iff, Hq.
    destruct (SlotDict.pricing slot) as [p|].
    - split; [now intros H p' [= <-]|auto].
    - split; [discriminate|intros _; discriminate]. }
  destruct (Qle_bool (slot_base_fee slot) max_price); cbn [negb];
    [|split; [discriminate|intros (_ & A & _); apply Hfee in A; discriminate]].
  (* the insurance flag *)
  pose proof (optional_test (AvailabilitySearchRequest.insurance_accepted search_request)
                (fun wanted => negb (Bool.eqb (slot_insurance slot) wanted))
                (fun wanted => match SlotDict.pricing slot with
                               | Some p => Pricing.insurance_accepted p
                               | None => true
                               end = wanted)) as T6.
  cbv beta in T6. rewrite <- T6
    by (intros b; rewrite negb_false_iff; apply Bool.eqb_true_iff).
  destruct (match AvailabilitySearchRequest.insurance_accepted search_request with
            | Some wanted => _ | None => false end);
    [split; [discriminate|intros (_ & _ & _ & _ & _ & _ & _ & A); discriminate]|].
  split; [intros _|reflexivity].
  split; [now apply Hst|]. split; [now apply Hfee|]. repeat split.
Qed.

Lemma group_append_listed (providers : list (string * ProviderGroup))
    (info : ProviderInfo) (si : SlotInfo) (key : string) (x : SlotInfo) :
  listed (group_append providers info si) key x <->
  listed providers key x \/ (key = info_id info /\ x = si).
Proof.
  unfold listed. induction providers as [|[k g] ps IH]; cbn [group_append].
  - split.
    + intros (g & [[= <- <-]|[]] & Hx). cbn in Hx. destruct Hx as [<-|[]]. now right.
    + intros [(g & [] & _)|[-> ->]]. eexists. split; [now left|]. now left.
  - destruct (String.eqb_spec k (info_id info)) as [->|N].
    + split.
      * intros (g' & [[= <- <-]|Hin] & Hx).
        -- cbn in Hx. apply in_app_iff in Hx as [Hx|[<-|[]]]; [left|now right].
           exists g. split; [now left|exact Hx].
        -- left. exists g'. split; [now right|exact Hx].
      * intros [(g' & [[= <- <-]|Hin] & Hx)|[-> ->]].
        -- eexists. split; [now left|]. cbn. apply in_app_iff. now left.
        -- exists g'. split; [now right|exact Hx].
        -- eexists. split; [now left|]. cbn. apply in_app_iff. right. now left.
    + split.
      * intros (g' & [[= <- <-]|Hin] & Hx).
        -- left. exists g. split; [now left|exact Hx].
        -- destruct (proj1 IH) as [(g2 & Hin2 & Hx2)|R]; [now exists g'| |now right].
           left. exists g2. split; [now right|exact Hx2].
      * intros [(g' & [[= <- <-]|Hin] & Hx)|R].
        -- exists g. split; [now left|exact Hx].
        -- destruct (proj2 IH) as (g2 & Hin2 & Hx2); [left; now exists g'|].
           exists g2. split; [now right|exact Hx2].
        -- destruct (proj2 IH) as (g2 & Hin2 & Hx2); [now right|].
           exists g2. split; [now right|exact Hx2].
Qed.

Lemma group_append_keys (providers : list (string * ProviderGroup))
    (info : ProviderInfo) (si : SlotInfo) :
  map fst (group_append providers info si)
  = if existsb (fun k => String.eqb k (info_id info)) (map fst providers)
    then map fst providers
    else map fst providers ++ [info_id info].
Proof.
  induction providers as [|[k g] ps IH]; cbn [group_append map existsb app fst];
    [reflexivity|].
  destruct (String.eqb k (info_id info)); cbn [orb map fst]; [reflexivity|].
  rewrite IH. now destruct (existsb _ _).
Qed.

Lemma group_append_NoDup (providers : list (string * ProviderGroup))
    (info : ProviderInfo) (si : SlotInfo) :
  NoDup (map fst providers) -> NoDup (map fst (group_append providers info si)).
Proof.
  intros H. rewrite group_append_keys.
  destruct (existsb _ _) eqn:X; [exact H|].
  apply NoDup_app; [exact H | repeat constructor; intros [] |].
  intros k Hk [<-|[]].
  assert (existsb (fun k0 => String.eqb k0 (info_id info)) (map fst providers) = true);
    [|congruence].
  apply existsb_exists. exists (info_id info). split; [exact Hk|apply String.eqb_refl].
Qed.

Lemma group_append_keyed (providers : list (string * ProviderGroup))
    (info : ProviderInfo) (si : SlotInfo) :
  keyed providers -> keyed (group_append providers info si).
Proof.
  unfold keyed. induction providers as [|[k g] ps IH]; intros H key g'; cbn [group_append].
  - intros [[= <- <-]|[]]. reflexivity.
  - destruct (String.eqb_spec k (info_id info)) as [->|N].
    + intros [[= <- <-]|Hin]; [cbn; apply (H _ g); now left|apply H; now right].
    + intros [[= <- <-]|Hin]; [apply H; now left|].
      apply IH; [|exact Hin]. intros k' g2 H2. apply H. now right.
Qed.

Lemma slot_info_of_shows (E : Env) (display : string) (slot : SlotDict.t) (x : SlotInfo) :
  slot_info_of E display slot = Return x <-> shows E display slot x.
Proof.
  unfold slot_info_of, shows.
  destruct (convert_from_utc E (SlotDict.slot_start_time slot) display) as [s| |];
    [|split; [discriminate|intros (_ & _ & A & _); discriminate A]..].
  destruct (convert_from_utc E (SlotDict.slot_end_time slot) display) as [e| |];
    [|split; [discriminate|intros (_ & _ & _ & A & _); discriminate A]..].
  split.
  - intros [= <-].
    cbn [si_slot_id si_date si_start_time si_end_time si_appointment_type si_location
         si_pricing si_special_requirements].
    repeat split.
  - intros (A & B & C & D & F & G & H & I). destruct x as [a b c d f g h i].
    cbn [si_slot_id si_date si_start_time si_end_time si_appointment_type si_location
         si_pricing si_special_requirements] in *.
    injection C as ->. injection D as ->. subst. reflexivity.
Qed.

Lemma showable_true (E : Env) (display : string) (slot : SlotDict.t) :
  showable E display slot = true -> exists x, slot_info_of E display slot = Return x.
Proof.
  unfold showable, slot_info_of.
  destruct (convert_from_utc E (SlotDict.slot_start_time slot) display); [|discriminate..].
  destruct (convert_from_utc E (SlotDict.slot_end_time slot) display); [|discriminate..].
  eauto.
Qed.

Lemma convert_from_utc_outcome (E : Env) (utc_datetime : Z) (timezone_str : string) :
  (exists t, convert_from_utc E utc_datetime timezone_str = Return t) \/
  convert_from_utc E utc_datetime timezone_str
  = Raise (ValueError ("Invalid timezone: " ++ timezone_str)).
Proof.
  unfold convert_from_utc. destruct (pytz_timezone E timezone_str) as [tz|]; [|now right].
  destruct (astimezone tz utc_datetime); [left; eauto|now right].
Qed.

Lemma showable_false (E : Env) (display : string) (slot : SlotDict.t) :
  showable E display slot = false ->
  slot_info_of E display slot = Raise (ValueError ("Invalid timezone: " ++ display)).
Proof.
  unfold showable, slot_info_of.
  destruct (convert_from_utc_outcome E (SlotDict.slot_start_time slot) display)
    as [(s & ->)| ->]; [|reflexivity].
  destruct (convert_from_utc_outcome E (SlotDict.slot_end_time slot) display)
    as [(e & ->)| ->]; [discriminate|reflexivity].
Qed.

Lemma group_loop_run (E : Env) (display : string) :
  forall items providers,
    (forall slot info, In (slot, info) items -> showable E display slot = true) ->
    (forall slot info, In (slot, info) items -> info = provider_info_of slot) ->
    exists result,
      group_loop E display items providers = Return result /\
      (NoDup (map fst providers) -> NoDup (map fst result)) /\
      (keyed providers -> keyed result) /\
      (forall key x,
         listed result key x <->
         listed providers key x \/
         exists slot, In (slot, provider_info_of slot) items /\
                      SlotDict.provider_id slot = key /\
                      slot_info_of E display slot = Return x).
Proof.
  induction items as [|[slot info] items IH]; intros providers Hs Hi.
  - exists providers. split; [reflexivity|]. split; [auto|]. split; [auto|].
    intros key x. split; [now left | intros [H|(? & [] & _)]; exact H].
  - cbn [group_loop].
    destruct (showable_true E display slot (Hs slot info (or_introl eq_refl))) as (si & Hsi).
    rewrite Hsi.
    assert (info = provider_info_of slot) as -> by (apply Hi; now left).
    destruct (IH (group_append providers (provider_info_of slot) si)) as (result & R & N & K & L).
    { intros s i H. apply (Hs s i). now right. }
    { intros s i H. apply Hi. now right. }
    exists result. split; [exact R|]. split; [|split].
    + intros H. now apply N, group_append_NoDup.
    + intros H. now apply K, group_append_keyed.
    + intros key x. rewrite L, group_append_listed. cbn [In]. split.
      * intros [[H|[-> ->]]|(s & Hin & Hp & Hs')].
        -- now left.
        -- right. exists slot. split; [now left|]. now split.
        -- right. exists s. split; [now right|]. now split.
      * intros [H|(s & [[= <-]|Hin] & Hp & Hs')].
        -- left. now left.
        -- left. right. split; [now rewrite <- Hp|congruence].
        -- right. exists s. now split.
Qed.

(** The grouping loop raises when one of the slots cannot be shown. *)
Lemma group_loop_raises (E : Env) (display : string) :
  forall items providers,
    (exists slot info, In (slot, info) items /\ showable E display slot = false) ->
    group_loop E display items providers
    = Raise (ValueError ("Invalid timezone: " ++ display)).
Proof.
  induction items as [|[slot info] items IH]; intros providers (s & i & Hin & Hs);
    [contradiction|].
  cbn [group_loop].
  destruct (showable E display slot) eqn:S0.
  - destruct (showable_true E display slot S0) as (si & ->).
    apply IH. exists s, i. split; [|exact Hs].
    destruct Hin as [[= <- <-]|Hin]; [congruence|exact Hin].
  - now rewrite (showable_false E display slot S0).
Qed.

Lemma keyed_ids (providers : list (string * ProviderGroup)) :
  keyed providers ->
  map (fun g => info_id (provider g)) (map snd providers) = map fst providers.
Proof.
  unfold keyed. induction providers as [|[k g] ps IH]; intros H; [reflexivity|].
  cbn [map fst snd]. rewrite (H k g) by now left. f_equal.
  apply IH. intros k' g' H'. apply H. now right.
Qed.

(** C8 (amended). A search with [available_only] set and a maximal price of
    100 selects the stored slots whose status is "available", whose price,
    when they have one, has a base fee of at most 100, and that meet the
    other criteria.  When each selected slot can be shown in the display
    zone, the search succeeds and lists each provider once; every listed
    entry shows a selected slot, with its id, its date, its two local times,
    its appointment type, its price and its requirements, under the provider
    of the slot, and every selected slot is listed so.  When a selected slot
    cannot be shown, the answer is 500.  The store is left as it is. *)
Theorem search_available_up_to_price (E : Env) (search_request : AvailabilitySearchRequest.t)
    (w : World) (max_price : Q) :
  AvailabilitySearchRequest.available_only search_request = true ->
  AvailabilitySearchRequest.max_price search_request = Some max_price ->
  (max_price == 100)%Q ->
  ((forall slot,
      selected E search_request w slot ->
      showable E (display_timezone (AvailabilitySearchRequest.timezone search_request)) slot
      = true) ->
   exists data,
     search_availability_slots E search_request w = (Return (Success None data), w) /\
     NoDup (map (fun g => info_id (provider g)) (results data)) /\
     (forall g slot_info,
        In g (results data) -> In slot_info (available_slots g) ->
        exists slot,
          selected E search_request w slot /\
          SlotDict.provider_id slot = info_id (provider g) /\
          shows E (display_timezone (AvailabilitySearchRequest.timezone search_request))
            slot slot_info) /\
     (forall slot,
        selected E search_request w slot ->
        exists g slot_info,
          In g (results data) /\
          info_id (provider g) = SlotDict.provider_id slot /\
          In slot_info (available_slots g) /\
          shows E (display_timezone (AvailabilitySearchRequest.timezone search_request))
            slot slot_info)) /\
  ((exists slot,
      selected E search_request w slot /\
      showable E (display_timezone (AvailabilitySearchRequest.timezone search_request)) slot
      = false) ->
   search_availability_slots E search_request w
   = (Return (Failure "Failed to search availability" 500), w)).
Proof.
  intros Ha Hm Hq.
  set (display := display_timezone (AvailabilitySearchRequest.timezone search_request)) in *.
  set (items := map (fun slot => (slot, provider_info_of slot))
                    (filter (search_keeps E search_request) (APPOINTMENT_SLOTS w))).
  assert (Hitems : forall slot info, In (slot, info) items -> info = provider_info_of slot).
  { intros slot info H. apply in_map_iff in H as (s & [= <- <-] & _). reflexivity. }
  assert (Hin : forall slot,
            In (slot, provider_info_of slot) items <-> selected E search_request w slot).
  { intros slot. unfold items, selected. rewrite in_map_iff. split.
    - intros (s & Heq & Hf). assert (s = slot) as -> by congruence.
      apply filter_In in Hf as [H1 H2].
      apply (search_keeps_iff E search_request max_price slot Ha Hm Hq) in H2. tauto.
    - intros (H1 & H2). exists slot. split; [reflexivity|]. apply filter_In. split; [exact H1|].
      now apply (search_keeps_iff E search_request max_price slot Ha Hm Hq). }
  split.
  - intros Hshow.
    assert (Hs : forall slot info, In (slot, info) items -> showable E display slot = true).
    { intros slot info H. apply Hshow, Hin. now rewrite <- (Hitems slot info H). }
    destruct (group_loop_run E display items [] Hs Hitems) as (result & R & N & K & L).
    assert (Kr : keyed result) by (apply K; intros ? ? []).
    assert (Nr : NoDup (map fst result)) by (apply N; constructor).
    eexists. split.
    + unfold search_availability_slots, try_except, bind, gets, lift, ret.
      fold items. fold display. rewrite R. reflexivity.
    + cbn [results]. split; [|split].
      * rewrite keyed_ids by exact Kr. exact Nr.
      * intros g si Hg Hsi. apply in_map_iff in Hg as ([k g'] & <- & Hg). cbn [snd] in *.
        pose proof (Kr _ _ Hg) as Hk.
        destruct (proj1 (L k si)) as [(? & [] & _)|(slot & Hsl & Hp & Hinfo)];
          [now exists g'|].
        exists slot. split; [now apply Hin|]. split; [congruence|].
        now apply slot_info_of_shows.
      * intros slot Hsel.
        destruct (showable_true E display slot (Hshow slot Hsel)) as (si & Hsi).
        destruct (proj2 (L (SlotDict.provider_id slot) si)) as (g & Hg & Hx).
        { right. exists slot. split; [now apply Hin|]. now split. }
        exists g, si. split; [|split; [|split]].
        -- apply in_map_iff. now exists (SlotDict.provider_id slot, g).
        -- exact (Kr _ _ Hg).
        -- exact Hx.
        -- now apply slot_info_of_shows.
  - intros (slot & Hsel & Hno).
    unfold search_availability_slots, try_except, bind, gets, lift, ret.
    fold items. fold display.
    rewrite (group_loop_raises E display items []); [reflexivity|].
    exists slot, (provider_info_of slot). split; [now apply Hin|exact Hno].
Qed.

Lemma search_available_up_to_price_witness :
  exists data,
    search_availability_slots Sample.env (Sample.search_up_to (100 # 1)) Scenario.mixed_world
    = (Return (Success None data), Scenario.mixed_world) /\
    NoDup (map (fun g => info_id (provider g)) (results data)) /\
    (forall g slot_info,
       In g (results data) -> In slot_info (available_slots g) ->
       exists slot,
         selected Sample.env (Sample.search_up_to (100 # 1)) Scenario.mixed_world slot /\
         SlotDict.provider_id slot = info_id (provider g) /\
         shows Sample.env "America/New_York" slot slot_info) /\
    (forall slot,
       selected Sample.env (Sample.search_up_to (100 # 1)) Scenario.mixed_world slot ->
       exists g slot_info,
         In g (results data) /\
         info_id (provider g) = SlotDict.provider_id slot /\
         In slot_info (available_slots g) /\
         shows Sample.env "America/New_York" slot slot_info) /\
    map SlotDict.id (APPOINTMENT_SLOTS Scenario.mixed_world)
    = ["slot-123"; "slot-124"; "slot-125"; "slot-126"] /\
    map (fun g => (info_id (provider g), map si_slot_id (available_slots g))) (results data)
    = [("provider-123", ["slot-123"]); ("provider-456", ["slot-126"])].
Proof.
  destruct (proj1 (search_available_up_to_price Sample.env (Sample.search_up_to (100 # 1))
                     Scenario.mixed_world (100 # 1) eq_refl eq_refl eq_refl))
    as (data & R & N & A & B).
  { intros slot (Hin & _).
    destruct Hin as [<-|[<-|[<-|[<-|[]]]]]; reflexivity. }
  exists data. split; [exact R|]. split; [exact N|]. split; [exact A|]. split; [exact B|].
  split; [reflexivity|].
  vm_compute in R. injection R as <-. reflexivity.
Defined.

(** C8, as stated, fails for a store with a slot whose time has no local
    form: the open, unpriced slot that starts at 0001-01-01T00:00Z is
    selected, its start is before the first datetime on the wall clock of
    America/New_York, which is hours behind UTC, and the search answers 500
    instead of returning it. *)
Lemma search_available_counterexample :
  selected Sample.env (Sample.search_up_to (100 # 1)) Scenario.first_day_world
    Scenario.first_slot /\
  SlotDict.slot_start_time Scenario.first_slot = Datetime.MIN /\
  search_availability_slots Sample.env (Sample.search_up_to (100 # 1)) Scenario.first_day_world
  = (Return (Failure "Failed to search availability" 500), Scenario.first_day_world).
Proof.
  split; [|split; reflexivity].
  split; [now left|]. split; [reflexivity|]. split; [intros p; discriminate|].
  unfold meets_other_criteria. repeat split; intros ?; discriminate.
Qed.

(* ================================================================= *)
(** ** Further properties of the store and of the service *)

(** *** The store *)

Lemma lookup_by_id (store : list SlotDict.t) (slot_id : string) :
  slot_id <> "" ->
  get_appointment_slots store None None (Some slot_id)
  = filter (fun slot => String.eqb (SlotDict.id slot) slot_id) store.
Proof.
  intros H. unfold get_appointment_slots. cbn.
  destruct slot_id; [congruence | reflexivity].
Qed.

Lemma filter_absent {A} (f : A -> bool) (l : list A) :
  (forall x, In x l -> f x = false) -> filter f l = [].
Proof.
  induction l as [|a l IH]; cbn; intros H; [reflexivity|].
  rewrite (H a (or_introl eq_refl)). apply IH. intros x Hx. apply H. now right.
Qed.

Lemma delete_first_lookup (slot_id other : string) :
  forall store,
    match delete_first slot_id store with
    | Some store' =>
        filter (fun s => String.eqb (SlotDict.id s) slot_id) store <> [] /\
        filter (fun s => String.eqb (SlotDict.id s) slot_id) store'
        = tl (filter (fun s => String.eqb (SlotDict.id s) slot_id) store) /\
        (other <> slot_id ->
         filter (fun s => String.eqb (SlotDict.id s) other) store'
         = filter (fun s => String.eqb (SlotDict.id s) other) store) /\
        S (List.length store') = List.length store
    | None => filter (fun s => String.eqb (SlotDict.id s) slot_id) store = []
    end.
Proof.
  induction store as [|x store IH]; cbn; [reflexivity|].
  destruct (String.eqb (SlotDict.id x) slot_id) eqn:Hx.
  - cbn. repeat split; try discriminate.
    intros Ho. apply String.eqb_eq in Hx. subst slot_id.
    destruct (String.eqb (SlotDict.id x) other) eqn:Hy; [|reflexivity].
    apply String.eqb_eq in Hy. congruence.
  - destruct (delete_first slot_id store) as [store'|]; [|exact IH].
    destruct IH as (A & B & C & D). cbn. rewrite Hx. repeat split; auto.
    intros Ho. rewrite (C Ho). reflexivity.
Qed.

(** X1. Deleting a slot by id removes the first stored slot that carries
    the id and nothing else. *)
Theorem delete_appointment_slot_lookup (slot_id : string) (w : World) :
  slot_id <> "" ->
  exists w',
    delete_appointment_slot slot_id w
    = (Return (match get_appointment_slots (APPOINTMENT_SLOTS w) None None (Some slot_id) with
               | [] => false
               | _ :: _ => true
               end), w') /\
    get_appointment_slots (APPOINTMENT_SLOTS w') None None (Some slot_id)
    = tl (get_appointment_slots (APPOINTMENT_SLOTS w) None None (Some slot_id)) /\
    (forall other, other <> "" -> other <> slot_id ->
       get_appointment_slots (APPOINTMENT_SLOTS w') None None (Some other)
       = get_appointment_slots (APPOINTMENT_SLOTS w) None None (Some other)) /\
    (get_appointment_slots (APPOINTMENT_SLOTS w) None None (Some slot_id) = [] -> w' = w) /\
    (get_appointment_slots (APPOINTMENT_SLOTS w) None None (Some slot_id) <> [] ->
     S (List.length (APPOINTMENT_SLOTS w')) = List.length (APPOINTMENT_SLOTS w)) /\
    PROVIDER_AVAILABILITY w' = PROVIDER_AVAILABILITY w.
Proof.
  intros Hid. unfold delete_appointment_slot. run_monad.
  rewrite !(lookup_by_id _ _ Hid).
  pose proof (fun other => delete_first_lookup slot_id other (APPOINTMENT_SLOTS w)) as H.
  destruct (delete_first slot_id (APPOINTMENT_SLOTS w)) as [store'|] eqn:Hd.
  - eexists. cbn. destruct (H slot_id) as (A & B & _ & D).
    destruct (filter _ (APPOINTMENT_SLOTS w)) as [|s r] eqn:Hf; [congruence|].
    split; [reflexivity|]. rewrite (lookup_by_id _ _ Hid). cbn.
    repeat split; auto; try congruence.
    intros other Ho Hne. rewrite !(lookup_by_id _ _ Ho).
    destruct (H other) as (_ & _ & C & _). auto.
  - exists w. rewrite (H slot_id). cbn. rewrite (lookup_by_id _ _ Hid), (H slot_id).
    repeat split; auto; congruence.
Qed.

Lemma delete_appointment_slot_lookup_witness :
  exists w',
    delete_appointment_slot "slot-123" Sample.seeded_world = (Return true, w') /\
    get_appointment_slots (APPOINTMENT_SLOTS w') None None (Some "slot-123") = [] /\
    (forall other, other <> "" -> other <> "slot-123" ->
       get_appointment_slots (APPOINTMENT_SLOTS w') None None (Some other)
       = get_appointment_slots (APPOINTMENT_SLOTS Sample.seeded_world) None None (Some other)) /\
    PROVIDER_AVAILABILITY w' = PROVIDER_AVAILABILITY Sample.seeded_world.
Proof.
  destruct (delete_appointment_slot_lookup "slot-123" Sample.seeded_world)
    as (w' & A & B & C & _ & _ & F); [discriminate|].
  exists w'. repeat split; assumption.
Defined.

Lemma delete_first_fresh (x : SlotDict.t) :
  forall store,
    (forall s, In s store -> SlotDict.id s <> SlotDict.id x) ->
    delete_first (SlotDict.id x) (store ++ [x]) = Some store.
Proof.
  induction store as [|y store IH]; cbn; intros H.
  - now rewrite String.eqb_refl.
  - destruct (String.eqb (SlotDict.id y) (SlotDict.id x)) eqn:Hy.
    + apply String.eqb_eq in Hy. now elim (H y (or_introl eq_refl)).
    + rewrite IH; [reflexivity|]. intros s Hs. apply H. now right.
Qed.

(** X2. A slot added under an id that is new to the store is what the
    lookup by that id returns, and deleting it again restores the store. *)
Theorem add_appointment_slot_round_trip (slot : AppointmentSlot.t) (w : World) :
  AppointmentSlot.id slot <> "" ->
  (forall s, In s (APPOINTMENT_SLOTS w) -> SlotDict.id s <> AppointmentSlot.id slot) ->
  exists w1 w2,
    add_appointment_slot slot w = (Return (AppointmentSlot.id slot), w1) /\
    get_appointment_slots (APPOINTMENT_SLOTS w1) None None (Some (AppointmentSlot.id slot))
    = [AppointmentSlot_dict slot] /\
    (forall other, other <> "" -> other <> AppointmentSlot.id slot ->
       get_appointment_slots (APPOINTMENT_SLOTS w1) None None (Some other)
       = get_appointment_slots (APPOINTMENT_SLOTS w) None None (Some other)) /\
    delete_appointment_slot (AppointmentSlot.id slot) w1 = (Return true, w2) /\
    same_store w w2.
Proof.
  intros Hid Hfresh.
  unfold add_appointment_slot, delete_appointment_slot. run_monad.
  do 2 eexists. split; [reflexivity|]. cbn.
  rewrite (lookup_by_id _ _ Hid), filter_app.
  rewrite filter_absent.
  2:{ intros x Hx. apply String.eqb_neq. now apply Hfresh. }
  cbn. rewrite String.eqb_refl. split; [reflexivity|]. split.
  - intros other Ho Hne. rewrite !(lookup_by_id _ _ Ho), filter_app. cbn.
    destruct (String.eqb (AppointmentSlot.id slot) other) eqn:Hx.
    + apply String.eqb_eq in Hx. congruence.
    + apply app_nil_r.
  - change (AppointmentSlot.id slot) with (SlotDict.id (AppointmentSlot_dict slot)).
    rewrite delete_first_fresh by exact Hfresh. cbn. split; [reflexivity|].
    split; reflexivity.
Qed.

Lemma delete_first_availability_fresh (x : ProviderAvailabilityDB.t) :
  forall store,
    (forall a, In a store -> ProviderAvailabilityDB.id a <> ProviderAvailabilityDB.id x) ->
    delete_first_availability (ProviderAvailabilityDB.id x) (store ++ [x]) = Some store.
Proof.
  induction store as [|y store IH]; cbn; intros H.
  - now rewrite String.eqb_refl.
  - destruct (String.eqb (ProviderAvailabilityDB.id y) (ProviderAvailabilityDB.id x)) eqn:Hy.
    + apply String.eqb_eq in Hy. now elim (H y (or_introl eq_refl)).
    + rewrite IH; [reflexivity|]. intros s Hs. apply H. now right.
Qed.

(** X3. An availability record added under an id that is new to the store
    is what the lookup by that id returns; deleting it restores the list of
    records and leaves the slots alone. *)
Theorem add_provider_availability_round_trip (availability : ProviderAvailabilityDB.t)
    (w : World) :
  ProviderAvailabilityDB.id availability <> "" ->
  (forall a, In a (PROVIDER_AVAILABILITY w) ->
             ProviderAvailabilityDB.id a <> ProviderAvailabilityDB.id availability) ->
  exists w1 w2,
    add_provider_availability availability w
    = (Return (ProviderAvailabilityDB.id availability), w1) /\
    (forall provider_id,
       get_provider_availability (PROVIDER_AVAILABILITY w1) provider_id
         (Some (ProviderAvailabilityDB.id availability)) = [availability]) /\
    delete_provider_availability (ProviderAvailabilityDB.id availability) w1
    = (Return true, w2) /\
    same_store w w2 /\
    (forall provider_id,
       get_provider_availability (PROVIDER_AVAILABILITY w2) provider_id
         (Some (ProviderAvailabilityDB.id availability)) = []).
Proof.
  intros Hid Hfresh.
  assert (Hget : forall store provider_id,
            get_provider_availability store provider_id
              (Some (ProviderAvailabilityDB.id availability))
            = filter (fun av => String.eqb (ProviderAvailabilityDB.id av)
                                           (ProviderAvailabilityDB.id availability)) store).
  { intros store p. unfold get_provider_availability. cbn.
    destruct (ProviderAvailabilityDB.id availability); [congruence | reflexivity]. }
  assert (Habsent : filter (fun av => String.eqb (ProviderAvailabilityDB.id av)
                                        (ProviderAvailabilityDB.id availability))
                      (PROVIDER_AVAILABILITY w) = []).
  { apply filter_absent. intros x Hx. apply String.eqb_neq. now apply Hfresh. }
  unfold add_provider_availability, delete_provider_availability. run_monad.
  do 2 eexists. split; [reflexivity|]. cbn. split.
  - intros p. rewrite Hget, filter_app, Habsent. cbn. now rewrite String.eqb_refl.
  - rewrite delete_first_availability_fresh by exact Hfresh. cbn.
    split; [reflexivity|]. split; [split; reflexivity|].
    intros p. now rewrite Hget.
Qed.

Lemma add_appointment_slot_round_trip_witness :
  exists w1 w2,
    add_appointment_slot Scenario.walk_in Sample.seeded_world = (Return "slot-200", w1) /\
    get_appointment_slots (APPOINTMENT_SLOTS w1) None None (Some "slot-200")
    = [AppointmentSlot_dict Scenario.walk_in] /\
    (forall other, other <> "" -> other <> "slot-200" ->
       get_appointment_slots (APPOINTMENT_SLOTS w1) None None (Some other)
       = get_appointment_slots (APPOINTMENT_SLOTS Sample.seeded_world) None None
           (Some other)) /\
    delete_appointment_slot "slot-200" w1 = (Return true, w2) /\
    same_store Sample.seeded_world w2.
Proof.
  apply (add_appointment_slot_round_trip Scenario.walk_in Sample.seeded_world).
  - discriminate.
  - intros s [<-|[<-|[]]]; discriminate.
Defined.

Lemma add_provider_availability_round_trip_witness :
  exists w1 w2,
    add_provider_availability (Sample.stored Sample.morning) Sample.seeded_world
    = (Return "availability-1", w1) /\
    (forall provider_id,
       get_provider_availability (PROVIDER_AVAILABILITY w1) provider_id
         (Some "availability-1") = [Sample.stored Sample.morning]) /\
    delete_provider_availability "availability-1" w1 = (Return true, w2) /\
    same_store Sample.seeded_world w2 /\
    (forall provider_id,
       get_provider_availability (PROVIDER_AVAILABILITY w2) provider_id
         (Some "availability-1") = []).
Proof.
  apply (add_provider_availability_round_trip (Sample.stored Sample.morning)
           Sample.seeded_world).
  - discriminate.
  - intros a [<-|[]]. discriminate.
Defined.

(** *** Conversions *)

Lemma tens_units (n : Z) :
  0 <= n < 100 -> 0 <= n / 10 <= 9 /\ 0 <= n mod 10 <= 9 /\ n = 10 * (n / 10) + n mod 10.
Proof.
  intros H. pose proof (Z.div_mod n 10 ltac:(lia)).
  pose proof (Z.mod_pos_bound n 10 ltac:(lia)).
  assert (0 <= n / 10) by (apply Z.div_pos; lia).
  assert (n / 10 < 10) by (apply Z.div_lt_upper_bound; lia). lia.
Qed.

Lemma is_HHMM_pad2 (h m : Z) :
  0 <= h < 24 -> 0 <= m < 60 ->
  is_HHMM (Py.pad2 h ++ ":" ++ Py.pad2 m) = true.
Proof.
  intros Hh Hm.
  destruct (tens_units h) as (Ha & Hb & Hab); [lia|].
  destruct (tens_units m) as (Hc & Hd & Hcd); [lia|].
  unfold is_HHMM, time_pattern, Py.pad2. cbn [String.append Py.split String.length].
  rewrite !digit_char_not_colon by assumption.
  rewrite Ascii.eqb_refl. cbn [hour_pattern minute_pattern Nat.eqb].
  rewrite !digit_of_digit_char by assumption.
  replace (m / 10 <=? 5) with true by (symmetry; apply Z.leb_le; lia).
  rewrite !andb_true_r.
  destruct (h / 10 <=? 1) eqn:A; [reflexivity|]. apply Z.leb_gt in A.
  replace (h / 10 =? 2) with true by (symmetry; apply Z.eqb_eq; lia).
  replace (h mod 10 <=? 3) with true by (symmetry; apply Z.leb_le; lia).
  reflexivity.
Qed.

Lemma wall_clock (l : Z) :
  0 <= l mod 86400 / 3600 < 24 /\ 0 <= l mod 3600 / 60 < 60 /\
  l = 86400 * (l / 86400) + 3600 * (l mod 86400 / 3600) + 60 * (l mod 3600 / 60) + l mod 60.
Proof.
  pose proof (Z.div_mod l 86400 ltac:(lia)) as H1.
  pose proof (Z.mod_pos_bound l 86400 ltac:(lia)) as B1.
  pose proof (Z.div_mod (l mod 86400) 3600 ltac:(lia)) as H2.
  pose proof (Z.mod_pos_bound (l mod 86400) 3600 ltac:(lia)) as B2.
  assert (E1 : (l mod 86400) mod 3600 = l mod 3600).
  { apply mod_eq with (q := l / 3600 - 24 * (l / 86400)).
    - apply Z.mod_pos_bound; lia.
    - pose proof (Z.div_mod l 3600 ltac:(lia)). lia. }
  pose proof (Z.div_mod (l mod 3600) 60 ltac:(lia)) as H3.
  pose proof (Z.mod_pos_bound (l mod 3600) 60 ltac:(lia)) as B3.
  pose proof (Z.mod_pos_bound l 3600 ltac:(lia)) as B4.
  assert (E2 : (l mod 3600) mod 60 = l mod 60).
  { apply mod_eq with (q := l / 60 - 60 * (l / 3600)).
    - apply Z.mod_pos_bound; lia.
    - pose proof (Z.div_mod l 60 ltac:(lia)). pose proof (Z.div_mod l 3600 ltac:(lia)). lia. }
  assert (0 <= l mod 86400 / 3600) by (apply Z.div_pos; lia).
  assert (l mod 86400 / 3600 < 24) by (apply Z.div_lt_upper_bound; lia).
  assert (0 <= l mod 3600 / 60) by (apply Z.div_pos; lia).
  assert (l mod 3600 / 60 < 60) by (apply Z.div_lt_upper_bound; lia).
  lia.
Qed.

(** X4. For a zone that pytz knows, [convert_from_utc] answers a
    zero-padded five-character HH:MM string when the wall time of the
    instant in the zone is a datetime, and raises its ValueError when it is
    not (the zone being other than UTC); for any other zone name it raises
    the same ValueError. *)
Theorem convert_from_utc_format (E : Env) (utc_datetime : Z) (timezone_str : string) :
  (forall tz,
     pytz_timezone E timezone_str = Some tz ->
     Datetime.MIN <= utc_datetime + utcoffset tz utc_datetime <= Datetime.MAX ->
     exists t, convert_from_utc E utc_datetime timezone_str = Return t /\
               is_HHMM t = true /\ String.length t = 5%nat /\
               String.get 2 t = Some ":"%char) /\
  (forall tz,
     pytz_timezone E timezone_str = Some tz ->
     tz <> UTC ->
     ~ Datetime.MIN <= utc_datetime + utcoffset tz utc_datetime <= Datetime.MAX ->
     convert_from_utc E utc_datetime timezone_str
     = Raise (ValueError ("Invalid timezone: " ++ timezone_str))) /\
  (pytz_timezone E timezone_str = None ->
   convert_from_utc E utc_datetime timezone_str
   = Raise (ValueError ("Invalid timezone: " ++ timezone_str))).
Proof.
  split; [|split].
  - intros tz Hz Hr. rewrite (convert_from_utc_in E _ _ tz Hz (or_intror Hr)).
    eexists. split; [reflexivity|].
    destruct (wall_clock (utc_datetime + utcoffset tz utc_datetime)) as (Hh & Hm & _).
    unfold strftime_HM. split; [now apply is_HHMM_pad2|]. split; reflexivity.
  - intros tz Hz Hn Hr. exact (convert_from_utc_out E _ _ tz Hz Hn Hr).
  - intros Hz. unfold convert_from_utc. now rewrite Hz.
Qed.

Lemma convert_from_utc_format_witness :
  exists t, convert_from_utc Sample.env 1708005600 "America/New_York" = Return t /\
            is_HHMM t = true /\ String.length t = 5%nat /\
            String.get 2 t = Some ":"%char.
Proof.
  apply (proj1 (convert_from_utc_format Sample.env 1708005600 "America/New_York")
           Sample.new_york_2024);
    [reflexivity | vm_compute; split; discriminate].
Defined.

(** X5. Reading an instant in a zone and converting the reading back, on
    the local date of the instant, gives the instant with its seconds cut off,
    when [localize] attaches to that wall time the offset in force at the
    instant, and the instant is three days or more inside the range of
    [datetime]. *)
Theorem convert_from_utc_round_trip (E : Env) (utc_datetime : Z) (timezone_str : string)
    (tz : tzinfo) :
  pytz_timezone E timezone_str = Some tz ->
  -86400 < utcoffset tz utc_datetime < 86400 ->
  Datetime.MIN + 3 * 86400 <= utc_datetime <= Datetime.MAX - 3 * 86400 ->
  localize_utcoffset tz
    (utc_datetime + utcoffset tz utc_datetime
     - (utc_datetime + utcoffset tz utc_datetime) mod 60)
  = utcoffset tz utc_datetime ->
  exists t,
    convert_from_utc E utc_datetime timezone_str = Return t /\
    convert_to_utc E t (Calendar.date_of (utc_datetime + utcoffset tz utc_datetime))
      timezone_str
    = Return (utc_datetime - (utc_datetime + utcoffset tz utc_datetime) mod 60).
Proof.
  intros Hz Ho Hr Hoff.
  rewrite (convert_from_utc_in E _ _ tz Hz) by (right; lia).
  eexists. split; [reflexivity|].
  unfold convert_to_utc. rewrite Hz.
  set (l := utc_datetime + utcoffset tz utc_datetime) in *.
  destruct (wall_clock l) as (Hh & Hm & Hl).
  pose proof (Z.mod_pos_bound l 60 ltac:(lia)) as Hs.
  unfold strftime_HM. rewrite parse_time_pad2 by assumption.
  assert (Hc : Calendar.combine (Calendar.date_of l) (l mod 86400 / 3600) (l mod 3600 / 60)
               = l - l mod 60).
  { unfold Calendar.combine, Calendar.date_of. lia. }
  cbv zeta. rewrite Hc.
  assert (Hv : l - l mod 60 - utcoffset tz utc_datetime = utc_datetime - l mod 60)
    by (clear; subst l; ring).
  assert (Hl' : l = utc_datetime + utcoffset tz utc_datetime) by reflexivity.
  clearbody l. clear Hh Hm Hl Hc.
  destruct tz as [|offset|lt ut]; unfold localize, astimezone_UTC.
  - cbn [utcoffset localize_utcoffset] in *. f_equal. lia.
  - cbn [utcoffset localize_utcoffset] in *.
    rewrite Datetime_add_in by lia. f_equal. lia.
  - rewrite (Datetime_add_in _ (-86400)) by lia.
    rewrite (Datetime_add_in _ 86400) by lia.
    rewrite Hoff. rewrite Datetime_add_in by lia. f_equal. lia.
Qed.

Lemma convert_from_utc_round_trip_witness :
  exists t,
    convert_from_utc Sample.env 1708005659 "America/New_York" = Return t /\
    convert_to_utc Sample.env t (Calendar.ymd2ord 2024 2 15) "America/New_York"
    = Return 1708005600.
Proof.
  apply (convert_from_utc_round_trip Sample.env 1708005659 "America/New_York"
           Sample.new_york_2024);
    [reflexivity | vm_compute; split; reflexivity
    | vm_compute; split; discriminate | reflexivity].
Defined.

Lemma digit_of_bounds (c : ascii) (x : Z) : Py.digit_of c = Some x -> 0 <= x <= 9.
Proof. intros H. now apply digit_of_inv in H. Qed.

Lemma time_pattern_parse_time (t : string) :
  time_pattern t = true ->
  exists hour minute,
    parse_time t = Some (hour, minute) /\ 0 <= hour < 24 /\ 0 <= minute < 60.
Proof.
  unfold time_pattern, parse_time.
  destruct (Py.split ":" t) as [|h [|m [|x l]]]; try discriminate.
  intros H. apply andb_prop in H as [Hh Hm].
  assert (Hmin : exists minute, Py.int m = Some minute /\ 0 <= minute < 60).
  { destruct m as [|a [|b [|c m]]]; try discriminate Hm. cbn in Hm.
    destruct (Py.digit_of a) as [x|] eqn:Da; [|discriminate].
    destruct (Py.digit_of b) as [y|] eqn:Db; [|discriminate].
    apply Z.leb_le in Hm. apply digit_of_bounds in Da as Ba. apply digit_of_bounds in Db as Bb.
    exists (10 * x + y). rewrite (int_two_digits a b x y Da Db). split; [reflexivity | lia]. }
  assert (Hhour : exists hour, Py.int h = Some hour /\ 0 <= hour < 24).
  { destruct h as [|a [|b [|c h]]]; try discriminate Hh; cbn in Hh.
    - unfold Py.is_digit in Hh. destruct (Py.digit_of a) as [x|] eqn:Da; [|discriminate].
      apply digit_of_bounds in Da as Ba.
      exists x. rewrite (int_one_digit a x Da). split; [reflexivity | lia].
    - destruct (Py.digit_of a) as [x|] eqn:Da; [|discriminate].
      destruct (Py.digit_of b) as [y|] eqn:Db; [|discriminate].
      apply digit_of_bounds in Da as Ba. apply digit_of_bounds in Db as Bb.
      exists (10 * x + y). rewrite (int_two_digits a b x y Da Db). split; [reflexivity|].
      apply orb_prop in Hh as [Hh|Hh].
      + apply Z.leb_le in Hh. lia.
      + apply andb_prop in Hh as [P1 P2]. apply Z.eqb_eq in P1. apply Z.leb_le in P2. lia. }
  destruct Hmin as (minute & -> & Bm). destruct Hhour as (hour & -> & Bh).
  exists hour, minute.
  destruct (0 <=? hour) eqn:A0; [|apply Z.leb_gt in A0; lia].
  destruct (hour <? 24) eqn:A; [|apply Z.ltb_ge in A; lia].
  destruct (0 <=? minute) eqn:B0; [|apply Z.leb_gt in B0; lia].
  destruct (minute <? 60) eqn:B; [|apply Z.ltb_ge in B; lia].
  cbn. auto.
Qed.

(** X6. A time string that the model's pattern accepts, with or without a
    leading zero, converts in every zone that pytz knows, on every date from
    0001-01-02 to 9999-12-29: it becomes the wall time less the offset that
    [localize] attaches to it, which is also what any conversion that returns
    gives.  In an unknown zone [convert_to_utc] raises. *)
Theorem convert_to_utc_accepts_pattern (E : Env) (local_time : string)
    (date_obj : Calendar.date) (timezone_str : string) :
  time_pattern local_time = true ->
  (forall tz,
     pytz_timezone E timezone_str = Some tz ->
     exists hour minute,
       0 <= hour < 24 /\ 0 <= minute < 60 /\
       parse_time local_time = Some (hour, minute) /\
       (forall utc_dt,
          convert_to_utc E local_time date_obj timezone_str = Return utc_dt ->
          utc_dt = Calendar.combine date_obj hour minute
                   - localize_utcoffset tz (Calendar.combine date_obj hour minute)) /\
       (inner_date date_obj -> offsets_within_a_day tz ->
        convert_to_utc E local_time date_obj timezone_str
        = Return (Calendar.combine date_obj hour minute
                  - localize_utcoffset tz (Calendar.combine date_obj hour minute)))) /\
  (pytz_timezone E timezone_str = None ->
   convert_to_utc E local_time date_obj timezone_str
   = Raise (ValueError ("Invalid timezone or time format: " ++ timezone_str))).
Proof.
  intros Hp. destruct (time_pattern_parse_time _ Hp) as (hour & minute & Hparse & Bh & Bm).
  split.
  - intros tz Hz. exists hour, minute.
    split; [exact Bh|]. split; [exact Bm|]. split; [exact Hparse|]. split.
    + intros utc_dt C.
      exact (convert_to_utc_value E _ _ _ tz (hour, minute) utc_dt Hz Hparse C).
    + intros Hd Ho.
      destruct (convert_to_utc_inner E _ date_obj _ tz hour minute Hz Hparse Hd Ho)
        as (utc_dt & C & -> & _).
      exact C.
  - intros Hz. unfold convert_to_utc. now rewrite Hz.
Qed.

Lemma convert_to_utc_accepts_pattern_witness :
  exists hour minute,
    0 <= hour < 24 /\ 0 <= minute < 60 /\
    parse_time "9:05" = Some (hour, minute) /\
    convert_to_utc Sample.env "9:05" (Calendar.ymd2ord 2024 2 15) "America/New_York"
    = Return (Calendar.combine (Calendar.ymd2ord 2024 2 15) hour minute
              - localize_utcoffset Sample.new_york_2024
                  (Calendar.combine (Calendar.ymd2ord 2024 2 15) hour minute)).
Proof.
  destruct (proj1 (convert_to_utc_accepts_pattern Sample.env "9:05"
                     (Calendar.ymd2ord 2024 2 15) "America/New_York" eq_refl)
              Sample.new_york_2024 eq_refl)
    as (hour & minute & Bh & Bm & Hp & _ & C).
  exists hour, minute. split; [exact Bh|]. split; [exact Bm|]. split; [exact Hp|].
  apply C; [vm_compute; split; discriminate | exact new_york_2024_offsets].
Defined.

(** *** The slot generator *)

Lemma slot_loop_inv (E : Env) (a : ProviderAvailabilityDB.t) (end_dt : Z) :
  forall fuel cur acc w o w',
    slot_loop E fuel a end_dt cur acc w = (o, w') ->
    same_store w w' /\
    match o with
    | Return l =>
        exists new,
          l = acc ++ new /\
          chain (Calendar.minutes (ProviderAvailabilityDB.slot_duration a))
                (Calendar.minutes (ProviderAvailabilityDB.break_duration a))
                end_dt cur new /\
          Forall (generated_for a) new /\
          drawn_from E (uuid_drawn w) new /\
          uuid_drawn w' = (uuid_drawn w + List.length new)%nat
    | Raise e => e = OverflowError
    | Diverge => True
    end.
Proof.
  unfold drawn_from.
  induction fuel as [|fuel IH]; intros cur acc w o w' H.
  - cbn in H. unfold diverge in H. injection H as <- <-. split; [apply same_store_refl | exact I].
  - cbn [slot_loop] in H.
    destruct (cur <? end_dt) eqn:C1.
    + apply Z.ltb_lt in C1.
      destruct (Datetime.add cur _) as [slot_end|] eqn:A1.
      2:{ unfold raise in H. injection H as <- <-.
          split; [apply same_store_refl|reflexivity]. }
      apply Datetime_add_inv in A1 as [-> _].
      destruct (_ >? end_dt) eqn:C2.
      * unfold ret in H. injection H as <- <-. split; [apply same_store_refl|].
        exists []. rewrite app_nil_r, Nat.add_0_r.
        split; [reflexivity|]. split; [right; apply Z.gtb_lt in C2; lia|].
        split; [constructor|]. split; [|reflexivity].
        intros i s Hi. destruct i; discriminate.
      * rewrite Z.gtb_ltb in C2. apply Z.ltb_ge in C2.
        destruct (Datetime.add (cur + _) _) as [next|] eqn:A2.
        2:{ revert H. run_monad. intros H. injection H as <- <-.
            split; [now split|reflexivity]. }
        apply Datetime_add_inv in A2 as [-> _].
        revert H. run_monad. intros H.
        apply IH in H as [St H]. cbn in St. split; [exact St|].
        destruct o as [l| |]; auto.
        destruct H as (new & -> & Ch & Fa & Dr & Hu). cbn in Dr, Hu.
        eexists (_ :: new). rewrite <- app_assoc. split; [reflexivity|].
        split; [cbn -[Calendar.minutes]; auto|].
        split; [constructor; [repeat split|exact Fa]|].
        split.
        -- intros i s Hi. destruct i as [|i]; cbn in Hi.
           ++ injection Hi as <-. cbn. now rewrite Nat.add_0_r.
           ++ rewrite (Dr i s Hi). f_equal. lia.
        -- rewrite Hu. cbn. lia.
    + unfold ret in H. injection H as <- <-. split; [apply same_store_refl|].
      apply Z.ltb_ge in C1.
      exists []. rewrite app_nil_r, Nat.add_0_r.
      split; [reflexivity|]. split; [now left|].
      split; [constructor|]. split; [|reflexivity].
      intros i s Hi. destruct i; discriminate.
Qed.

Lemma generate_slots_inv (E : Env) (a : ProviderAvailabilityDB.t) (w : World)
    (slots : list AppointmentSlot.t) (w' : World) :
  generate_slots_from_availability E a w = (Return slots, w') ->
  exists start_dt end_dt,
    convert_to_utc E (ProviderAvailabilityDB.start_time a) (ProviderAvailabilityDB.date a)
      (ProviderAvailabilityDB.timezone a) = Return start_dt /\
    convert_to_utc E (ProviderAvailabilityDB.end_time a) (ProviderAvailabilityDB.date a)
      (ProviderAvailabilityDB.timezone a) = Return end_dt /\
    chain (Calendar.minutes (ProviderAvailabilityDB.slot_duration a))
          (Calendar.minutes (ProviderAvailabilityDB.break_duration a))
          end_dt start_dt slots /\
    Forall (generated_for a) slots /\
    drawn_from E (uuid_drawn w) slots /\
    uuid_drawn w' = (uuid_drawn w + List.length slots)%nat /\
    same_store w w'.
Proof.
  unfold generate_slots_from_availability.
  destruct (convert_to_utc E (ProviderAvailabilityDB.start_time a) _ _) as [start_dt| |];
    cbv beta iota delta [bind lift]; try discriminate.
  destruct (convert_to_utc E (ProviderAvailabilityDB.end_time a) _ _) as [end_dt| |];
    try discriminate.
  intros H. apply slot_loop_inv in H as [St (new & -> & Ch & Fa & Dr & Hu)].
  exists start_dt, end_dt. cbn [app]. repeat split; auto; apply St.
Qed.

Lemma chain_length (D B end_dt : Z) :
  0 < D -> 0 <= B ->
  forall l cur, chain D B end_dt cur l ->
    Z.of_nat (List.length l) = Z.max 0 ((end_dt - cur + B) / (D + B)).
Proof.
  intros HD HB. induction l as [|s l IH]; intros cur H.
  - cbn in H. cbn [List.length Z.of_nat].
    assert ((end_dt - cur + B) / (D + B) < 1) by (apply Z.div_lt_upper_bound; lia). lia.
  - cbn [chain] in H. destruct H as (H1 & _ & _ & H). apply IH in H.
    cbn [List.length]. rewrite Nat2Z.inj_succ, H.
    replace (end_dt - (cur + D + B) + B) with (end_dt - cur + B + (-1) * (D + B)) by lia.
    rewrite Z.div_add by lia.
    assert (1 <= (end_dt - cur + B) / (D + B)) by (apply Z.div_le_lower_bound; lia). lia.
Qed.

(** X7. The number of slots cut from a window, with breaks: between the
    UTC instants [start_dt] and [end_dt], the first being a datetime and the
    second still one when moved by a slot or by a break, the generator cuts
    [(end_dt - start_dt + break) / (slot + break)] slots (none when the window
    is empty or reversed), the [i]-th one starting [i] periods after
    [start_dt]; the store is not touched. *)
Theorem slot_count_with_breaks (E : Env) (availability : ProviderAvailabilityDB.t)
    (start_dt end_dt : Z) (w : World) :
  convert_to_utc E (ProviderAvailabilityDB.start_time availability)
    (ProviderAvailabilityDB.date availability)
    (ProviderAvailabilityDB.timezone availability) = Return start_dt ->
  convert_to_utc E (ProviderAvailabilityDB.end_time availability)
    (ProviderAvailabilityDB.date availability)
    (ProviderAvailabilityDB.timezone availability) = Return end_dt ->
  0 < ProviderAvailabilityDB.slot_duration availability ->
  0 <= ProviderAvailabilityDB.break_duration availability ->
  Datetime.MIN <= start_dt ->
  end_dt + 60 * ProviderAvailabilityDB.slot_duration availability <= Datetime.MAX ->
  end_dt + 60 * ProviderAvailabilityDB.break_duration availability <= Datetime.MAX ->
  exists slots w',
    generate_slots_from_availability E availability w = (Return slots, w') /\
    Z.of_nat (List.length slots)
    = Z.max 0 ((end_dt - start_dt + 60 * ProviderAvailabilityDB.break_duration availability)
               / (60 * ProviderAvailabilityDB.slot_duration availability
                  + 60 * ProviderAvailabilityDB.break_duration availability)) /\
    (forall i s, nth_error slots i = Some s ->
       AppointmentSlot.slot_start_time s
       = start_dt + Z.of_nat i * (60 * ProviderAvailabilityDB.slot_duration availability
                                  + 60 * ProviderAvailabilityDB.break_duration availability) /\
       AppointmentSlot.slot_end_time s
       = AppointmentSlot.slot_start_time s
         + 60 * ProviderAvailabilityDB.slot_duration availability) /\
    same_store w w'.
Proof.
  intros Hs He HD HB Hmin HMD HMB.
  destruct (generate_slots_run E availability start_dt end_dt w Hs He HD HB)
    as (slots & w' & R & Ch & St); [repeat split; assumption|].
  exists slots, w'. split; [exact R|]. unfold Calendar.minutes in Ch.
  split; [apply (chain_length _ _ end_dt); [lia | lia | exact Ch]|].
  split; [|exact St].
  intros i s Hi. destruct (chain_nth _ _ _ _ _ _ _ Ch Hi) as [A B]. lia.
Qed.

Lemma slot_count_with_breaks_witness :
  exists slots w',
    generate_slots_from_availability Sample.env (Sample.stored Scenario.with_breaks)
      Sample.empty_world = (Return slots, w') /\
    Z.of_nat (List.length slots)
    = Z.max 0 ((1708012800 - 1708005600 + 60 * 15) / (60 * 30 + 60 * 15)) /\
    (forall i s, nth_error slots i = Some s ->
       AppointmentSlot.slot_start_time s = 1708005600 + Z.of_nat i * (60 * 30 + 60 * 15) /\
       AppointmentSlot.slot_end_time s = AppointmentSlot.slot_start_time s + 60 * 30) /\
    same_store Sample.empty_world w'.
Proof.
  apply (slot_count_with_breaks Sample.env (Sample.stored Scenario.with_breaks)
           1708005600 1708012800 Sample.empty_world);
    [reflexivity | reflexivity | cbn; lia | cbn; lia
    | vm_compute; discriminate | vm_compute; discriminate | vm_compute; discriminate].
Defined.

(** *** Create *)

Lemma store_slots_counters (db : ProviderAvailabilityDB.t) (slots : list AppointmentSlot.t) :
  forall counters w,
    exists w',
      store_slots db slots counters w
      = (Return (fst counters + Z.of_nat (List.length slots),
                 snd counters + Z.of_nat (List.length slots)
                                * ProviderAvailabilityDB.max_appointments_per_slot db), w') /\
      PROVIDER_AVAILABILITY w' = PROVIDER_AVAILABILITY w /\
      APPOINTMENT_SLOTS w' = APPOINTMENT_SLOTS w ++ map AppointmentSlot_dict slots.
Proof.
  induction slots as [|slot slots IH]; intros [c1 c2] w.
  - exists w. cbn [store_slots List.length map fst snd Z.of_nat]. unfold ret.
    rewrite app_nil_r, Z.mul_0_l, !Z.add_0_r. repeat split.
  - cbn [store_slots]. unfold add_appointment_slot, modify, ret, bind.
    cbv beta iota.
    match goal with
    | |- context [store_slots db slots ?c ?w0] =>
        destruct (IH c w0) as (w' & R & Hp & Hs)
    end.
    rewrite R. exists w'. cbn [fst snd] in *. split.
    + do 2 f_equal. cbn [List.length]. rewrite Nat2Z.inj_succ. f_equal; lia.
    + cbn in Hp, Hs. cbn [List.length map]. rewrite Hs, <- app_assoc. split; auto.
Qed.

Lemma bind_eq {A B} (m : M A) (k : A -> M B) (w : World) :
  bind m k w
  = match m w with
    | (Return a, w') => k a w'
    | (Raise e, w') => (Raise e, w')
    | (Diverge, w') => (Diverge, w')
    end.
Proof. reflexivity. Qed.

Lemma bind_new_db {B} (E : Env) (c : ProviderAvailabilityCreate.t) (d : Calendar.date)
    (k : ProviderAvailabilityDB.t -> M B) (w : World) :
  bind (new_ProviderAvailabilityDB E c d) k w
  = k (copy_of c d (uuid4_at E (uuid_drawn w)) (utcnow_at E (clock_read w))
         (utcnow_at E (S (clock_read w))))
      {| PROVIDER_AVAILABILITY := PROVIDER_AVAILABILITY w;
         APPOINTMENT_SLOTS := APPOINTMENT_SLOTS w;
         uuid_drawn := S (uuid_drawn w);
         clock_read := S (S (clock_read w)) |}.
Proof. reflexivity. Qed.

Lemma generate_slots_same (E : Env) (a : ProviderAvailabilityDB.t) (w : World)
    (o : outcome (list AppointmentSlot.t)) (w' : World) :
  generate_slots_from_availability E a w = (o, w') -> same_store w w'.
Proof.
  unfold generate_slots_from_availability. cbv beta iota delta [bind lift].
  destruct (convert_to_utc E (ProviderAvailabilityDB.start_time a) _ _);
    try (intros H; injection H as _ <-; apply same_store_refl).
  destruct (convert_to_utc E (ProviderAvailabilityDB.end_time a) _ _);
    try (intros H; injection H as _ <-; apply same_store_refl).
  intros H. now apply slot_loop_inv in H.
Qed.

Lemma recurring_loop_inv (E : Env) (c : ProviderAvailabilityCreate.t) :
  forall dates acc w o w',
    recurring_loop E c dates acc w = (o, w') -> same_store w w'.
Proof.
  induction dates as [|d dates IH]; intros acc w o w' H.
  - cbn in H. unfold ret in H. injection H as _ <-. apply same_store_refl.
  - cbn [recurring_loop] in H. rewrite bind_new_db, bind_eq in H.
    match type of H with
    | context [generate_slots_from_availability E ?db ?w0] =>
        destruct (generate_slots_from_availability E db w0) as [[slots|e|] w1] eqn:G
    end; apply generate_slots_same in G; cbn in G.
    + apply IH in H. eapply same_store_trans; [exact G | exact H].
    + injection H as _ <-. exact G.
    + injection H as _ <-. exact G.
Qed.

Lemma generate_recurring_same (E : Env) (a : ProviderAvailabilityCreate.t) (w : World)
    (o : outcome (list (ProviderAvailabilityDB.t * list AppointmentSlot.t))) (w' : World) :
  generate_recurring_slots E a w = (o, w') -> same_store w w'.
Proof.
  unfold generate_recurring_slots.
  destruct (ProviderAvailabilityCreate.is_recurring a),
           (ProviderAvailabilityCreate.recurrence_pattern a),
           (ProviderAvailabilityCreate.recurrence_end_date a);
    try (unfold ret; intros H; injection H as _ <-; apply same_store_refl).
  apply recurring_loop_inv.
Qed.

(** The ways in which a creation returns. *)
Lemma create_cases (E : Env) (a : ProviderAvailabilityCreate.t) (w : World)
    (r : Response CreateData) (w' : World) :
  create_provider_availability E a w = (Return r, w') ->
  (r = Failure "End time must be after start time" 400 /\ w' = w /\
   String_geb (ProviderAvailabilityCreate.start_time a)
              (ProviderAvailabilityCreate.end_time a) = true) \/
  (r = Failure "Time slot conflicts with existing availability" 409 /\ w' = w /\
   ProviderAvailabilityCreate.is_recurring a = false) \/
  (r = Failure "Failed to create availability slots" 500 /\
   (same_store w w' \/
    (ProviderAvailabilityCreate.is_recurring a = false /\
     APPOINTMENT_SLOTS w' = APPOINTMENT_SLOTS w /\
     PROVIDER_AVAILABILITY w'
     = PROVIDER_AVAILABILITY w
       ++ [copy_of a (ProviderAvailabilityCreate.date a) (uuid4_at E (uuid_drawn w))
             (utcnow_at E (clock_read w)) (utcnow_at E (S (clock_read w)))] /\
     exists start_dt end_dt,
       convert_to_utc E (ProviderAvailabilityCreate.start_time a)
         (ProviderAvailabilityCreate.date a) (ProviderAvailabilityCreate.timezone a)
       = Return start_dt /\
       convert_to_utc E (ProviderAvailabilityCreate.end_time a)
         (ProviderAvailabilityCreate.date a) (ProviderAvailabilityCreate.timezone a)
       = Return end_dt /\
       check_slot_conflicts w (ProviderAvailabilityCreate.provider_id a) start_dt end_dt None
       = false))) \/
  (ProviderAvailabilityCreate.is_recurring a = false /\
   String_geb (ProviderAvailabilityCreate.start_time a)
              (ProviderAvailabilityCreate.end_time a) = false /\
   exists start_dt end_dt slots w0 w1,
     convert_to_utc E (ProviderAvailabilityCreate.start_time a)
       (ProviderAvailabilityCreate.date a) (ProviderAvailabilityCreate.timezone a)
     = Return start_dt /\
     convert_to_utc E (ProviderAvailabilityCreate.end_time a)
       (ProviderAvailabilityCreate.date a) (ProviderAvailabilityCreate.timezone a)
     = Return end_dt /\
     check_slot_conflicts w (ProviderAvailabilityCreate.provider_id a) start_dt end_dt None
     = false /\
     PROVIDER_AVAILABILITY w0
     = PROVIDER_AVAILABILITY w
       ++ [copy_of a (ProviderAvailabilityCreate.date a) (uuid4_at E (uuid_drawn w))
             (utcnow_at E (clock_read w)) (utcnow_at E (S (clock_read w)))] /\
     APPOINTMENT_SLOTS w0 = APPOINTMENT_SLOTS w /\
     uuid_drawn w0 = S (uuid_drawn w) /\
     generate_slots_from_availability E
       (copy_of a (ProviderAvailabilityCreate.date a) (uuid4_at E (uuid_drawn w))
          (utcnow_at E (clock_read w)) (utcnow_at E (S (clock_read w)))) w0
     = (Return slots, w1) /\
     PROVIDER_AVAILABILITY w' = PROVIDER_AVAILABILITY w1 /\
     APPOINTMENT_SLOTS w' = APPOINTMENT_SLOTS w1 ++ map AppointmentSlot_dict slots /\
     r = Success (Some "Availability slots created successfully")
           {| availability_id := uuid4_at E (uuid_drawn w);
              slots_created := Z.of_nat (List.length slots);
              date_range :=
                (Calendar.isoformat (ProviderAvailabilityCreate.date a),
                 Calendar.isoformat (ProviderAvailabilityCreate.date a));
              total_appointments_available :=
                Z.of_nat (List.length slots)
                * ProviderAvailabilityCreate.max_appointments_per_slot a |}) \/
  (ProviderAvailabilityCreate.is_recurring a = true /\
   exists data, r = Success (Some "Availability slots created successfully") data).
Proof.
  unfold create_provider_availability, try_except.
  destruct (String_geb _ _) eqn:Hgeb.
  { unfold ret. intros H. injection H as <- <-. left. auto. }
  rewrite bind_eq.
  destruct (ProviderAvailabilityCreate.is_recurring a) eqn:Hrec; cbn [negb].
  - (* recurring *)
    unfold ret at 1. cbv beta iota. rewrite bind_eq.
    destruct (generate_recurring_slots E a w) as [[results|e|] w1] eqn:G.
    + rewrite bind_eq.
      destruct (store_recurring_run results (0, 0) w1) as (c & w2 & R & _ & Hp & Hs).
      rewrite R.
      destruct (ProviderAvailabilityCreate.recurrence_end_date a) as [until|] eqn:Hend.
      * unfold ret. intros H. injection H as <- <-. do 4 right. split; [reflexivity|].
        now eexists.
      * unfold raise, ret. intros H. injection H as <- <-. right. right. left.
        split; [reflexivity|]. left.
        unfold generate_recurring_slots in G. rewrite Hrec, Hend in G.
        assert (results = [] /\ w1 = w) as [-> ->].
        { destruct (ProviderAvailabilityCreate.recurrence_pattern a);
            unfold ret in G; injection G as <- <-; auto. }
        cbn in R. unfold ret in R. injection R as _ <-. apply same_store_refl.
    + unfold ret. intros H. injection H as <- <-. right. right. left.
      split; [reflexivity|]. left. eapply generate_recurring_same. exact G.
    + discriminate.
  - (* a single window *)
    rewrite bind_eq. unfold lift at 1.
    destruct (convert_to_utc E (ProviderAvailabilityCreate.start_time a) _ _)
      as [start_dt|e|] eqn:Cs.
    2:{ unfold ret. intros H. injection H as <- <-. right. right. left.
        split; [reflexivity | left; apply same_store_refl]. }
    2:{ discriminate. }
    rewrite bind_eq. unfold lift at 1.
    destruct (convert_to_utc E (ProviderAvailabilityCreate.end_time a) _ _)
      as [end_dt|e|] eqn:Ce.
    2:{ unfold ret. intros H. injection H as <- <-. right. right. left.
        split; [reflexivity | left; apply same_store_refl]. }
    2:{ discriminate. }
    unfold gets at 1.
    destruct (check_slot_conflicts w _ start_dt end_dt None) eqn:Hc.
    { unfold ret. intros H. injection H as <- <-. right. left. auto. }
    rewrite bind_new_db. rewrite bind_eq.
    unfold add_provider_availability at 1. rewrite bind_eq. unfold modify at 1, ret at 1.
    cbv beta iota. rewrite bind_eq.
    match goal with
    | |- context [generate_slots_from_availability E ?db ?w0] =>
        set (w0' := w0);
        destruct (generate_slots_from_availability E db w0') as [[slots|e|] w1] eqn:G
    end.
    + rewrite bind_eq.
      match goal with
      | |- context [store_slots ?db slots (0, 0) w1] =>
          destruct (store_slots_counters db slots (0, 0) w1) as (w2 & R & Hp & Hs)
      end.
      rewrite R. unfold ret. intros H. injection H as <- <-.
      do 3 right. left. split; [reflexivity|]. split; [reflexivity|].
      exists start_dt, end_dt, slots, w0', w1.
      repeat split; auto.
    + (* the generator raises: the record is in the store already *)
      apply generate_slots_same in G as [Gp Gs]. subst w0'.
      cbn [PROVIDER_AVAILABILITY APPOINTMENT_SLOTS set_PROVIDER_AVAILABILITY] in Gp, Gs.
      unfold ret. intros H. injection H as <- <-. right. right. left.
      split; [reflexivity|]. right. split; [reflexivity|]. split; [exact Gs|].
      split; [exact Gp|]. now exists start_dt, end_dt.
    + discriminate.
Qed.

(** X8. What a successful creation of a single window stores: one record,
    the copy of the request under a fresh id, and the generated slots after
    the slots already there; the counters of the answer count those slots.
    Every new slot is open and carries no pricing and no notes, whatever the
    status and the pricing of the request. *)
Theorem create_single_effect (E : Env) (availability : ProviderAvailabilityCreate.t)
    (w w' : World) (message : option string) (data : CreateData) :
  ProviderAvailabilityCreate.is_recurring availability = false ->
  create_provider_availability E availability w = (Return (Success message data), w') ->
  exists new_slots,
    availability_id data = uuid4_at E (uuid_drawn w) /\
    PROVIDER_AVAILABILITY w'
    = PROVIDER_AVAILABILITY w
      ++ [copy_of availability (ProviderAvailabilityCreate.date availability)
            (availability_id data) (utcnow_at E (clock_read w))
            (utcnow_at E (S (clock_read w)))] /\
    APPOINTMENT_SLOTS w' = APPOINTMENT_SLOTS w ++ new_slots /\
    slots_created data = Z.of_nat (List.length new_slots) /\
    total_appointments_available data
    = slots_created data * ProviderAvailabilityCreate.max_appointments_per_slot availability /\
    date_range data
    = (Calendar.isoformat (ProviderAvailabilityCreate.date availability),
       Calendar.isoformat (ProviderAvailabilityCreate.date availability)) /\
    (forall i s, nth_error new_slots i = Some s ->
       SlotDict.id s = uuid4_at E (S (uuid_drawn w) + i) /\
       SlotDict.availability_id s = availability_id data /\
       SlotDict.provider_id s = ProviderAvailabilityCreate.provider_id availability /\
       SlotDict.appointment_type s
       = AppointmentType_value (ProviderAvailabilityCreate.appointment_type availability) /\
       SlotDict.status s = AVAILABLE /\
       SlotDict.patient_id s = None /\
       SlotDict.pricing s = None /\
       SlotDict.notes s = None).
Proof.
  intros Hrec H. apply create_cases in H.
  destruct H as [(H & _)|[(H & _)|[(H & _)|[H|(H & _)]]]]; try discriminate H;
    try congruence.
  destruct H as (_ & _ & start_dt & end_dt & slots & w0 & w1 & _ & _ & _ & Hp0 & Hs0 & Hu0
                 & G & Hp & Hs & R).
  injection R as _ ->. cbn [availability_id slots_created total_appointments_available
                            date_range].
  apply generate_slots_inv in G as (_ & _ & _ & _ & _ & Fa & Dr & _ & [Sp Ss]).
  exists (map AppointmentSlot_dict slots).
  rewrite Hp, Hs, Sp, Ss, Hp0, Hs0, length_map. repeat split.
  all: rewrite nth_error_map in H; destruct (nth_error slots i) as [x|] eqn:Hi;
    [|discriminate]; injection H as <-; cbn.
  1: rewrite (Dr i x Hi), Hu0; reflexivity.
  all: rewrite Forall_forall in Fa; apply nth_error_In in Hi;
    destruct (Fa x Hi) as (A & B & C & D & F & G); cbn in *; auto.
Qed.

Lemma create_single_effect_witness :
  exists new_slots,
    APPOINTMENT_SLOTS
      (snd (create_provider_availability Sample.env Scenario.group_session
              Sample.seeded_world))
    = Sample.seed_slots ++ new_slots /\
    4 = Z.of_nat (List.length new_slots) /\
    12 = 4 * 3 /\
    (forall i s, nth_error new_slots i = Some s ->
       SlotDict.status s = AVAILABLE /\ SlotDict.pricing s = None).
Proof.
  destruct (create_single_effect Sample.env Scenario.group_session Sample.seeded_world
              (snd (create_provider_availability Sample.env Scenario.group_session
                      Sample.seeded_world))
              (Some "Availability slots created successfully")
              {| availability_id := "uuid-0"; slots_created := 4;
                 date_range := ("2024-02-16", "2024-02-16");
                 total_appointments_available := 12 |}
              eq_refl)
    as (new_slots & _ & _ & Hs & Hn & Ht & _ & Hf).
  - vm_compute. reflexivity.
  - exists new_slots. split; [exact Hs|]. split; [exact Hn|]. split; [exact Ht|].
    intros i s Hi. destruct (Hf i s Hi) as (_ & _ & _ & _ & A & _ & B & _). auto.
Defined.

(** X9. A creation that is refused stores no slot, and its status code is
    400, 409 or 500.  It stores no record either, with one exception: a
    single window whose slot generator leaves the range of [datetime] is
    answered 500 after its record was stored, and the record stays. *)
Theorem create_failure_effect (E : Env) (availability : ProviderAvailabilityCreate.t)
    (w w' : World) (message : string) (status_code : Z) :
  create_provider_availability E availability w
  = (Return (Failure message status_code), w') ->
  APPOINTMENT_SLOTS w' = APPOINTMENT_SLOTS w /\
  (status_code = 400 \/ status_code = 409 \/ status_code = 500) /\
  (PROVIDER_AVAILABILITY w' = PROVIDER_AVAILABILITY w \/
   (status_code = 500 /\
    ProviderAvailabilityCreate.is_recurring availability = false /\
    PROVIDER_AVAILABILITY w'
    = PROVIDER_AVAILABILITY w
      ++ [copy_of availability (ProviderAvailabilityCreate.date availability)
            (uuid4_at E (uuid_drawn w)) (utcnow_at E (clock_read w))
            (utcnow_at E (S (clock_read w)))])).
Proof.
  intros H. apply create_cases in H.
  destruct H as [(H & -> & _)|[(H & -> & _)|[(H & St)|[H|(_ & data & H)]]]].
  - injection H as _ ->. auto.
  - injection H as _ ->. auto 6.
  - injection H as _ ->.
    destruct St as [[Sp Ss]|(Hrec & Ss & Sp & _)].
    + auto 6.
    + split; [exact Ss|]. split; [auto|]. right. auto.
  - destruct H as (_ & _ & ? & ? & ? & ? & ? & H). decompose [and] H. discriminate.
  - discriminate.
Qed.

Lemma create_failure_effect_witness :
  (APPOINTMENT_SLOTS
     (snd (create_provider_availability Sample.env Scenario.last_evening
             Sample.seeded_world))
   = APPOINTMENT_SLOTS Sample.seeded_world /\
   (500 = 400 \/ 500 = 409 \/ 500 = 500) /\
   (PROVIDER_AVAILABILITY
      (snd (create_provider_availability Sample.env Scenario.last_evening
              Sample.seeded_world))
    = PROVIDER_AVAILABILITY Sample.seeded_world \/
    (500 = 500 /\
     ProviderAvailabilityCreate.is_recurring Scenario.last_evening = false /\
     PROVIDER_AVAILABILITY
       (snd (create_provider_availability Sample.env Scenario.last_evening
               Sample.seeded_world))
     = PROVIDER_AVAILABILITY Sample.seeded_world
       ++ [copy_of Scenario.last_evening (Calendar.ymd2ord 9999 12 31)
             (uuid4_at Sample.env 0) (utcnow_at Sample.env 0) (utcnow_at Sample.env 1)]))) /\
  Validation.accepts Scenario.last_evening = true /\
  List.length
    (PROVIDER_AVAILABILITY
       (snd (create_provider_availability Sample.env Scenario.last_evening
               Sample.seeded_world))) = 2%nat.
Proof.
  split; [|split; reflexivity].
  apply (create_failure_effect Sample.env Scenario.last_evening Sample.seeded_world
           (snd (create_provider_availability Sample.env Scenario.last_evening
                   Sample.seeded_world))
           "Failed to create availability slots" 500).
  vm_compute. reflexivity.
Defined.

(** X10. Creation is not idempotent: once a single window has been created
    and has produced a slot, the same request is refused with 409 and changes
    nothing. *)
Theorem create_twice_conflicts (E : Env) (availability : ProviderAvailabilityCreate.t)
    (w w1 : World) (message : option string) (data : CreateData) :
  ProviderAvailabilityCreate.is_recurring availability = false ->
  0 < ProviderAvailabilityCreate.slot_duration availability ->
  create_provider_availability E availability w = (Return (Success message data), w1) ->
  0 < slots_created data ->
  create_provider_availability E availability w1
  = (Return (Failure "Time slot conflicts with existing availability" 409), w1).
Proof.
  intros Hrec HD H Hn. apply create_cases in H.
  destruct H as [(H & _)|[(H & _)|[(H & _)|[H|(H & _)]]]]; try discriminate H;
    try congruence.
  destruct H as (_ & Hgeb & start_dt & end_dt & slots & w0 & w2 & Cs & Ce & _ & _ & _ & _
                 & G & _ & Hs & R).
  injection R as _ ->. cbn [slots_created] in Hn.
  apply generate_slots_inv in G as (s' & e' & Cs' & Ce' & Ch & Fa & _).
  cbn [copy_of ProviderAvailabilityDB.start_time ProviderAvailabilityDB.end_time
       ProviderAvailabilityDB.date ProviderAvailabilityDB.timezone
       ProviderAvailabilityDB.slot_duration ProviderAvailabilityDB.break_duration]
    in Cs', Ce', Ch.
  assert (s' = start_dt) as -> by congruence.
  assert (e' = end_dt) as -> by congruence.
  destruct slots as [|first rest]; [cbn in Hn; lia|].
  cbn [chain] in Ch. destruct Ch as (Hfit & Hfs & Hfe & _).
  apply Forall_inv in Fa. destruct Fa as (_ & Hprov & _).
  cbn [copy_of ProviderAvailabilityDB.provider_id] in Hprov.
  unfold create_provider_availability, try_except.
  rewrite Hgeb, Hrec. cbn [negb]. rewrite bind_eq, bind_eq, Cs. unfold lift at 1.
  cbv beta iota. rewrite bind_eq, Ce. unfold lift at 1, gets at 1. cbv beta iota.
  assert (C : check_slot_conflicts w1 (ProviderAvailabilityCreate.provider_id availability)
                start_dt end_dt None = true).
  { apply check_slot_conflicts_iff. exists (AppointmentSlot_dict first).
    split; [rewrite Hs; apply in_or_app; right; now left|].
    split; [right; exact Hprov|]. split; [now left|].
    unfold overlaps. cbn. unfold Calendar.minutes in *. lia. }
  rewrite C. reflexivity.
Qed.

Lemma create_twice_conflicts_witness :
  create_provider_availability Sample.env Sample.morning
    (snd (create_provider_availability Sample.env Sample.morning Sample.empty_world))
  = (Return (Failure "Time slot conflicts with existing availability" 409),
     snd (create_provider_availability Sample.env Sample.morning Sample.empty_world)).
Proof.
  apply (create_twice_conflicts Sample.env Sample.morning Sample.empty_world
           (snd (create_provider_availability Sample.env Sample.morning Sample.empty_world))
           (Some "Availability slots created successfully")
           {| availability_id := "uuid-0"; slots_created := 4;
              date_range := ("2024-02-15", "2024-02-15");
              total_appointments_available := 4 |}).
  - reflexivity.
  - reflexivity.
  - vm_compute. reflexivity.
  - reflexivity.
Defined.

(** X11. A request flagged as recurring that lacks its end date is answered
    500 and stores nothing; one that has the end date but no pattern is
    answered as a success with no slot created, and stores nothing either. *)
Theorem create_recurring_missing_fields (E : Env)
    (availability : ProviderAvailabilityCreate.t) (w : World) :
  ProviderAvailabilityCreate.is_recurring availability = true ->
  String.ltb (ProviderAvailabilityCreate.start_time availability)
             (ProviderAvailabilityCreate.end_time availability) = true ->
  (ProviderAvailabilityCreate.recurrence_end_date availability = None ->
   create_provider_availability E availability w
   = (Return (Failure "Failed to create availability slots" 500), w)) /\
  (forall recurrence_end_date,
     ProviderAvailabilityCreate.recurrence_end_date availability = Some recurrence_end_date ->
     ProviderAvailabilityCreate.recurrence_pattern availability = None ->
     create_provider_availability E availability w
     = (Return (Success (Some "Availability slots created successfully")
                  {| availability_id := "multiple";
                     slots_created := 0;
                     date_range :=
                       (Calendar.isoformat (ProviderAvailabilityCreate.date availability),
                        Calendar.isoformat recurrence_end_date);
                     total_appointments_available := 0 |}), w)).
Proof.
  intros Hrec Hlt.
  unfold create_provider_availability, try_except, String_geb, generate_recurring_slots.
  rewrite Hlt, Hrec. cbn [negb]. split.
  - intros ->. destruct (ProviderAvailabilityCreate.recurrence_pattern availability);
      reflexivity.
  - intros d -> ->. reflexivity.
Qed.

Lemma create_recurring_missing_fields_witness :
  create_provider_availability Sample.env Scenario.open_ended Sample.seeded_world
  = (Return (Failure "Failed to create availability slots" 500), Sample.seeded_world).
Proof.
  exact (proj1 (create_recurring_missing_fields Sample.env Scenario.open_ended
                  Sample.seeded_world eq_refl eq_refl) eq_refl).
Defined.

(** *** Validation by the model, and what it guarantees to create *)

Lemma leb_false_ltb (a b : string) : String.leb a b = false <-> String.ltb b a = true.
Proof.
  unfold String.leb, String.ltb. rewrite (String.compare_antisym a b).
  destruct (String.compare b a); cbn; split; congruence.
Qed.

Lemma accepts_errors (a : ProviderAvailabilityCreate.t) :
  Validation.accepts a = true <-> Validation.errors a = [].
Proof.
  unfold Validation.accepts. destruct (Validation.errors a); split; congruence.
Qed.

Lemma app_nil_iff {A} (l1 l2 : list A) : l1 ++ l2 = [] <-> l1 = [] /\ l2 = [].
Proof.
  split; [apply app_eq_nil | intros [-> ->]; reflexivity].
Qed.

Lemma nil_if_ok (b : bool) (x : string) : (if b then [] else [x]) = [] <-> b = true.
Proof. destruct b; split; congruence. Qed.

Lemma nil_if_bad (b : bool) (x : string) : (if b then [x] else []) = [] <-> b = false.
Proof. destruct b; split; congruence. Qed.

Ltac unfold_accepts :=
  rewrite accepts_errors; unfold Validation.errors;
  rewrite !app_nil_iff, !nil_if_ok, !nil_if_bad;
  unfold Validation.validate_end_time, Validation.validate_recurring_fields,
    Validation.validate_recurrence_end_date;
  cbn [Validation.date Validation.start_time Validation.recurrence_pattern
       Validation.recurrence_end_date];
  rewrite !andb_true_iff, !Z.leb_le.

(** What the checks of the model leave of a request. *)
Lemma accepts_inv (a : ProviderAvailabilityCreate.t) :
  Validation.accepts a = true ->
  time_pattern (ProviderAvailabilityCreate.start_time a) = true /\
  time_pattern (ProviderAvailabilityCreate.end_time a) = true /\
  String.ltb (ProviderAvailabilityCreate.start_time a)
             (ProviderAvailabilityCreate.end_time a) = true /\
  ProviderAvailabilityCreate.is_recurring a = false /\
  (forall e, ProviderAvailabilityCreate.recurrence_end_date a = Some e ->
             ProviderAvailabilityCreate.date a < e) /\
  15 <= ProviderAvailabilityCreate.slot_duration a <= 480 /\
  0 <= ProviderAvailabilityCreate.break_duration a <= 120 /\
  1 <= ProviderAvailabilityCreate.max_appointments_per_slot a <= 10 /\
  (forall p, ProviderAvailabilityCreate.pricing a = Some p -> (0 <= Pricing.base_fee p)%Q) /\
  (forall n, ProviderAvailabilityCreate.notes a = Some n -> (String.length n <= 500)%nat).
Proof.
  unfold_accepts.
  intros (Ps & [Pe Hle] & Hrec & Hend & HD & HB & HM & Hp & Hn).
  rewrite Ps in Hle. apply negb_true_iff, leb_false_ltb in Hle.
  split; [exact Ps|]. split; [exact Pe|]. split; [exact Hle|].
  split; [destruct (ProviderAvailabilityCreate.is_recurring a); congruence|].
  split; [intros e He; rewrite He in Hend; apply Z.leb_gt in Hend; exact Hend|].
  split; [exact HD|]. split; [exact HB|]. split; [exact HM|]. split.
  + intros p Hp'. rewrite Hp' in Hp.
    destruct (Qle_bool 0 (Pricing.base_fee p)) eqn:Q; [|discriminate].
    now apply Qle_bool_iff.
  + intros n Hn'. rewrite Hn' in Hn.
    destruct (String.length n <=? 500)%nat eqn:L; [|discriminate].
    now apply Nat.leb_le.
Qed.

(** X12. The requests that the model accepts.  Besides the bounds of the
    fields, the end time must follow the start time as a string, and the
    request must not be flagged as recurring: the validator of [is_recurring]
    looks in [values] for the two recurrence fields, which are declared, hence
    validated, after it. *)
Theorem model_accepts_iff (a : ProviderAvailabilityCreate.t) :
  Validation.accepts a = true <->
  time_pattern (ProviderAvailabilityCreate.start_time a) = true /\
  time_pattern (ProviderAvailabilityCreate.end_time a) = true /\
  String.ltb (ProviderAvailabilityCreate.start_time a)
             (ProviderAvailabilityCreate.end_time a) = true /\
  ProviderAvailabilityCreate.is_recurring a = false /\
  (forall e, ProviderAvailabilityCreate.recurrence_end_date a = Some e ->
             ProviderAvailabilityCreate.date a < e) /\
  15 <= ProviderAvailabilityCreate.slot_duration a <= 480 /\
  0 <= ProviderAvailabilityCreate.break_duration a <= 120 /\
  1 <= ProviderAvailabilityCreate.max_appointments_per_slot a <= 10 /\
  (forall p, ProviderAvailabilityCreate.pricing a = Some p -> (0 <= Pricing.base_fee p)%Q) /\
  (forall n, ProviderAvailabilityCreate.notes a = Some n -> (String.length n <= 500)%nat).
Proof.
  split; [apply accepts_inv|]. unfold_accepts.
  intros (Ps & Pe & Hlt & Hrec & Hend & HD & HB & HM & Hp & Hn).
  split; [exact Ps|]. split.
  { split; [exact Pe|]. rewrite Ps. now apply negb_true_iff, leb_false_ltb. }
  split; [now rewrite Hrec|]. split.
  { destruct (ProviderAvailabilityCreate.recurrence_end_date a) as [e|]; [|reflexivity].
    apply Z.leb_gt. now apply Hend. }
  split; [exact HD|]. split; [exact HB|]. split; [exact HM|]. split.
  + destruct (ProviderAvailabilityCreate.pricing a) as [p|]; [|reflexivity].
    specialize (Hp p eq_refl). apply Qle_bool_iff in Hp. now rewrite Hp.
  + destruct (ProviderAvailabilityCreate.notes a) as [n|]; [|reflexivity].
    specialize (Hn n eq_refl). apply Nat.leb_le in Hn. now rewrite Hn.
Qed.

Lemma model_accepts_iff_witness :
  Validation.accepts Sample.morning = true /\
  Validation.accepts Sample.weekly <> true.
Proof.
  split.
  - apply (proj2 (model_accepts_iff Sample.morning)). vm_compute.
    repeat split; try discriminate.
  - intros H. apply (proj1 (model_accepts_iff Sample.weekly)) in H.
    destruct H as (_ & _ & _ & H & _). discriminate H.
Defined.

(** X13. What create answers to a request that the model accepted, in a
    zone that pytz knows (its offsets less than a day), for a date from
    0001-01-02 to 9999-12-29: never 400 and never 500.  Either a stored slot of
    the provider overlaps the window, and the answer is 409 with the store
    unchanged, or the window is stored and the answer counts the slots that
    fit between its two UTC instants. *)
Theorem accepted_request_outcome (E : Env) (availability : ProviderAvailabilityCreate.t)
    (w : World) (tz : tzinfo) :
  Validation.accepts availability = true ->
  pytz_timezone E (ProviderAvailabilityCreate.timezone availability) = Some tz ->
  offsets_within_a_day tz ->
  inner_date (ProviderAvailabilityCreate.date availability) ->
  exists start_dt end_dt,
    convert_to_utc E (ProviderAvailabilityCreate.start_time availability)
      (ProviderAvailabilityCreate.date availability)
      (ProviderAvailabilityCreate.timezone availability) = Return start_dt /\
    convert_to_utc E (ProviderAvailabilityCreate.end_time availability)
      (ProviderAvailabilityCreate.date availability)
      (ProviderAvailabilityCreate.timezone availability) = Return end_dt /\
    (check_slot_conflicts w (ProviderAvailabilityCreate.provider_id availability)
       start_dt end_dt None = true ->
     create_provider_availability E availability w
     = (Return (Failure "Time slot conflicts with existing availability" 409), w)) /\
    (check_slot_conflicts w (ProviderAvailabilityCreate.provider_id availability)
       start_dt end_dt None = false ->
     exists data w',
       create_provider_availability E availability w
       = (Return (Success (Some "Availability slots created successfully") data), w') /\
       slots_created data
       = Z.max 0 ((end_dt - start_dt
                   + 60 * ProviderAvailabilityCreate.break_duration availability)
                  / (60 * ProviderAvailabilityCreate.slot_duration availability
                     + 60 * ProviderAvailabilityCreate.break_duration availability)) /\
       total_appointments_available data
       = slots_created data
         * ProviderAvailabilityCreate.max_appointments_per_slot availability /\
       List.length (APPOINTMENT_SLOTS w')
       = (List.length (APPOINTMENT_SLOTS w) + Z.to_nat (slots_created data))%nat /\
       List.length (PROVIDER_AVAILABILITY w') = S (List.length (PROVIDER_AVAILABILITY w))).
Proof.
  intros Hacc Hz Ho Hd. apply accepts_inv in Hacc.
  destruct Hacc as (Ps & Pe & Hlt & Hrec & _ & HD & HB & _).
  destruct (time_pattern_parse_time _ Ps) as (h1 & m1 & Hp1 & _).
  destruct (time_pattern_parse_time _ Pe) as (h2 & m2 & Hp2 & _).
  destruct (convert_to_utc_inner E _ _ _ tz h1 m1 Hz Hp1 Hd Ho)
    as (start_dt & Cs & _ & Smin & _).
  destruct (convert_to_utc_inner E _ _ _ tz h2 m2 Hz Hp2 Hd Ho)
    as (end_dt & Ce & _ & _ & Emax).
  exists start_dt, end_dt. split; [exact Cs|]. split; [exact Ce|].
  split; intros Hc; unfold create_provider_availability, try_except, String_geb;
    rewrite Hlt, Hrec; cbn [negb]; rewrite bind_eq, bind_eq, Cs; unfold lift at 1;
    cbv beta iota; rewrite bind_eq, Ce; unfold lift at 1, gets at 1; cbv beta iota;
    rewrite Hc.
  - reflexivity.
  - rewrite bind_new_db, bind_eq.
    unfold add_provider_availability at 1. rewrite bind_eq. unfold modify at 1, ret at 1.
    cbv beta iota. rewrite bind_eq.
    match goal with
    | |- context [generate_slots_from_availability E ?db ?w0] =>
        destruct (generate_slots_run E db start_dt end_dt w0) as (slots & w1 & G & Ch & St);
          [exact Cs | exact Ce | cbn; lia | cbn; lia
          | unfold within_range, Calendar.minutes;
            cbn [copy_of ProviderAvailabilityDB.slot_duration
                 ProviderAvailabilityDB.break_duration]; lia |]
    end.
    rewrite G, bind_eq.
    match goal with
    | |- context [store_slots ?db slots (0, 0) w1] =>
        destruct (store_slots_counters db slots (0, 0) w1) as (w2 & R & Hp & Hs)
    end.
    rewrite R. unfold ret. eexists _, w2. split; [reflexivity|].
    cbn [slots_created total_appointments_available fst snd copy_of
         ProviderAvailabilityDB.max_appointments_per_slot
         ProviderAvailabilityDB.slot_duration ProviderAvailabilityDB.break_duration] in *.
    unfold Calendar.minutes in Ch.
    apply chain_length in Ch; [|lia|lia].
    destruct St as [Sp Ss]. cbn in Sp, Ss.
    split; [rewrite Z.add_0_l; exact Ch|]. split; [reflexivity|].
    rewrite Hs, Hp, Ss, Sp, !List.length_app, length_map. cbn [List.length].
    rewrite Z.add_0_l, Nat2Z.id. split; lia.
Qed.

Lemma accepted_request_outcome_witness :
  exists start_dt end_dt,
    convert_to_utc Sample.env "09:00" (Calendar.ymd2ord 2024 2 15) "America/New_York"
    = Return start_dt /\
    convert_to_utc Sample.env "11:00" (Calendar.ymd2ord 2024 2 15) "America/New_York"
    = Return end_dt /\
    (check_slot_conflicts Sample.seeded_world "provider-123" start_dt end_dt None = true ->
     create_provider_availability Sample.env Sample.morning Sample.seeded_world
     = (Return (Failure "Time slot conflicts with existing availability" 409),
        Sample.seeded_world)) /\
    (check_slot_conflicts Sample.seeded_world "provider-123" start_dt end_dt None = false ->
     exists data w',
       create_provider_availability Sample.env Sample.morning Sample.seeded_world
       = (Return (Success (Some "Availability slots created successfully") data), w') /\
       slots_created data = Z.max 0 ((end_dt - start_dt + 60 * 0) / (60 * 30 + 60 * 0)) /\
       total_appointments_available data = slots_created data * 1 /\
       List.length (APPOINTMENT_SLOTS w')
       = (List.length (APPOINTMENT_SLOTS Sample.seeded_world)
          + Z.to_nat (slots_created data))%nat /\
       List.length (PROVIDER_AVAILABILITY w')
       = S (List.length (PROVIDER_AVAILABILITY Sample.seeded_world))).
Proof.
  apply (accepted_request_outcome Sample.env Sample.morning Sample.seeded_world
           Sample.new_york_2024);
    [reflexivity | reflexivity | exact new_york_2024_offsets
    | vm_compute; split; discriminate].
Defined.

(** *** Update *)

Lemma stored_slot_In (w : World) (slot_id : string) (slot : SlotDict.t) :
  slot_id <> "" ->
  stored_slot w slot_id = Some slot ->
  In slot (APPOINTMENT_SLOTS w) /\ SlotDict.id slot = slot_id /\
  exists rest,
    get_appointment_slots (APPOINTMENT_SLOTS w) None None (Some slot_id) = slot :: rest.
Proof.
  intros Hid. unfold stored_slot. rewrite (lookup_by_id _ _ Hid).
  destruct (filter _ (APPOINTMENT_SLOTS w)) as [|x rest] eqn:Hf; [discriminate|].
  cbn. intros [= ->].
  assert (Hin : In slot (filter (fun s => String.eqb (SlotDict.id s) slot_id)
                           (APPOINTMENT_SLOTS w))) by (rewrite Hf; now left).
  apply filter_In in Hin as [Hin Heq]. apply String.eqb_eq in Heq. eauto.
Qed.

Lemma parse_time_nonempty (t : string) (hm : Z * Z) :
  parse_time t = Some hm -> Py.truthy_opt (Some t) = true /\ Py.or_else (Some t) "" = t.
Proof. destruct t; [discriminate | auto]. Qed.

Lemma convert_to_utc_UTC (E : Env) (t : string) (d : Calendar.date) (hm : Z * Z) :
  parse_time t = Some hm ->
  convert_to_utc E t d "UTC" = Return (Calendar.combine d (fst hm) (snd hm)).
Proof.
  intros H. unfold convert_to_utc. cbn [pytz_timezone String.eqb Ascii.eqb Bool.eqb].
  rewrite H. destruct hm as [h m]. reflexivity.
Qed.

Lemma update_first_instants (slot_id : string) (updates : UpdateData.t) :
  forall store store',
    update_first slot_id updates store = Some store' ->
    map SlotDict.slot_start_time store' = map SlotDict.slot_start_time store /\
    map SlotDict.slot_end_time store' = map SlotDict.slot_end_time store /\
    map SlotDict.id store' = map SlotDict.id store.
Proof.
  intros store store' H. apply update_first_spec in H.
  destruct H as (before & slot & after & -> & _ & _ & ->).
  rewrite !map_app. cbn. auto.
Qed.

(** X14. An update that carries both times reads them on the UTC wall
    clock of the UTC date of the slot.  It is refused with 409, and changes
    nothing, exactly when another slot of the same provider overlaps that
    interval; otherwise it succeeds, and even then no slot of the store moves
    in time: the patch only sets the keys [start_time] and [end_time]. *)
Theorem update_times_policy (E : Env) (slot_id : string)
    (updates : ProviderAvailabilityUpdate.t) (w : World) (slot : SlotDict.t)
    (new_start new_end : string) (start_hm end_hm : Z * Z) :
  slot_id <> "" ->
  stored_slot w slot_id = Some slot ->
  ProviderAvailabilityUpdate.start_time updates = Some new_start ->
  ProviderAvailabilityUpdate.end_time updates = Some new_end ->
  parse_time new_start = Some start_hm ->
  parse_time new_end = Some end_hm ->
  let slot_date := Calendar.date_of (SlotDict.slot_start_time slot) in
  let new_start_dt := Calendar.combine slot_date (fst start_hm) (snd start_hm) in
  let new_end_dt := Calendar.combine slot_date (fst end_hm) (snd end_hm) in
  (clashes w slot_id (SlotDict.provider_id slot) new_start_dt new_end_dt ->
   update_availability_slot E slot_id updates w
   = (Return (Failure "Updated time conflicts with existing availability" 409), w)) /\
  (~ clashes w slot_id (SlotDict.provider_id slot) new_start_dt new_end_dt ->
   exists w',
     update_availability_slot E slot_id updates w
     = (Return (Success (Some "Slot updated successfully") tt), w') /\
     map SlotDict.slot_start_time (APPOINTMENT_SLOTS w')
     = map SlotDict.slot_start_time (APPOINTMENT_SLOTS w) /\
     map SlotDict.slot_end_time (APPOINTMENT_SLOTS w')
     = map SlotDict.slot_end_time (APPOINTMENT_SLOTS w) /\
     (exists slot', stored_slot w' slot_id = Some slot' /\
                    SlotDict.start_time slot' = Some new_start /\
                    SlotDict.end_time slot' = Some new_end)).
Proof.
  intros Hid Hst Hs He Ps Pe slot_date new_start_dt new_end_dt.
  destruct (stored_slot_In w slot_id slot Hid Hst) as (Hin & Hsid & rest & Hget).
  destruct (parse_time_nonempty _ _ Ps) as [Ts Os].
  destruct (parse_time_nonempty _ _ Pe) as [Te Oe].
  assert (Hconf : update_conflicts E slot_id updates slot w
                  = (Return (check_slot_conflicts w (SlotDict.provider_id slot)
                               new_start_dt new_end_dt (Some slot_id)), w)).
  { unfold update_conflicts. rewrite Hs, He, Ts, Te, Os, Oe. cbn [orb].
    rewrite bind_eq. unfold ret at 1. cbv beta iota.
    rewrite bind_eq. unfold ret at 1. cbv beta iota.
    rewrite bind_eq, (convert_to_utc_UTC E _ _ _ Ps). unfold lift at 1. cbv beta iota.
    rewrite bind_eq, (convert_to_utc_UTC E _ _ _ Pe). unfold lift at 1. cbv beta iota.
    reflexivity. }
  assert (Hiff : check_slot_conflicts w (SlotDict.provider_id slot)
                   new_start_dt new_end_dt (Some slot_id) = true <->
                 clashes w slot_id (SlotDict.provider_id slot) new_start_dt new_end_dt).
  { rewrite check_slot_conflicts_iff. unfold clashes.
    split; intros (other & A & B & C & D); exists other;
      (split; [exact A|]); (split; [exact B|]); (split; [|exact D]).
    - destruct C as [C|[C|C]]; congruence.
    - right. right. congruence. }
  split; intros Hc; unfold update_availability_slot, try_except;
    rewrite bind_eq; unfold gets at 1; cbv beta iota; rewrite Hget, bind_eq, Hconf.
  - apply Hiff in Hc. rewrite Hc. reflexivity.
  - destruct (check_slot_conflicts w _ new_start_dt new_end_dt (Some slot_id)) eqn:C;
      [elim Hc; now apply Hiff|].
    rewrite bind_eq. unfold utcnow at 1. cbv beta iota.
    rewrite bind_eq. unfold update_appointment_slot at 1.
    rewrite bind_eq. unfold gets at 1. cbv beta iota.
    cbn [APPOINTMENT_SLOTS].
    destruct (update_first slot_id _ (APPOINTMENT_SLOTS w)) as [store'|] eqn:U.
    2:{ exfalso. revert U. now apply update_first_found with slot. }
    rewrite bind_eq. unfold modify at 1, ret at 1. cbv beta iota. cbn [negb].
    unfold ret. eexists. split; [reflexivity|]. cbn [APPOINTMENT_SLOTS set_APPOINTMENT_SLOTS].
    destruct (update_first_instants _ _ _ _ U) as (A & B & _).
    split; [exact A|]. split; [exact B|].
    apply update_first_spec in U.
    destruct U as (before & x & after & Hstore & Hbefore & Hx & ->).
    exists (dict_update x (prepare_update_data updates
                             (utcnow_at E (clock_read w)))).
    split.
    + unfold stored_slot. rewrite (lookup_by_id _ _ Hid).
      cbn [APPOINTMENT_SLOTS set_APPOINTMENT_SLOTS].
      rewrite filter_app. rewrite filter_absent.
      2:{ intros y Hy. apply String.eqb_neq. now apply Hbefore. }
      cbn. rewrite Hx, String.eqb_refl. reflexivity.
    + cbn. rewrite Hs, He, Ts, Te. auto.
Qed.

Lemma update_times_policy_witness :
  exists w',
    update_availability_slot Sample.env "slot-123" Scenario.move_earlier Sample.seeded_world
    = (Return (Success (Some "Slot updated successfully") tt), w') /\
    map SlotDict.slot_start_time (APPOINTMENT_SLOTS w') = [1708005600; 1708007400] /\
    map SlotDict.slot_end_time (APPOINTMENT_SLOTS w') = [1708007400; 1708009200] /\
    (exists slot', stored_slot w' "slot-123" = Some slot' /\
                   SlotDict.start_time slot' = Some "13:00" /\
                   SlotDict.end_time slot' = Some "14:00").
Proof.
  apply (proj2 (update_times_policy Sample.env "slot-123" Scenario.move_earlier
                  Sample.seeded_world
                  (Sample.slot "slot-123" "provider-123" 1708005600 1708007400 AVAILABLE)
                  "13:00" "14:00" (13, 0) (14, 0)
                  ltac:(discriminate) eq_refl eq_refl eq_refl eq_refl eq_refl)).
  intros (other & Hin & _ & Hne & Hs & He).
  destruct Hin as [<-|[<-|[]]].
  - now apply Hne.
  - vm_compute in He. discriminate He.
Defined.

(** *** Delete *)

Lemma filter_all {A} (f : A -> bool) (l : list A) :
  (forall x, In x l -> f x = true) -> filter f l = l.
Proof.
  induction l as [|a l IH]; cbn; intros H; [reflexivity|].
  rewrite (H a (or_introl eq_refl)). f_equal. apply IH. intros x Hx. apply H. now right.
Qed.

Lemma filter_filter {A} (f g : A -> bool) (l : list A) :
  filter f (filter g l) = filter (fun x => g x && f x) l.
Proof.
  induction l as [|a l IH]; cbn; [reflexivity|].
  destruct (g a); cbn; [destruct (f a)|]; now rewrite IH.
Qed.

Lemma NoDup_filter_ids (f : SlotDict.t -> bool) (store : list SlotDict.t) :
  NoDup (map SlotDict.id store) -> NoDup (map SlotDict.id (filter f store)).
Proof.
  induction store as [|x store IH]; cbn; intros H; [constructor|].
  inversion H as [|? ? Hx Hn]; subst. destruct (f x); cbn; auto.
  constructor; auto. intros Hin. apply Hx.
  apply in_map_iff in Hin as (y & Hy & Hin). apply filter_In in Hin as [Hin _].
  rewrite <- Hy. now apply in_map.
Qed.

Lemma delete_first_NoDup (slot_id : string) :
  forall store,
    NoDup (map SlotDict.id store) ->
    match delete_first slot_id store with
    | Some store' => store' = filter (fun s => negb (String.eqb (SlotDict.id s) slot_id)) store
    | None => filter (fun s => negb (String.eqb (SlotDict.id s) slot_id)) store = store
    end.
Proof.
  induction store as [|x store IH]; cbn; intros H; [reflexivity|].
  inversion H as [|? ? Hx Hn]; subst.
  destruct (String.eqb (SlotDict.id x) slot_id) eqn:E; cbn.
  - apply String.eqb_eq in E. symmetry. apply filter_all. intros y Hy.
    apply negb_true_iff, String.eqb_neq. intros Heq. apply Hx.
    rewrite E, <- Heq. now apply in_map.
  - specialize (IH Hn). destruct (delete_first slot_id store); now rewrite IH.
Qed.

Lemma delete_appointment_slot_NoDup (slot_id : string) (w : World) :
  NoDup (map SlotDict.id (APPOINTMENT_SLOTS w)) ->
  exists b w',
    delete_appointment_slot slot_id w = (Return b, w') /\
    APPOINTMENT_SLOTS w'
    = filter (fun s => negb (String.eqb (SlotDict.id s) slot_id)) (APPOINTMENT_SLOTS w) /\
    PROVIDER_AVAILABILITY w' = PROVIDER_AVAILABILITY w.
Proof.
  intros H. unfold delete_appointment_slot. rewrite bind_eq. unfold gets at 1.
  cbv beta iota. pose proof (delete_first_NoDup slot_id _ H) as D.
  destruct (delete_first slot_id (APPOINTMENT_SLOTS w)) as [store'|].
  - rewrite bind_eq. unfold modify at 1, ret. cbv beta iota.
    eexists _, _. split; [reflexivity|]. cbn. auto.
  - unfold ret. exists false, w. auto.
Qed.

(** The slots that the cascade deletes: not the one named, and not booked. *)
Lemma for_each_cascade (slot_id : string) :
  forall related w,
    NoDup (map SlotDict.id (APPOINTMENT_SLOTS w)) ->
    exists w',
      for_each related (cascade_one slot_id) w = (Return tt, w') /\
      APPOINTMENT_SLOTS w'
      = filter (fun s =>
                  negb (existsb (fun r =>
                                   negb (String.eqb (SlotDict.id r) slot_id)
                                   && negb (status_is (SlotDict.status r) "booked")
                                   && String.eqb (SlotDict.id s) (SlotDict.id r)) related))
               (APPOINTMENT_SLOTS w) /\
      PROVIDER_AVAILABILITY w' = PROVIDER_AVAILABILITY w.
Proof.
  induction related as [|r related IH]; intros w H.
  - exists w. cbn. unfold ret. split; [reflexivity|]. split; [|reflexivity].
    symmetry. now apply filter_all.
  - cbn [for_each existsb]. rewrite bind_eq. unfold cascade_one at 1.
    destruct (negb (String.eqb (SlotDict.id r) slot_id)
              && negb (status_is (SlotDict.status r) "booked")) eqn:D.
    + rewrite bind_eq.
      destruct (delete_appointment_slot_NoDup (SlotDict.id r) w H) as (b & w1 & R & Hs & Hp).
      rewrite R. unfold ret at 1. cbv beta iota.
      destruct (IH w1) as (w' & R' & Hs' & Hp').
      { rewrite Hs. now apply NoDup_filter_ids. }
      exists w'. split; [exact R'|]. split; [|congruence].
      rewrite Hs', Hs, filter_filter. apply filter_ext. intros s. cbn [andb].
      now rewrite negb_orb.
    + unfold ret at 1. cbv beta iota.
      destruct (IH w H) as (w' & R' & Hs' & Hp').
      exists w'. split; [exact R'|]. split; [|exact Hp'].
      rewrite Hs'. apply filter_ext. intros s. reflexivity.
Qed.

Lemma delete_first_split (slot_id : string) :
  forall store store',
    delete_first slot_id store = Some store' ->
    exists before x after,
      store = before ++ x :: after /\
      (forall s, In s before -> SlotDict.id s <> slot_id) /\
      SlotDict.id x = slot_id /\
      store' = before ++ after.
Proof.
  induction store as [|y store IH]; cbn; intros store' H; [discriminate|].
  destruct (String.eqb (SlotDict.id y) slot_id) eqn:E.
  - injection H as <-. apply String.eqb_eq in E. exists [], y, store. cbn. intuition.
  - destruct (delete_first slot_id store) as [rest|]; [|discriminate].
    injection H as <-. destruct (IH rest eq_refl) as (before & x & after & -> & Hb & Hx & ->).
    exists (y :: before), x, after. cbn. repeat split; auto.
    intros s [<-|Hs]; [now apply String.eqb_neq | now apply Hb].
Qed.

Lemma delete_first_found (slot_id : string) :
  forall store slot,
    In slot store -> SlotDict.id slot = slot_id -> delete_first slot_id store <> None.
Proof.
  induction store as [|y store IH]; cbn; intros slot Hin Hid; [contradiction|].
  destruct (String.eqb (SlotDict.id y) slot_id) eqn:E; [discriminate|].
  destruct Hin as [->|Hin]; [apply String.eqb_neq in E; contradiction|].
  specialize (IH slot Hin Hid). destruct (delete_first slot_id store); congruence.
Qed.

Lemma status_not_booked (s : AvailabilityStatus) :
  s <> BOOKED -> status_is s "booked" = false.
Proof. destruct s; cbn; congruence. Qed.

(** X15. Deleting one slot.  An id that the lookup does not find is answered
    404 and nothing changes; a slot that is found and not booked is removed,
    it alone: the slots before and after it stay as they are and in their
    order, and the availability records are never touched. *)
Theorem delete_slot_effect (slot_id : string) (reason : option string) (w : World) :
  (forall delete_recurring,
     stored_slot w slot_id = None ->
     delete_availability_slot slot_id delete_recurring reason w
     = (Return (Failure "Slot not found" 404), w)) /\
  (forall slot,
     slot_id <> "" ->
     stored_slot w slot_id = Some slot ->
     SlotDict.status slot <> BOOKED ->
     exists before after w',
       APPOINTMENT_SLOTS w = before ++ slot :: after /\
       (forall s, In s before -> SlotDict.id s <> slot_id) /\
       delete_availability_slot slot_id false reason w
       = (Return (Success (Some "Slot deleted successfully") tt), w') /\
       APPOINTMENT_SLOTS w' = before ++ after /\
       PROVIDER_AVAILABILITY w' = PROVIDER_AVAILABILITY w).
Proof.
  split.
  - intros delete_recurring H. unfold stored_slot in H.
    unfold delete_availability_slot, try_except. rewrite bind_eq. unfold gets at 1.
    cbv beta iota.
    destruct (get_appointment_slots (APPOINTMENT_SLOTS w) None None (Some slot_id));
      [reflexivity | discriminate].
  - intros slot Hid Hst Hnb.
    destruct (stored_slot_In w slot_id slot Hid Hst) as (Hin & Hsid & rest & Hget).
    unfold delete_availability_slot, try_except. rewrite bind_eq. unfold gets at 1.
    cbv beta iota. rewrite Hget, (status_not_booked _ Hnb).
    rewrite bind_eq. unfold delete_appointment_slot at 1. rewrite bind_eq.
    unfold gets at 1. cbv beta iota.
    destruct (delete_first slot_id (APPOINTMENT_SLOTS w)) as [store'|] eqn:D.
    2:{ exfalso. revert D. now apply delete_first_found with slot. }
    apply delete_first_split in D.
    destruct D as (before & x & after & Hstore & Hbefore & Hx & ->).
    assert (x = slot) as ->.
    { unfold stored_slot in Hst. rewrite (lookup_by_id _ _ Hid), Hstore, filter_app in Hst.
      rewrite filter_absent in Hst.
      2:{ intros y Hy. apply String.eqb_neq. now apply Hbefore. }
      cbn in Hst. rewrite Hx, String.eqb_refl in Hst. cbn in Hst. congruence. }
    exists before, after. eexists. split; [exact Hstore|]. split; [exact Hbefore|].
    rewrite bind_eq. unfold modify at 1, ret at 1. cbv beta iota. cbn [negb].
    rewrite bind_eq. unfold ret. split; [reflexivity|]. cbn. auto.
Qed.

Lemma delete_slot_effect_witness :
  exists before after w',
    APPOINTMENT_SLOTS Sample.seeded_world
    = before ++ Sample.slot "slot-124" "provider-123" 1708007400 1708009200 AVAILABLE
             :: after /\
    (forall s, In s before -> SlotDict.id s <> "slot-124") /\
    delete_availability_slot "slot-124" false None Sample.seeded_world
    = (Return (Success (Some "Slot deleted successfully") tt), w') /\
    APPOINTMENT_SLOTS w' = before ++ after /\
    PROVIDER_AVAILABILITY w' = PROVIDER_AVAILABILITY Sample.seeded_world.
Proof.
  apply (proj2 (delete_slot_effect "slot-124" None Sample.seeded_world)).
  - discriminate.
  - reflexivity.
  - discriminate.
Defined.

Lemma cascade_related (slot_id availability_id : string) (store : list SlotDict.t)
    (s : SlotDict.t) :
  NoDup (map SlotDict.id store) ->
  In s store ->
  existsb (fun r => negb (String.eqb (SlotDict.id r) slot_id)
                    && negb (status_is (SlotDict.status r) "booked")
                    && String.eqb (SlotDict.id s) (SlotDict.id r))
          (filter (fun x => String.eqb (SlotDict.availability_id x) availability_id) store)
  = String.eqb (SlotDict.availability_id s) availability_id
    && (negb (String.eqb (SlotDict.id s) slot_id)
        && negb (status_is (SlotDict.status s) "booked")).
Proof.
  intros Hnd Hin.
  match goal with |- ?l = ?r => destruct r eqn:R end.
  - apply andb_prop in R as [Ra Rc]. apply existsb_exists. exists s.
    split; [apply filter_In; auto|]. now rewrite Rc, String.eqb_refl.
  - apply not_true_is_false. intros H. apply existsb_exists in H as (r & Hr & H).
    apply filter_In in Hr as [Hr Ha]. apply andb_prop in H as [Hc He].
    apply String.eqb_eq in He.
    assert (s = r) as -> by (eapply same_id_same_slot; eauto).
    rewrite Ha, Hc in R. discriminate.
Qed.

(** X16. Deleting a slot together with its series.  On a store whose slot
    ids are distinct, the cascade leaves exactly the slots that belong to
    another availability or are booked, in their order; the slot named is
    removed, and so is every other open slot of its availability.  The
    availability records are never touched. *)
Theorem delete_cascade_effect (slot_id : string) (reason : option string) (w : World)
    (slot : SlotDict.t) :
  slot_id <> "" ->
  NoDup (map SlotDict.id (APPOINTMENT_SLOTS w)) ->
  stored_slot w slot_id = Some slot ->
  SlotDict.status slot <> BOOKED ->
  SlotDict.availability_id slot <> "" ->
  exists w',
    delete_availability_slot slot_id true reason w
    = (Return (Success (Some "Slot deleted successfully") tt), w') /\
    APPOINTMENT_SLOTS w'
    = filter (survives_cascade slot_id (SlotDict.availability_id slot))
             (APPOINTMENT_SLOTS w) /\
    PROVIDER_AVAILABILITY w' = PROVIDER_AVAILABILITY w.
Proof.
  intros Hid Hnd Hst Hnb Hav.
  destruct (stored_slot_In w slot_id slot Hid Hst) as (Hin & Hsid & rest & Hget).
  unfold delete_availability_slot, try_except. rewrite bind_eq. unfold gets at 1.
  cbv beta iota. rewrite Hget, (status_not_booked _ Hnb).
  rewrite bind_eq. unfold delete_appointment_slot at 1. rewrite bind_eq.
  unfold gets at 1. cbv beta iota.
  pose proof (delete_first_NoDup slot_id _ Hnd) as D.
  destruct (delete_first slot_id (APPOINTMENT_SLOTS w)) as [store'|] eqn:D'.
  2:{ exfalso. revert D'. now apply delete_first_found with slot. }
  subst store'.
  rewrite bind_eq. unfold modify at 1, ret at 1. cbv beta iota. cbn [negb].
  rewrite bind_eq.
  assert (Ht : Py.truthy (SlotDict.availability_id slot) = true).
  { destruct (SlotDict.availability_id slot); [congruence | reflexivity]. }
  rewrite Ht. rewrite bind_eq. unfold gets at 1. cbv beta iota.
  match goal with
  | |- context [for_each ?rel (cascade_one slot_id) ?w1] =>
      destruct (for_each_cascade slot_id rel w1) as (w' & R & Hs & Hp);
        [cbn; now apply NoDup_filter_ids|]
  end.
  rewrite R. unfold ret. exists w'. split; [reflexivity|]. split; [|exact Hp].
  rewrite Hs. cbn [APPOINTMENT_SLOTS set_APPOINTMENT_SLOTS].
  unfold get_appointment_slots. cbn [Py.truthy_opt Py.or_else]. rewrite Ht.
  rewrite filter_filter. apply filter_ext_in. intros s Hs'.
  unfold survives_cascade.
  destruct (String.eqb (SlotDict.id s) slot_id) eqn:E; [reflexivity|].
  rewrite cascade_related.
  - rewrite E.
    destruct (String.eqb (SlotDict.availability_id s) (SlotDict.availability_id slot)),
             (status_is (SlotDict.status s) "booked"); reflexivity.
  - now apply NoDup_filter_ids.
  - apply filter_In. split; [exact Hs'|]. now rewrite E.
Qed.

Lemma delete_cascade_effect_witness :
  exists w',
    delete_availability_slot "slot-123" true None Scenario.busy_world
    = (Return (Success (Some "Slot deleted successfully") tt), w') /\
    APPOINTMENT_SLOTS w'
    = filter (survives_cascade "slot-123" "availability-123")
             (APPOINTMENT_SLOTS Scenario.busy_world) /\
    PROVIDER_AVAILABILITY w' = PROVIDER_AVAILABILITY Scenario.busy_world.
Proof.
  apply (delete_cascade_effect "slot-123" None Scenario.busy_world
           (Sample.slot "slot-123" "provider-123" 1708005600 1708007400 AVAILABLE)).
  - discriminate.
  - repeat constructor; cbn; intuition discriminate.
  - reflexivity.
  - discriminate.
  - discriminate.
Defined.

Lemma delete_appointment_slot_records (slot_id : string) (w : World) :
  exists b w',
    delete_appointment_slot slot_id w = (Return b, w') /\
    PROVIDER_AVAILABILITY w' = PROVIDER_AVAILABILITY w.
Proof.
  unfold delete_appointment_slot. rewrite bind_eq. unfold gets at 1. cbv beta iota.
  destruct (delete_first slot_id (APPOINTMENT_SLOTS w)).
  - rewrite bind_eq. unfold modify at 1, ret. cbv beta iota. eexists _, _. split; reflexivity.
  - unfold ret. eexists _, _. split; reflexivity.
Qed.

Lemma cascade_one_records (slot_id : string) (r : SlotDict.t) (w : World) :
  exists w',
    cascade_one slot_id r w = (Return tt, w') /\
    PROVIDER_AVAILABILITY w' = PROVIDER_AVAILABILITY w.
Proof.
  unfold cascade_one. destruct (_ && _).
  - rewrite bind_eq.
    destruct (delete_appointment_slot_records (SlotDict.id r) w) as (b & w' & R & H).
    rewrite R. unfold ret. eauto.
  - unfold ret. eauto.
Qed.

Lemma for_each_cascade_records (slot_id : string) :
  forall related w,
    exists w',
      for_each related (cascade_one slot_id) w = (Return tt, w') /\
      PROVIDER_AVAILABILITY w' = PROVIDER_AVAILABILITY w.
Proof.
  induction related as [|r related IH]; intros w.
  - exists w. split; reflexivity.
  - cbn [for_each]. rewrite bind_eq.
    destruct (cascade_one_records slot_id r w) as (w1 & R & H). rewrite R.
    destruct (IH w1) as (w' & R' & H'). exists w'. split; congruence.
Qed.

Lemma cascade_live_records (slot_id : string) :
  forall fuel position w,
    exists w',
      cascade_live fuel position slot_id w = (Return tt, w') /\
      PROVIDER_AVAILABILITY w' = PROVIDER_AVAILABILITY w.
Proof.
  induction fuel as [|fuel IH]; intros position w.
  - exists w. split; reflexivity.
  - cbn [cascade_live]. rewrite bind_eq. unfold gets at 1. cbv beta iota.
    destruct (nth_error (APPOINTMENT_SLOTS w) position) as [r|].
    + rewrite bind_eq.
      destruct (cascade_one_records slot_id r w) as (w1 & R & H). rewrite R.
      destruct (IH (S position) w1) as (w' & R' & H'). exists w'. split; congruence.
    + exists w. split; reflexivity.
Qed.

(** X17. What no delete does.  Whatever the id, the cascade flag and the
    answer, the availability records are left as they are (also when the last
    slot of a record goes), and, on a store whose slot ids are distinct and
    not empty, every booked slot is still stored afterwards. *)
Theorem delete_never_removes (slot_id : string) (delete_recurring : bool)
    (reason : option string) (w : World) :
  (exists r, fst (delete_availability_slot slot_id delete_recurring reason w) = Return r) /\
  PROVIDER_AVAILABILITY (snd (delete_availability_slot slot_id delete_recurring reason w))
  = PROVIDER_AVAILABILITY w /\
  (NoDup (map SlotDict.id (APPOINTMENT_SLOTS w)) ->
   (forall s, In s (APPOINTMENT_SLOTS w) -> SlotDict.id s <> "") ->
   forall b, In b (APPOINTMENT_SLOTS w) -> SlotDict.status b = BOOKED ->
     In b (APPOINTMENT_SLOTS
             (snd (delete_availability_slot slot_id delete_recurring reason w)))).
Proof.
  assert (H : exists r w',
            delete_availability_slot slot_id delete_recurring reason w = (Return r, w') /\
            PROVIDER_AVAILABILITY w' = PROVIDER_AVAILABILITY w).
  { unfold delete_availability_slot, try_except. rewrite bind_eq. unfold gets at 1.
    cbv beta iota.
    destruct (get_appointment_slots (APPOINTMENT_SLOTS w) None None (Some slot_id))
      as [|slot rest].
    { unfold ret. eauto. }
    destruct (status_is (SlotDict.status slot) "booked").
    { unfold ret. eauto. }
    rewrite bind_eq.
    destruct (delete_appointment_slot_records slot_id w) as (b & w1 & R & H1). rewrite R.
    destruct b; cbn [negb]; [|unfold ret; eauto].
    rewrite bind_eq. destruct delete_recurring.
    - destruct (Py.truthy (SlotDict.availability_id slot)).
      + rewrite bind_eq. unfold gets at 1. cbv beta iota.
        match goal with
        | |- context [for_each ?rel (cascade_one slot_id) w1] =>
            destruct (for_each_cascade_records slot_id rel w1) as (w' & R' & H')
        end.
        rewrite R'. unfold ret. eexists _, w'. split; [reflexivity | congruence].
      + rewrite bind_eq. unfold gets at 1. cbv beta iota.
        match goal with
        | |- context [cascade_live ?f 0 slot_id w1] =>
            destruct (cascade_live_records slot_id f 0%nat w1) as (w' & R' & H')
        end.
        rewrite R'. unfold ret. eexists _, w'. split; [reflexivity | congruence].
    - unfold ret. eexists _, w1. split; [reflexivity | congruence]. }
  destruct H as (r & w' & R & Hp). rewrite R. cbn [fst snd].
  split; [eauto|]. split; [exact Hp|].
  intros Hnd Hne b Hb Hbooked. change w' with (snd (Return r, w')). rewrite <- R.
  now apply booked_slots_survive_delete.
Qed.

Lemma delete_never_removes_witness :
  In (Sample.slot "slot-125" "provider-123" 1708009200 1708011000 BOOKED)
     (APPOINTMENT_SLOTS
        (snd (delete_availability_slot "slot-123" true None Scenario.busy_world))).
Proof.
  apply (proj2 (proj2 (delete_never_removes "slot-123" true None Scenario.busy_world))).
  - repeat constructor; cbn; intuition discriminate.
  - intros s [<-|[<-|[<-|[]]]]; discriminate.
  - cbn. auto.
  - reflexivity.
Defined.

(** *** Search *)

(** X18. A search only reads: whatever the request and the answer, the
    state is the one before.  It succeeds when every slot that passes the
    filters can be shown in the display zone, and answers 500 when one of
    them cannot.  No slot can be shown in a zone that pytz does not know; in
    a zone that it knows, a slot can be shown when the wall times of its
    start and of its end there are datetimes. *)
Theorem search_outcome (E : Env) (search_request : AvailabilitySearchRequest.t) (w : World) :
  snd (search_availability_slots E search_request w) = w /\
  ((forall slot,
      In slot (filter (search_keeps E search_request) (APPOINTMENT_SLOTS w)) ->
      showable E (display_timezone (AvailabilitySearchRequest.timezone search_request)) slot
      = true) ->
   exists data,
     fst (search_availability_slots E search_request w) = Return (Success None data) /\
     total_results data = Z.of_nat (List.length (results data))) /\
  ((exists slot,
      In slot (filter (search_keeps E search_request) (APPOINTMENT_SLOTS w)) /\
      showable E (display_timezone (AvailabilitySearchRequest.timezone search_request)) slot
      = false) ->
   fst (search_availability_slots E search_request w)
   = Return (Failure "Failed to search availability" 500)) /\
  (pytz_timezone E (display_timezone (AvailabilitySearchRequest.timezone search_request))
   = None ->
   forall slot,
     showable E (display_timezone (AvailabilitySearchRequest.timezone search_request)) slot
     = false) /\
  (forall tz slot,
     pytz_timezone E (display_timezone (AvailabilitySearchRequest.timezone search_request))
     = Some tz ->
     Datetime.MIN
     <= SlotDict.slot_start_time slot + utcoffset tz (SlotDict.slot_start_time slot)
     <= Datetime.MAX ->
     Datetime.MIN
     <= SlotDict.slot_end_time slot + utcoffset tz (SlotDict.slot_end_time slot)
     <= Datetime.MAX ->
     showable E (display_timezone (AvailabilitySearchRequest.timezone search_request)) slot
     = true).
Proof.
  set (display := display_timezone (AvailabilitySearchRequest.timezone search_request)).
  set (kept := filter (search_keeps E search_request) (APPOINTMENT_SLOTS w)).
  assert (R : search_availability_slots E search_request w
              = match group_loop E display
                        (map (fun slot => (slot, provider_info_of slot)) kept) [] with
                | Return providers =>
                    (Return
                       (Success None
                          {| search_criteria :=
                               {| sc_date :=
                                    option_map Calendar.isoformat
                                      (AvailabilitySearchRequest.date search_request);
                                  sc_start_date :=
                                    option_map Calendar.isoformat
                                      (AvailabilitySearchRequest.start_date search_request);
                                  sc_end_date :=
                                    option_map Calendar.isoformat
                                      (AvailabilitySearchRequest.end_date search_request);
                                  sc_specialization :=
                                    if Py.truthy_opt
                                         (AvailabilitySearchRequest.specialization
                                            search_request)
                                    then AvailabilitySearchRequest.specialization
                                           search_request
                                    else None;
                                  sc_location :=
                                    if Py.truthy_opt
                                         (AvailabilitySearchRequest.location search_request)
                                    then AvailabilitySearchRequest.location search_request
                                    else None |};
                             total_results := Z.of_nat (List.length providers);
                             results := map snd providers |}), w)
                | Raise _ => (Return (Failure "Failed to search availability" 500), w)
                | Diverge => (Diverge, w)
                end).
  { unfold search_availability_slots, try_except, bind, gets, lift, ret.
    fold kept. fold display. now destruct (group_loop E display _ []). }
  rewrite R. clear R.
  split; [now destruct (group_loop E display _ [])|].
  split; [|split; [|split]].
  - intros Hshow.
    destruct (group_loop_run E display
                (map (fun slot => (slot, provider_info_of slot)) kept) [])
      as (result & -> & _).
    + intros slot info H. apply in_map_iff in H as (s & [= <- <-] & Hs). now apply Hshow.
    + intros slot info H. apply in_map_iff in H as (s & [= <- <-] & _). reflexivity.
    + eexists. split; [reflexivity|]. cbn. now rewrite length_map.
  - intros (slot & Hin & Hno).
    rewrite (group_loop_raises E display); [reflexivity|].
    exists slot, (provider_info_of slot). split; [|exact Hno].
    apply in_map_iff. now exists slot.
  - intros Hz slot. unfold showable, convert_from_utc. now rewrite Hz.
  - intros tz slot Hz Hs He. unfold showable.
    rewrite (convert_from_utc_in E _ _ tz Hz (or_intror Hs)).
    now rewrite (convert_from_utc_in E _ _ tz Hz (or_intror He)).
Qed.

Lemma search_outcome_witness :
  fst (search_availability_slots Sample.env Scenario.search_elsewhere Sample.seeded_world)
  = Return (Failure "Failed to search availability" 500).
Proof.
  apply (proj1 (proj2 (proj2 (search_outcome Sample.env Scenario.search_elsewhere
                                Sample.seeded_world)))).
  exists (Sample.slot "slot-123" "provider-123" 1708005600 1708007400 AVAILABLE).
  split; [now left | reflexivity].
Defined.

Lemma search_keeps_free (E : Env) (search_request : AvailabilitySearchRequest.t)
    (max_price : Q) (slot : SlotDict.t) :
  AvailabilitySearchRequest.max_price search_request = Some max_price ->
  (max_price == 0)%Q ->
  search_keeps E search_request slot = search_keeps E (without_max_price search_request) slot.
Proof.
  intros Hm Hq. unfold search_keeps, without_max_price.
  cbn [AvailabilitySearchRequest.date AvailabilitySearchRequest.start_date
       AvailabilitySearchRequest.end_date AvailabilitySearchRequest.appointment_type
       AvailabilitySearchRequest.location AvailabilitySearchRequest.max_price
       AvailabilitySearchRequest.insurance_accepted
       AvailabilitySearchRequest.available_only].
  rewrite Hm. apply Qeq_bool_iff in Hq. rewrite Hq. reflexivity.
Qed.

(** X19. A price limit of zero is no limit: the search with [max_price] 0
    answers as the same search without [max_price], slots of every price
    included. *)
Theorem search_max_price_zero (E : Env) (search_request : AvailabilitySearchRequest.t)
    (max_price : Q) (w : World) :
  AvailabilitySearchRequest.max_price search_request = Some max_price ->
  (max_price == 0)%Q ->
  search_availability_slots E search_request w
  = search_availability_slots E (without_max_price search_request) w.
Proof.
  intros Hm Hq. unfold search_availability_slots, try_except, bind, gets. cbv beta iota.
  rewrite (filter_ext _ _
             (fun slot => search_keeps_free E search_request max_price slot Hm Hq)).
  reflexivity.
Qed.

Lemma search_max_price_zero_witness :
  search_availability_slots Sample.env (Sample.search_up_to 0) Scenario.priced_world
  = search_availability_slots Sample.env (without_max_price (Sample.search_up_to 0))
      Scenario.priced_world /\
  exists data,
    fst (search_availability_slots Sample.env (Sample.search_up_to 0) Scenario.priced_world)
    = Return (Success None data) /\
    map (fun g => map si_pricing (available_slots g)) (results data)
    = [[Some {| Pricing.base_fee := 150 # 1; Pricing.insurance_accepted := true;
                Pricing.currency := "USD" |}]].
Proof.
  split.
  - apply (search_max_price_zero Sample.env (Sample.search_up_to 0) 0
             Scenario.priced_world); reflexivity.
  - eexists. split; reflexivity.
Defined.

(** *** The listing of a provider's slots *)

Lemma by_date_append_get (m : list (Calendar.date * list ListedSlot.t))
    (d : Calendar.date) (x : ListedSlot.t) (d' : Calendar.date) :
  by_date_get (by_date_append m d x) d'
  = if d =? d' then by_date_get m d ++ [x] else by_date_get m d'.
Proof.
  induction m as [|[k l] m IH]; cbn.
  - destruct (d =? d'); reflexivity.
  - destruct (k =? d) eqn:Ekd; cbn.
    + apply Z.eqb_eq in Ekd. subst k. destruct (d =? d'); reflexivity.
    + rewrite IH. destruct (d =? d') eqn:Edd.
      * apply Z.eqb_eq in Edd. subst d'. rewrite Ekd. reflexivity.
      * reflexivity.
Qed.

Lemma by_date_append_keys (m : list (Calendar.date * list ListedSlot.t))
    (d : Calendar.date) (x : ListedSlot.t) :
  map fst (by_date_append m d x)
  = if existsb (fun k => k =? d) (map fst m) then map fst m else map fst m ++ [d].
Proof.
  induction m as [|[k l] m IH]; cbn [by_date_append map fst existsb]; [reflexivity|].
  destruct (k =? d); cbn [map fst orb]; [reflexivity|]. rewrite IH.
  destruct (existsb (fun k0 => k0 =? d) (map fst m)); reflexivity.
Qed.

Lemma by_date_append_NoDup (m : list (Calendar.date * list ListedSlot.t))
    (d : Calendar.date) (x : ListedSlot.t) :
  NoDup (map fst m) -> NoDup (map fst (by_date_append m d x)).
Proof.
  intros H. rewrite by_date_append_keys.
  destruct (existsb (fun k => k =? _) (map fst m)) eqn:Ex; [exact H|].
  apply NoDup_app; [exact H | repeat constructor; intros [] |].
  intros k Hk [->|[]].
  assert (existsb (fun k0 => k0 =? k) (map fst m) = true); [|congruence].
  apply existsb_exists. exists k. split; [exact Hk | apply Z.eqb_refl].
Qed.

Lemma by_date_append_count (m : list (Calendar.date * list ListedSlot.t))
    (d : Calendar.date) (x : ListedSlot.t) :
  entries_count (by_date_append m d x) = S (entries_count m).
Proof.
  induction m as [|[k l] m IH]; cbn [by_date_append]; [reflexivity|].
  destruct (k =? d); cbn [entries_count snd].
  - rewrite List.length_app. cbn [List.length]. lia.
  - rewrite IH. lia.
Qed.

Lemma by_date_append_nonempty (m : list (Calendar.date * list ListedSlot.t))
    (d : Calendar.date) (x : ListedSlot.t) :
  Forall (fun g => snd g <> []) m -> Forall (fun g => snd g <> []) (by_date_append m d x).
Proof.
  induction m as [|[k l] m IH]; cbn; intros H.
  - repeat constructor. discriminate.
  - inversion H; subst. destruct (k =? d); constructor; auto.
    cbn. destruct l; discriminate.
Qed.

Lemma listed_slot_of_lists (E : Env) (display : string) (slot : SlotDict.t)
    (x : ListedSlot.t) :
  listed_slot_of E display slot = Return x <-> lists E display slot x.
Proof.
  unfold listed_slot_of, lists.
  destruct (convert_from_utc E (SlotDict.slot_start_time slot) display) as [s| |];
    [|split; [discriminate|intros (_ & A & _); discriminate A]..].
  destruct (convert_from_utc E (SlotDict.slot_end_time slot) display) as [e| |];
    [|split; [discriminate|intros (_ & _ & A & _); discriminate A]..].
  split.
  - intros [= <-].
    cbn [ListedSlot.slot_id ListedSlot.start_time ListedSlot.end_time ListedSlot.status
         ListedSlot.appointment_type ListedSlot.location ListedSlot.pricing].
    repeat split.
  - intros (A & B & C & D & F & G & H). destruct x as [a b c d f g h].
    cbn [ListedSlot.slot_id ListedSlot.start_time ListedSlot.end_time ListedSlot.status
         ListedSlot.appointment_type ListedSlot.location ListedSlot.pricing] in *.
    injection B as ->. injection C as ->. subst. reflexivity.
Qed.

Lemma showable_listed (E : Env) (display : string) (slot : SlotDict.t) :
  showable E display slot = true -> exists x, listed_slot_of E display slot = Return x.
Proof.
  unfold showable, listed_slot_of.
  destruct (convert_from_utc E (SlotDict.slot_start_time slot) display); [|discriminate..].
  destruct (convert_from_utc E (SlotDict.slot_end_time slot) display); [|discriminate..].
  eauto.
Qed.

Lemma not_showable_listed (E : Env) (display : string) (slot : SlotDict.t) :
  showable E display slot = false ->
  listed_slot_of E display slot = Raise (ValueError ("Invalid timezone: " ++ display)).
Proof.
  unfold showable, listed_slot_of.
  destruct (convert_from_utc_outcome E (SlotDict.slot_start_time slot) display)
    as [(s & ->)| ->]; [|reflexivity].
  destruct (convert_from_utc_outcome E (SlotDict.slot_end_time slot) display)
    as [(e & ->)| ->]; [discriminate|reflexivity].
Qed.

(** What the grouping loop of the listing returns, when it returns. *)
Lemma by_date_loop_inv (E : Env) (display : string) :
  forall items m result,
    by_date_loop E display items m = Return result ->
    (NoDup (map fst m) -> NoDup (map fst result)) /\
    (Forall (fun g => snd g <> []) m -> Forall (fun g => snd g <> []) result) /\
    entries_count result = (entries_count m + List.length items)%nat /\
    (forall d,
       In d (map fst result) <->
       In d (map fst m) \/
       exists slot, In slot items /\ Calendar.date_of (SlotDict.slot_start_time slot) = d) /\
    (forall d x,
       In x (by_date_get result d) <->
       In x (by_date_get m d) \/
       exists slot, In slot items /\
                    Calendar.date_of (SlotDict.slot_start_time slot) = d /\
                    listed_slot_of E display slot = Return x).
Proof.
  induction items as [|slot items IH]; intros m result; cbn [by_date_loop].
  - intros [= <-]. split; [auto|]. split; [auto|].
    split; [cbn; lia|]. split.
    + intros d. split; [auto|]. intros [H|(s & [] & _)]. exact H.
    + intros d x. split; [auto|]. intros [H|(s & [] & _)]. exact H.
  - destruct (listed_slot_of E display slot) as [x0| |] eqn:Hx0; [|discriminate..].
    intros R. apply IH in R as (Hnd & Hne & Hc & Hk & Hg).
    split; [intros H; now apply Hnd, by_date_append_NoDup|].
    split; [intros H; now apply Hne, by_date_append_nonempty|].
    split; [rewrite Hc, by_date_append_count; cbn; lia|]. split.
    + intros d. rewrite Hk, by_date_append_keys. split.
      * intros [H|(s & Hs & Hd)]; [|right; exists s; split; [now right | exact Hd]].
        destruct (existsb (fun k => k =? _) (map fst m)) eqn:Ex; [now left|].
        apply in_app_or in H as [H|[<-|[]]]; [now left|].
        right. exists slot. split; [now left | reflexivity].
      * intros [H|(s & [<-|Hs] & Hd)].
        -- left. destruct (existsb (fun k => k =? _) (map fst m)); [exact H | apply in_or_app; now left].
        -- left. subst d. destruct (existsb (fun k => k =? _) (map fst m)) eqn:Ex.
           ++ apply existsb_exists in Ex as (k & Hk' & Ek). apply Z.eqb_eq in Ek. now subst k.
           ++ apply in_or_app. right. now left.
        -- right. exists s. auto.
    + intros d x. rewrite Hg, by_date_append_get. split.
      * intros [H|(s & Hs & Hd & Hx)]; [|right; exists s; split; [now right | auto]].
        destruct (_ =? d) eqn:Ed; [|now left].
        apply Z.eqb_eq in Ed. subst d.
        apply in_app_or in H as [H|[<-|[]]]; [now left|].
        right. exists slot. split; [now left | auto].
      * intros [H|(s & [<-|Hs] & Hd & Hx)].
        -- left. destruct (_ =? d) eqn:Ed; [|exact H].
           apply Z.eqb_eq in Ed. subst d. apply in_or_app. now left.
        -- left. subst d. rewrite Z.eqb_refl. apply in_or_app. right.
           rewrite Hx0 in Hx. injection Hx as <-. now left.
        -- right. exists s. auto.
Qed.

(** The loop returns when every slot can be shown, and raises when one
    cannot. *)
Lemma by_date_loop_run (E : Env) (display : string) :
  forall items m,
    (forall slot, In slot items -> showable E display slot = true) ->
    exists result, by_date_loop E display items m = Return result.
Proof.
  induction items as [|slot items IH]; intros m Hs; cbn [by_date_loop]; [eauto|].
  destruct (showable_listed E display slot (Hs slot (or_introl eq_refl))) as (x0 & ->).
  apply IH. intros s H. apply Hs. now right.
Qed.

Lemma by_date_loop_raises (E : Env) (display : string) :
  forall items m,
    (exists slot, In slot items /\ showable E display slot = false) ->
    by_date_loop E display items m = Raise (ValueError ("Invalid timezone: " ++ display)).
Proof.
  induction items as [|slot items IH]; intros m (s & Hin & Hs); [contradiction|].
  cbn [by_date_loop].
  destruct (showable E display slot) eqn:S0.
  - destruct (showable_listed E display slot S0) as (x0 & ->).
    apply IH. exists s. split; [|exact Hs].
    destruct Hin as [<-|Hin]; [congruence|exact Hin].
  - now rewrite (not_showable_listed E display slot S0).
Qed.

Lemma insert_sorted_perm (d : Calendar.date) (l : list Calendar.date) :
  Permutation (insert_sorted d l) (d :: l).
Proof.
  induction l as [|x l IH]; cbn; [reflexivity|].
  destruct (d <=? x); [reflexivity|].
  rewrite IH. apply perm_swap.
Qed.

Lemma sorted_perm (l : list Calendar.date) : Permutation (sorted l) l.
Proof.
  induction l as [|x l IH]; cbn; [reflexivity|].
  rewrite insert_sorted_perm. now constructor.
Qed.

Lemma insert_sorted_lt (d : Calendar.date) (l : list Calendar.date) :
  StronglySorted Z.lt l -> ~ In d l -> StronglySorted Z.lt (insert_sorted d l).
Proof.
  induction l as [|x l IH]; cbn; intros H Hn.
  - repeat constructor.
  - inversion H as [|? ? Hs Hf]; subst.
    destruct (d <=? x) eqn:C.
    + apply Z.leb_le in C.
      assert (d < x) by (assert (d <> x) by (intros ->; apply Hn; now left); lia).
      constructor; [exact H|]. constructor; [exact H0|].
      rewrite Forall_forall in *. intros y Hy. specialize (Hf y Hy). lia.
    + apply Z.leb_gt in C.
      constructor; [apply IH; [exact Hs | intros Hd; apply Hn; now right]|].
      rewrite Forall_forall in *. intros y Hy.
      apply (Permutation_in _ (insert_sorted_perm d l)) in Hy as [<-|Hy]; [exact C | auto].
Qed.

Lemma sorted_lt (l : list Calendar.date) : NoDup l -> StronglySorted Z.lt (sorted l).
Proof.
  induction l as [|x l IH]; cbn; intros H; [constructor|].
  inversion H; subst. apply insert_sorted_lt; [auto|].
  intros Hin. apply (Permutation_in _ (sorted_perm l)) in Hin. contradiction.
Qed.

Lemma entries_count_keys {K} (f : Calendar.date -> K)
    (m : list (Calendar.date * list ListedSlot.t)) :
  NoDup (map fst m) ->
  entries_count (map (fun d => (f d, by_date_get m d)) (map fst m)) = entries_count m.
Proof.
  induction m as [|[k l] m IH]; cbn [map fst entries_count snd by_date_get]; intros H;
    [reflexivity|].
  inversion H as [|? ? Hk Hn]; subst. rewrite Z.eqb_refl. f_equal.
  rewrite <- (IH Hn). f_equal. apply map_ext_in. intros d Hd.
  destruct (k =? d) eqn:E; [|reflexivity].
  apply Z.eqb_eq in E. subst d. contradiction.
Qed.

Lemma entries_count_perm {K A} (f : Calendar.date -> K * list A)
    (l l' : list Calendar.date) :
  Permutation l l' -> entries_count (map f l) = entries_count (map f l').
Proof.
  induction 1; cbn [map entries_count]; lia.
Qed.

Lemma status_counts (l : list SlotDict.t) :
  0 <= count_status "available" l /\ 0 <= count_status "booked" l /\
  0 <= count_status "cancelled" l /\
  count_status "available" l + count_status "booked" l + count_status "cancelled" l
  <= Z.of_nat (List.length l) /\
  (Forall (fun s => SlotDict.status s <> BLOCKED /\ SlotDict.status s <> MAINTENANCE) l ->
   count_status "available" l + count_status "booked" l + count_status "cancelled" l
   = Z.of_nat (List.length l)).
Proof.
  unfold count_status. repeat split; try lia.
  - induction l as [|s l IH]; cbn [filter List.length]; [lia|].
    destruct (SlotDict.status s); cbn [status_is AvailabilityStatus_value String.eqb
                                        Ascii.eqb Bool.eqb andb List.length]; lia.
  - induction l as [|s l IH]; intros H; cbn [filter List.length]; [lia|].
    inversion H as [|? ? [H1 H2] Hf]; subst. specialize (IH Hf).
    destruct (SlotDict.status s); try congruence;
      cbn [status_is AvailabilityStatus_value String.eqb
           Ascii.eqb Bool.eqb andb List.length]; lia.
Qed.

Lemma listing_keeps_iff (start_date end_date : Calendar.date)
    (status appointment_type : option string) (slot : SlotDict.t) :
  listing_keeps start_date end_date status appointment_type slot = true <->
  start_date <= Calendar.date_of (SlotDict.slot_start_time slot) <= end_date /\
  (forall wanted, status = Some wanted -> wanted <> "" ->
                  AvailabilityStatus_value (SlotDict.status slot) = wanted) /\
  (forall wanted, appointment_type = Some wanted -> wanted <> "" ->
                  SlotDict.appointment_type slot = wanted).
Proof.
  unfold listing_keeps.
  destruct (start_date <=? _) eqn:A; [apply Z.leb_le in A|apply Z.leb_gt in A];
    cbn [andb]; [|split; [discriminate | intros (H & _); lia]].
  destruct (_ <=? end_date) eqn:B; [apply Z.leb_le in B|apply Z.leb_gt in B];
    [|split; [discriminate | intros (H & _); lia]].
  assert (Hopt : forall (o : option string) (v : string),
            Py.truthy_opt o && negb (String.eqb v (Py.or_else o "")) = false <->
            (forall wanted, o = Some wanted -> wanted <> "" -> v = wanted)).
  { intros [[|c o]|] v; cbn [Py.truthy_opt Py.truthy Py.or_else andb].
    - split; [intros _ wanted [= <-] H; congruence | reflexivity].
    - rewrite negb_false_iff, String.eqb_eq. split.
      + intros -> wanted [= <-] _. reflexivity.
      + intros H. apply H; [reflexivity | discriminate].
    - split; [intros _ wanted H; discriminate | reflexivity]. }
  unfold status_is.
  destruct (Py.truthy_opt status && _) eqn:S.
  { split; [discriminate|]. intros (_ & H & _).
    pose proof (proj2 (Hopt _ _) H). congruence. }
  pose proof (proj1 (Hopt _ _) S) as S'.
  destruct (Py.truthy_opt appointment_type && _) eqn:T.
  { split; [discriminate|]. intros (_ & _ & H).
    pose proof (proj2 (Hopt _ _) H). congruence. }
  pose proof (proj1 (Hopt _ _) T) as T'. split; [intros _|reflexivity]. auto.
Qed.

Lemma listing_filter_iff (store : list SlotDict.t) (provider_id : string)
    (start_date end_date : Calendar.date) (status appointment_type : option string)
    (slot : SlotDict.t) :
  In slot (filter (listing_keeps start_date end_date status appointment_type)
             (get_appointment_slots store (Some provider_id) None None)) <->
  In slot store /\
  listing_selects provider_id start_date end_date status appointment_type slot.
Proof.
  rewrite filter_In, provider_slots_iff, listing_keeps_iff. unfold listing_selects. tauto.
Qed.

(** How a listing ends, by the outcome of its grouping loop. *)
Lemma listing_run (E : Env) (provider_id : string) (start_date end_date : Calendar.date)
    (status appointment_type timezone : option string) (w : World) :
  let filtered_slots :=
    filter (listing_keeps start_date end_date status appointment_type)
           (get_appointment_slots (APPOINTMENT_SLOTS w) (Some provider_id) None None) in
  get_provider_availability_slots E provider_id start_date end_date status
    appointment_type timezone w
  = match by_date_loop E (display_timezone timezone) filtered_slots [] with
    | Return availability_by_date =>
        (Return (Success None
                   {| Listing.provider_id := provider_id;
                      Listing.total_slots := Z.of_nat (List.length filtered_slots);
                      Listing.available_slots := count_status "available" filtered_slots;
                      Listing.booked_slots := count_status "booked" filtered_slots;
                      Listing.cancelled_slots := count_status "cancelled" filtered_slots;
                      Listing.availability :=
                        map (fun date_obj => (Calendar.isoformat date_obj,
                                              by_date_get availability_by_date date_obj))
                            (sorted (map fst availability_by_date)) |}), w)
    | Raise _ => (Return (Failure "Failed to retrieve availability" 500), w)
    | Diverge => (Diverge, w)
    end.
Proof.
  intros filtered_slots.
  unfold get_provider_availability_slots, try_except.
  rewrite bind_eq. unfold gets at 1. cbv beta iota.
  rewrite bind_eq. unfold gets at 1. cbv beta iota.
  rewrite bind_eq. unfold lift at 1. fold filtered_slots.
  now destruct (by_date_loop E (display_timezone timezone) filtered_slots []).
Qed.

(** X20. What a listing shows.  When every selected slot, that is every
    stored slot of the provider that passes the filters, can be shown in the
    display zone, the listing succeeds and changes nothing; an entry stands
    under a day exactly when a selected slot starts on that day of the UTC
    calendar, whatever the display zone, and the entry carries the id, the
    two local times, the status, the appointment type and the price of the
    slot; an empty provider id, status or appointment type filters nothing.
    When a selected slot cannot be shown, the answer is 500. *)
Theorem listing_entries (E : Env) (provider_id : string) (start_date end_date : Calendar.date)
    (status appointment_type timezone : option string) (w : World) :
  ((forall slot,
      In slot (APPOINTMENT_SLOTS w) ->
      listing_selects provider_id start_date end_date status appointment_type slot ->
      showable E (display_timezone timezone) slot = true) ->
   exists data,
     get_provider_availability_slots E provider_id start_date end_date status
       appointment_type timezone w = (Return (Success None data), w) /\
     (forall day entries entry,
        In (day, entries) (Listing.availability data) -> In entry entries ->
        exists slot,
          In slot (APPOINTMENT_SLOTS w) /\
          listing_selects provider_id start_date end_date status appointment_type slot /\
          day = Calendar.isoformat (Calendar.date_of (SlotDict.slot_start_time slot)) /\
          lists E (display_timezone timezone) slot entry) /\
     (forall slot,
        In slot (APPOINTMENT_SLOTS w) ->
        listing_selects provider_id start_date end_date status appointment_type slot ->
        exists entries entry,
          In (Calendar.isoformat (Calendar.date_of (SlotDict.slot_start_time slot)), entries)
             (Listing.availability data) /\
          In entry entries /\
          lists E (display_timezone timezone) slot entry)) /\
  ((exists slot,
      In slot (APPOINTMENT_SLOTS w) /\
      listing_selects provider_id start_date end_date status appointment_type slot /\
      showable E (display_timezone timezone) slot = false) ->
   get_provider_availability_slots E provider_id start_date end_date status
     appointment_type timezone w
   = (Return (Failure "Failed to retrieve availability" 500), w)).
Proof.
  rewrite (listing_run E provider_id start_date end_date status appointment_type timezone w).
  cbv zeta.
  set (filtered := filter (listing_keeps start_date end_date status appointment_type)
                     (get_appointment_slots (APPOINTMENT_SLOTS w)
                        (Some provider_id) None None)).
  split.
  - intros Hshow.
    destruct (by_date_loop_run E (display_timezone timezone) filtered []) as (result & R).
    { intros slot Hs. apply listing_filter_iff in Hs as [Hs Hsel]. now apply Hshow. }
    rewrite R.
    destruct (by_date_loop_inv E _ _ _ _ R) as (_ & _ & _ & Hk & Hg).
    eexists. split; [reflexivity|]. cbn [Listing.availability]. split.
    + intros day entries entry Hin Hentry.
      apply in_map_iff in Hin as (d & [= <- <-] & Hd).
      apply Hg in Hentry as [[]|(slot & Hs & Hdate & Hx)].
      apply listing_filter_iff in Hs as [Hs Hsel].
      exists slot. subst d. split; [exact Hs|]. split; [exact Hsel|].
      split; [reflexivity|]. now apply listed_slot_of_lists.
    + intros slot Hs Hsel.
      assert (Hf : In slot filtered) by (apply listing_filter_iff; auto).
      destruct (showable_listed E _ slot (Hshow slot Hs Hsel)) as (entry & Hx).
      exists (by_date_get result (Calendar.date_of (SlotDict.slot_start_time slot))), entry.
      split; [|split; [|now apply listed_slot_of_lists]].
      * apply in_map_iff. eexists. split; [reflexivity|].
        apply (Permutation_in _ (Permutation_sym (sorted_perm _))).
        apply Hk. right. exists slot. auto.
      * apply Hg. right. exists slot. auto.
  - intros (slot & Hs & Hsel & Hno).
    rewrite (by_date_loop_raises E (display_timezone timezone) filtered []); [reflexivity|].
    exists slot. split; [|exact Hno]. apply listing_filter_iff. auto.
Qed.

Lemma listing_entries_witness :
  exists data,
    get_provider_availability_slots Sample.env "provider-123"
      (Calendar.ymd2ord 2024 2 1) (Calendar.ymd2ord 2024 2 29) (Some "available") None None
      Scenario.busy_world = (Return (Success None data), Scenario.busy_world) /\
    map fst (Listing.availability data) = ["2024-02-15"] /\
    map (fun g => map ListedSlot.slot_id (snd g)) (Listing.availability data)
    = [["slot-123"; "slot-124"]] /\
    map (fun g => map ListedSlot.start_time (snd g)) (Listing.availability data)
    = [["09:00"; "09:30"]].
Proof.
  destruct (proj1 (listing_entries Sample.env "provider-123"
                     (Calendar.ymd2ord 2024 2 1) (Calendar.ymd2ord 2024 2 29)
                     (Some "available") None None Scenario.busy_world))
    as (data & R & _).
  { intros slot Hin _. destruct Hin as [<-|[<-|[<-|[]]]]; reflexivity. }
  exists data. split; [exact R|].
  vm_compute in R. injection R as <-. repeat split.
Defined.

(** X21. The summary and the layout of a listing that succeeded.  The
    store is as it was; the total is the number of entries shown; the three
    counters by status never exceed it together, and add up to it when no
    stored slot is blocked or under maintenance; no day is shown without an
    entry, and the days come in strictly increasing order of date. *)
Theorem listing_summary (E : Env) (provider_id : string) (start_date end_date : Calendar.date)
    (status appointment_type timezone : option string) (w w' : World)
    (message : option string) (data : Listing.t) :
  get_provider_availability_slots E provider_id start_date end_date status
    appointment_type timezone w = (Return (Success message data), w') ->
  w' = w /\
  Listing.provider_id data = provider_id /\
  Listing.total_slots data = Z.of_nat (entries_count (Listing.availability data)) /\
  0 <= Listing.available_slots data /\ 0 <= Listing.booked_slots data /\
  0 <= Listing.cancelled_slots data /\
  Listing.available_slots data + Listing.booked_slots data + Listing.cancelled_slots data
  <= Listing.total_slots data /\
  ((forall s, In s (APPOINTMENT_SLOTS w) ->
              SlotDict.status s <> BLOCKED /\ SlotDict.status s <> MAINTENANCE) ->
   Listing.available_slots data + Listing.booked_slots data + Listing.cancelled_slots data
   = Listing.total_slots data) /\
  (forall day entries, In (day, entries) (Listing.availability data) -> entries <> []) /\
  exists dates,
    StronglySorted Z.lt dates /\
    map fst (Listing.availability data) = map Calendar.isoformat dates.
Proof.
  rewrite (listing_run E provider_id start_date end_date status appointment_type timezone w).
  cbv zeta.
  set (filtered := filter (listing_keeps start_date end_date status appointment_type)
                     (get_appointment_slots (APPOINTMENT_SLOTS w)
                        (Some provider_id) None None)).
  destruct (by_date_loop E (display_timezone timezone) filtered []) as [result| |] eqn:R;
    [|discriminate..].
  intros [= <- <- <-]. split; [reflexivity|].
  cbn [Listing.provider_id Listing.total_slots Listing.available_slots
       Listing.booked_slots Listing.cancelled_slots Listing.availability].
  destruct (by_date_loop_inv E _ _ _ _ R) as (Hnd & Hne & Hc & Hk & Hg).
  specialize (Hnd (NoDup_nil _)). specialize (Hne (Forall_nil _)). cbn in Hc.
  destruct (status_counts filtered) as (C1 & C2 & C3 & C4 & C5).
  split; [reflexivity|]. split.
  { rewrite (entries_count_perm _ _ _ (sorted_perm (map fst result))).
    rewrite entries_count_keys by exact Hnd. now rewrite Hc. }
  split; [exact C1|]. split; [exact C2|]. split; [exact C3|]. split; [exact C4|].
  split.
  { intros H. apply C5. apply Forall_forall. intros s Hs. apply H.
    apply listing_filter_iff in Hs. tauto. }
  split.
  - intros day entries Hin. apply in_map_iff in Hin as (d & [= <- <-] & Hd).
    apply (Permutation_in _ (sorted_perm _)) in Hd.
    apply in_map_iff in Hd as ([k l] & <- & Hkl). cbn [fst].
    rewrite Forall_forall in Hne. specialize (Hne _ Hkl). cbn in Hne.
    clear - Hnd Hkl Hne. induction result as [|[k' l'] result IH]; [contradiction|].
    cbn in *. inversion Hnd as [|? ? Hk' Hn']; subst.
    destruct Hkl as [[= -> ->]|Hkl].
    + now rewrite Z.eqb_refl.
    + destruct (k' =? k) eqn:E; [|now apply IH].
      apply Z.eqb_eq in E. subst k'. exfalso. apply Hk'.
      change k with (fst (k, l)). now apply in_map.
  - exists (sorted (map fst result)). split; [now apply sorted_lt|].
    rewrite map_map. reflexivity.
Qed.

Lemma listing_summary_witness :
  exists data,
    get_provider_availability_slots Sample.env "provider-123"
      (Calendar.ymd2ord 2024 2 1) (Calendar.ymd2ord 2024 2 29) None None None
      Scenario.busy_world = (Return (Success None data), Scenario.busy_world) /\
    Listing.total_slots data = 3 /\
    Listing.available_slots data = 2 /\
    Listing.booked_slots data = 1 /\
    Listing.total_slots data = Z.of_nat (entries_count (Listing.availability data)).
Proof.
  eexists. split; [vm_compute; reflexivity|].
  split; [reflexivity|]. split; [reflexivity|]. split; [reflexivity|].
  match goal with
  | |- Listing.total_slots ?d = _ =>
      exact (proj1 (proj2 (proj2
               (listing_summary Sample.env "provider-123"
                  (Calendar.ymd2ord 2024 2 1) (Calendar.ymd2ord 2024 2 29) None None None
                  Scenario.busy_world Scenario.busy_world None d eq_refl))))
  end.
Defined.

Lemma by_date_loop_unknown_zone (E : Env) (display : string) :
  pytz_timezone E display = None ->
  forall items m,
    by_date_loop E display items m
    = match items with
      | [] => Return m
      | _ :: _ => Raise (ValueError ("Invalid timezone: " ++ display))
      end.
Proof.
  intros Hz. destruct items as [|slot items]; intros m; [reflexivity|].
  cbn [by_date_loop]. unfold listed_slot_of, convert_from_utc. now rewrite Hz.
Qed.

(** X22. The edges of a listing.  It only reads: the state is never
    changed.  When no stored slot is selected (an unknown provider, an empty
    range) the answer is still a success, with a summary of zeros and no day,
    whatever the display zone; when a slot is selected and pytz does not know
    the display zone, the answer is 500. *)
Theorem listing_outcome (E : Env) (provider_id : string) (start_date end_date : Calendar.date)
    (status appointment_type timezone : option string) (w : World) :
  snd (get_provider_availability_slots E provider_id start_date end_date status
         appointment_type timezone w) = w /\
  ((forall slot, In slot (APPOINTMENT_SLOTS w) ->
      ~ listing_selects provider_id start_date end_date status appointment_type slot) ->
   fst (get_provider_availability_slots E provider_id start_date end_date status
          appointment_type timezone w)
   = Return (Success None
               {| Listing.provider_id := provider_id;
                  Listing.total_slots := 0;
                  Listing.available_slots := 0;
                  Listing.booked_slots := 0;
                  Listing.cancelled_slots := 0;
                  Listing.availability := [] |})) /\
  (pytz_timezone E (display_timezone timezone) = None ->
   (exists slot, In slot (APPOINTMENT_SLOTS w) /\
      listing_selects provider_id start_date end_date status appointment_type slot) ->
   fst (get_provider_availability_slots E provider_id start_date end_date status
          appointment_type timezone w)
   = Return (Failure "Failed to retrieve availability" 500)).
Proof.
  destruct (get_provider_availability_slots E provider_id start_date end_date status
              appointment_type timezone w) as [o w'] eqn:R.
  cbn [fst snd]. revert R.
  unfold get_provider_availability_slots, try_except.
  rewrite bind_eq. unfold gets at 1. cbv beta iota.
  rewrite bind_eq. unfold gets at 1. cbv beta iota.
  rewrite bind_eq. unfold lift at 1.
  pose proof (listing_filter_iff (APPOINTMENT_SLOTS w) provider_id start_date end_date
                status appointment_type) as Hf.
  destruct (filter (listing_keeps start_date end_date status appointment_type)
              (get_appointment_slots (APPOINTMENT_SLOTS w) (Some provider_id) None None))
    as [|s l] eqn:F.
  - cbn [by_date_loop]. unfold ret. intros [= <- <-]. split; [reflexivity|].
    split; [reflexivity|]. intros _ (slot & Hs & Hsel). exfalso.
    apply (proj2 (Hf slot)). auto.
  - destruct (pytz_timezone E (display_timezone timezone)) as [tz|] eqn:Hz.
    + assert (Hsel : ~ (forall slot, In slot (APPOINTMENT_SLOTS w) ->
                        ~ listing_selects provider_id start_date end_date status
                            appointment_type slot)).
      { intros H. apply (H s); apply (proj1 (Hf s)); now left. }
      destruct (by_date_loop E (display_timezone timezone) (s :: l) []);
        unfold ret; intros [= <- <-]; (split; [reflexivity|]);
        (split; [intros H; now elim Hsel|discriminate]).
    + rewrite (by_date_loop_unknown_zone E _ Hz). unfold ret. intros [= <- <-].
      split; [reflexivity|]. split; [|reflexivity].
      intros H. exfalso. apply (H s); apply (proj1 (Hf s)); now left.
Qed.

Lemma listing_outcome_witness :
  fst (get_provider_availability_slots Sample.env "provider-999"
         (Calendar.ymd2ord 2024 2 1) (Calendar.ymd2ord 2024 2 29) None None None
         Sample.seeded_world)
  = Return (Success None
              {| Listing.provider_id := "provider-999";
                 Listing.total_slots := 0;
                 Listing.available_slots := 0;
                 Listing.booked_slots := 0;
                 Listing.cancelled_slots := 0;
                 Listing.availability := [] |}).
Proof.
  apply (proj1 (proj2 (listing_outcome Sample.env "provider-999"
                         (Calendar.ymd2ord 2024 2 1) (Calendar.ymd2ord 2024 2 29)
                         None None None Sample.seeded_world))).
  intros slot [<-|[<-|[]]] ([H|H] & _); discriminate H.
Defined.

(** X23. After [clear_all_data] the service sees an empty store: every
    lookup is empty, a search and a listing succeed with nothing to show,
    whatever the display zone, and updates and deletes answer 404. *)
Theorem clear_all_data_empties (E : Env) (w : World) :
  exists w0,
    clear_all_data w = (Return tt, w0) /\
    (forall provider_id availability_id slot_id,
       get_appointment_slots (APPOINTMENT_SLOTS w0) provider_id availability_id slot_id = []) /\
    (forall provider_id availability_id,
       get_provider_availability (PROVIDER_AVAILABILITY w0) provider_id availability_id = []) /\
    (forall search_request,
       exists data,
         search_availability_slots E search_request w0 = (Return (Success None data), w0) /\
         total_results data = 0 /\ results data = []) /\
    (forall provider_id start_date end_date status appointment_type timezone,
       exists data,
         get_provider_availability_slots E provider_id start_date end_date status
           appointment_type timezone w0 = (Return (Success None data), w0) /\
         Listing.total_slots data = 0 /\ Listing.availability data = []) /\
    (forall slot_id updates,
       update_availability_slot E slot_id updates w0
       = (Return (Failure "Slot not found" 404), w0)) /\
    (forall slot_id delete_recurring reason,
       delete_availability_slot slot_id delete_recurring reason w0
       = (Return (Failure "Slot not found" 404), w0)).
Proof.
  eexists. split; [reflexivity|]. cbn [APPOINTMENT_SLOTS PROVIDER_AVAILABILITY
                                       set_APPOINTMENT_SLOTS set_PROVIDER_AVAILABILITY].
  split.
  { intros p a i. unfold get_appointment_slots.
    destruct (Py.truthy_opt i), (Py.truthy_opt a), (Py.truthy_opt p); reflexivity. }
  split.
  { intros p a. unfold get_provider_availability.
    destruct (Py.truthy_opt a), (Py.truthy_opt p); reflexivity. }
  split.
  { intros search_request. eexists. split; [reflexivity|]. split; reflexivity. }
  split.
  { intros p s e st ty tz. eexists. split.
    - unfold get_provider_availability_slots, try_except.
      rewrite bind_eq. unfold gets at 1. cbv beta iota.
      rewrite bind_eq. unfold gets at 1. cbv beta iota.
      cbn [APPOINTMENT_SLOTS set_APPOINTMENT_SLOTS].
      assert (Hg : get_appointment_slots [] (Some p) None None = []).
      { unfold get_appointment_slots. cbn [Py.truthy_opt].
        destruct (Py.truthy p); reflexivity. }
      rewrite Hg. reflexivity.
    - split; reflexivity. }
  split.
  { intros slot_id updates. unfold update_availability_slot, try_except.
    rewrite bind_eq. unfold gets at 1. cbv beta iota.
    cbn [APPOINTMENT_SLOTS set_APPOINTMENT_SLOTS].
    assert (Hg : get_appointment_slots [] None None (Some slot_id) = []).
    { unfold get_appointment_slots. cbn [Py.truthy_opt].
      destruct (Py.truthy slot_id); reflexivity. }
    rewrite Hg. reflexivity. }
  intros slot_id delete_recurring reason. unfold delete_availability_slot, try_except.
  rewrite bind_eq. unfold gets at 1. cbv beta iota.
  cbn [APPOINTMENT_SLOTS set_APPOINTMENT_SLOTS].
  assert (Hg : get_appointment_slots [] None None (Some slot_id) = []).
  { unfold get_appointment_slots. cbn [Py.truthy_opt].
    destruct (Py.truthy slot_id); reflexivity. }
  rewrite Hg. reflexivity.
Qed.
